(** * ado_wrapper: the state-managed resource layer

    A shallow embedding of [ado_wrapper/state_managed_abc.py] (the JSON codec
    and the generic create / read / update / delete engine) together with the
    [Repo] and [Project] resources of [ado_wrapper/resources], followed by the
    properties of the codec and of the engine.

    Python values are an inductive type, dictionaries are association lists in
    insertion order, exceptions are an inductive type, fallible functions
    return a [Result], and the engine runs in a state-and-exception monad over
    a [World] that records the HTTP calls made, the State Store, the plan list
    and the standard output. *)

From Stdlib Require Import String Ascii ZArith List Bool Lia.
From Stdlib Require Import DecimalString.
From stdpp Require Import base decidable option gmap strings.

Import ListNotations.
Local Open Scope string_scope.
Local Open Scope Z_scope.

(* stdpp keeps [simpl] from unfolding the concatenation of strings; the
   proofs below compute with it. *)
#[local] Arguments String.append !_ _ /.

(* ===================================================================== *)
(** * Python strings *)
(* ===================================================================== *)

Module PyString.

(** [s.startswith(p)] *)
Definition startswith (s p : string) : bool := String.prefix p s.

(** [s.endswith(p)] *)
Definition endswith (s p : string) : bool :=
  (String.length p <=? String.length s)%nat
  && String.eqb (substring (String.length s - String.length p) (String.length p) s) p.

(** [sep in s] for strings. *)
Fixpoint contains (sep s : string) : bool :=
  String.prefix sep s
  || match s with
     | EmptyString => false
     | String _ s' => contains sep s'
     end.

(** The scan behind [s.split(sep)] for a non-empty [sep]: [skip] counts the
    characters of a separator just matched that are still to be dropped,
    [cur] is the piece being collected. *)
Fixpoint split_go (sep : string) (skip : nat) (cur s : string) : list string :=
  match s with
  | EmptyString => [cur]
  | String c s' =>
      match skip with
      | S k => split_go sep k cur s'
      | O =>
          if String.prefix sep s
          then cur :: split_go sep (String.length sep - 1) EmptyString s'
          else split_go sep 0 (cur ++ String c EmptyString) s'
      end
  end.

(** [s.split(sep)] *)
Definition split (sep s : string) : list string := split_go sep 0 EmptyString s.

(** [c in s] for a one-character [c]. *)
Fixpoint has_char (c : ascii) (s : string) : bool :=
  match s with
  | EmptyString => false
  | String a s' => Ascii.eqb a c || has_char c s'
  end.

(** [s.rsplit(c, maxsplit=1)[-1]] for a one-character separator: what follows
    the last [c], or all of [s] when [c] does not occur. *)
Fixpoint rsplit1_last (c : ascii) (s : string) : string :=
  match s with
  | EmptyString => EmptyString
  | String a s' =>
      if has_char c s' then rsplit1_last c s'
      else if Ascii.eqb a c then s' else s
  end.

(** [s.removesuffix(p)] *)
Definition removesuffix (s p : string) : string :=
  if endswith s p then substring 0 (String.length s - String.length p) s else s.

(** [s.removeprefix(p)] *)
Definition removeprefix (s p : string) : string :=
  if startswith s p then substring (String.length p) (String.length s - String.length p) s else s.

(** [sep.join(l)] *)
Fixpoint join (sep : string) (l : list string) : string :=
  match l with
  | [] => EmptyString
  | [x] => x
  | x :: t => x ++ sep ++ join sep t
  end.

(** [str(n)] for an integer. *)
Definition of_Z (n : Z) : string := NilZero.string_of_int (Z.to_int n).

(** [repr(s)] for a string without quotes, backslashes or control characters
    (attribute names are identifiers). *)
Definition repr (s : string) : string := "'" ++ s ++ "'".

(** [str(l)] for a list of such strings. *)
Definition repr_list (l : list string) : string := "[" ++ join ", " (map repr l) ++ "]".

End PyString.

(* ===================================================================== *)
(** * [datetime.datetime] (naive: no [tzinfo]) *)
(* ===================================================================== *)

Record datetime : Type := mk_datetime {
  year : Z; month : Z; day : Z;
  hour : Z; minute : Z; second : Z; microsecond : Z
}.

Module DateTime.

Definition is_leap (y : Z) : bool :=
  (y mod 4 =? 0) && (negb (y mod 100 =? 0) || (y mod 400 =? 0)).

Definition days_in_month (y m : Z) : Z :=
  if m =? 2 then (if is_leap y then 29 else 28)
  else if (m =? 4) || (m =? 6) || (m =? 9) || (m =? 11) then 30
  else 31.

(** The ranges every [datetime] object satisfies (MINYEAR = 1, MAXYEAR = 9999). *)
Definition valid (d : datetime) : bool :=
  (1 <=? year d) && (year d <=? 9999)
  && (1 <=? month d) && (month d <=? 12)
  && (1 <=? day d) && (day d <=? days_in_month (year d) (month d))
  && (0 <=? hour d) && (hour d <? 24)
  && (0 <=? minute d) && (minute d <? 60)
  && (0 <=? second d) && (second d <? 60)
  && (0 <=? microsecond d) && (microsecond d <? 1000000).

Definition digit (n : Z) : ascii := ascii_of_nat (48 + Z.to_nat n).

Definition digit_val (c : ascii) : option Z :=
  let n := Z.of_nat (nat_of_ascii c) in
  if (48 <=? n) && (n <=? 57) then Some (n - 48) else None.

(** The [k] low decimal digits of [n], most significant first ([%0kd]). *)
Fixpoint pad (k : nat) (n : Z) : string :=
  match k with
  | O => EmptyString
  | S k' => String (digit ((n / 10 ^ Z.of_nat k') mod 10)) (pad k' n)
  end.

(** Read exactly [k] decimal digits. *)
Fixpoint read_digits (k : nat) (acc : Z) (s : string) : option (Z * string) :=
  match k with
  | O => Some (acc, s)
  | S k' =>
      match s with
      | EmptyString => None
      | String c s' =>
          match digit_val c with
          | Some v => read_digits k' (acc * 10 + v) s'
          | None => None
          end
      end
  end.

Definition expect (c : ascii) (s : string) : option string :=
  match s with
  | String a s' => if Ascii.eqb a c then Some s' else None
  | EmptyString => None
  end.

(** [d.isoformat()]: [YYYY-MM-DDTHH:MM:SS], followed by [.ffffff] when the
    microsecond is not zero. *)
Definition isoformat (d : datetime) : string :=
  pad 4 (year d) ++ "-" ++ pad 2 (month d) ++ "-" ++ pad 2 (day d) ++ "T"
  ++ pad 2 (hour d) ++ ":" ++ pad 2 (minute d) ++ ":" ++ pad 2 (second d)
  ++ (if microsecond d =? 0 then "" else "." ++ pad 6 (microsecond d)).

(** [datetime.fromisoformat(s)] on the strings [isoformat] writes for naive
    datetimes, any single character standing between date and time; the
    fields are range-checked as the constructor does.  [None] is the
    [ValueError] of the library.  Other spellings the library also reads
    (date only, reduced precision, UTC offsets) are outside this model. *)
Definition fromisoformat (s : string) : option datetime :=
  match read_digits 4 0 s with
  | None => None
  | Some (y, s) =>
  match expect "-" s with None => None | Some s =>
  match read_digits 2 0 s with None => None | Some (mo, s) =>
  match expect "-" s with None => None | Some s =>
  match read_digits 2 0 s with None => None | Some (dd, s) =>
  match s with EmptyString => None | String _ s =>
  match read_digits 2 0 s with None => None | Some (hh, s) =>
  match expect ":" s with None => None | Some s =>
  match read_digits 2 0 s with None => None | Some (mi, s) =>
  match expect ":" s with None => None | Some s =>
  match read_digits 2 0 s with None => None | Some (ss, s) =>
  let finish us :=
    let d := mk_datetime y mo dd hh mi ss us in
    if valid d then Some d else None in
  match s with
  | EmptyString => finish 0
  | String c s =>
      if Ascii.eqb c "." then
        match read_digits 6 0 s with
        | Some (us, EmptyString) => finish us
        | _ => None
        end
      else None
  end end end end end end end end end end end
  end.

End DateTime.

(* ===================================================================== *)
(** * Python values *)
(* ===================================================================== *)

(** A dataclass field with the [metadata] the resources declare:
    [field(metadata={"is_id_field": ..., "editable": ..., "internal_name": ...})]. *)
Record Field : Type := mk_field {
  field_name : string;
  is_id_field : bool;
  editable : bool;
  internal_name : option string
}.

(** What an instance knows of its class: [__module__], [__name__] and the
    declared [fields]. *)
Record PyType : Type := mk_type {
  type_module : string;
  type_name : string;
  type_fields : list Field
}.

#[global] Instance Field_eq_dec : EqDecision Field.
Proof. solve_decision. Defined.

#[global] Instance PyType_eq_dec : EqDecision PyType.
Proof. solve_decision. Defined.

(** Values: [None], [bool], [int], [str], [datetime], [list], [dict] with
    string keys (in insertion order), and instances ([type(v)] with the
    instance [__dict__]). *)
#[warnings="-register-all"]
Inductive PyVal : Type :=
| VNone
| VBool (b : bool)
| VInt (n : Z)
| VStr (s : string)
| VDatetime (d : datetime)
| VList (l : list PyVal)
| VDict (d : list (string * PyVal))
| VObj (t : PyType) (attrs : list (string * PyVal)).

(** Exceptions: those of [ado_wrapper.errors] raised by the engine, and the
    built-in ones its expressions can raise. *)
Inductive PyExn : Type :=
| ResourceNotFound (msg : string)
| ResourceAlreadyExists (msg : string)
| InvalidPermissionsError (msg : string)
| DeletionFailed (msg : string)
| UpdateFailed (msg : string)
| ValueError (msg : string)
| NotImplementedError
| KeyError (key : string)
| IndexError
| TypeError
| AttributeError
| JSONDecodeError.

(** The outcome of an expression: a value, or the exception raised. *)
Inductive Result (A : Type) : Type :=
| Ok (a : A)
| Raise (e : PyExn).

Arguments Ok {A} a.
Arguments Raise {A} e.

Notation "'try' x ':=' e 'in' k" :=
  (match e with Ok x => k | Raise err => Raise err end)
  (at level 10, x name, e at level 100, k at level 200, only parsing).

(** [dict] operations on association lists with distinct keys. *)
Module PyDict.
Section Ops.
Context {V : Type}.

(** [d.get(k)] *)
Fixpoint get (k : string) (d : list (string * V)) : option V :=
  match d with
  | [] => None
  | (k', v) :: t => if String.eqb k' k then Some v else get k t
  end.

(** [k in d] *)
Definition mem (k : string) (d : list (string * V)) : bool :=
  match get k d with Some _ => true | None => false end.

(** [d[k] = v]: an existing key keeps its place, a new one goes last. *)
Fixpoint set (k : string) (v : V) (d : list (string * V)) : list (string * V) :=
  match d with
  | [] => [(k, v)]
  | (k', v') :: t => if String.eqb k' k then (k', v) :: t else (k', v') :: set k v t
  end.

(** What is left of [d] after [del d[k]]. *)
Definition remove (k : string) (d : list (string * V)) : list (string * V) :=
  List.filter (fun kv => negb (String.eqb (fst kv) k)) d.

(** [dict(pairs)]: a later pair overwrites an earlier one with the same key. *)
Definition of_pairs (l : list (string * V)) : list (string * V) :=
  fold_left (fun d kv => set (fst kv) (snd kv) d) l [].

(** [list(d.keys())] *)
Definition keys (d : list (string * V)) : list string := map fst d.

End Ops.
End PyDict.

(** [d[k]] and [del d[k]] with their [KeyError]. *)
Definition dict_getitem {V} (k : string) (d : list (string * V)) : Result V :=
  match PyDict.get k d with Some v => Ok v | None => Raise (KeyError k) end.

Definition dict_delitem {V} (k : string) (d : list (string * V)) : Result (list (string * V)) :=
  if PyDict.mem k d then Ok (PyDict.remove k d) else Raise (KeyError k).

(** [[f(x) for x in l]] for a fallible [f], stopping at the first exception. *)
Definition mapM {A B} (f : A -> Result B) : list A -> Result (list B) :=
  fix go (l : list A) : Result (list B) :=
    match l with
    | [] => Ok []
    | x :: t => try y := f x in try ys := go t in Ok (y :: ys)
    end.

(** [bool(v)] *)
Definition py_bool (v : PyVal) : bool :=
  match v with
  | VNone => false
  | VBool b => b
  | VInt n => negb (n =? 0)
  | VStr s => negb (String.eqb s "")
  | VDatetime _ => true
  | VList l => match l with [] => false | _ => true end
  | VDict d => match d with [] => false | _ => true end
  | VObj _ _ => true
  end.

(** [str(type(v))] for an instance: [<class 'module.Name'>]. *)
Definition str_type (t : PyType) : string :=
  "<class '" ++ type_module t ++ "." ++ type_name t ++ "'>".

(** [getattr(self, name)] on an instance [__dict__]. *)
Definition getattr (attrs : list (string * PyVal)) (name : string) : Result PyVal :=
  match PyDict.get name attrs with Some v => Ok v | None => Raise AttributeError end.

(** [datetime.fromisoformat(value)] on a Python value. *)
Definition py_fromisoformat (value : PyVal) : Result PyVal :=
  match value with
  | VStr s =>
      match DateTime.fromisoformat s with
      | Some d => Ok (VDatetime d)
      | None => Raise (ValueError ("Invalid isoformat string: " ++ PyString.repr s))
      end
  | _ => Raise TypeError
  end.

(* ===================================================================== *)
(** * The world the engine acts on *)
(* ===================================================================== *)

(** A call on [ado_client.session]: the verb, the URL and the [json=] body. *)
Record HttpRequest : Type := mk_request {
  req_method : string;
  req_url : string;
  req_json : option PyVal
}.

(** What the engine reads of a [requests.Response]: [status_code], [text] and
    [json()], which raises when the body is not JSON ([None] here). *)
Record HttpResponse : Type := mk_response {
  status_code : Z;
  text : string;
  json_body : option PyVal
}.

Inductive PlanOperation : Type := PlanCreate | PlanUpdate.

(** A Planned Change: resource kind, operation, target url, before-state
    (for updates) and proposed payload. *)
Record PlannedChange : Type := mk_planned {
  planned_kind : string;
  planned_operation : PlanOperation;
  planned_url : string;
  planned_before : option PyVal;
  planned_payload : list (string * PyVal)
}.

(** What the engine can change outside the instance it is called on. *)
Record World : Type := mk_world {
  http_log : list HttpRequest;               (* the calls made on the session, oldest first *)
  state : gmap (string * string) PyVal;      (* the State Store: (kind, id) to serialized resource *)
  plan : list PlannedChange;                 (* the plan list of plan mode *)
  stdout : list string                       (* the lines printed *)
}.

(** The attributes of [AdoClient] the engine reads.  The session is a stub
    HTTP collaborator: its answer may depend on the calls made before. *)
Record AdoClient : Type := mk_client {
  ado_org : string;
  ado_project : string;
  plan_mode : bool;
  suppress_warnings : bool;
  session : list HttpRequest -> HttpRequest -> HttpResponse
}.

(** Computations that read and write a state [S] and may raise; the state
    reached when the exception is raised is kept. *)
Definition Eff (S A : Type) : Type := S -> Result A * S.

(** [return a], [raise e], sequencing, and a pure fallible step. *)
Definition ret {S A} (a : A) : Eff S A := fun s => (Ok a, s).

Definition raise {S A} (e : PyExn) : Eff S A := fun s => (Raise e, s).

Definition bind {S A B} (m : Eff S A) (k : A -> Eff S B) : Eff S B :=
  fun s => match m s with
           | (Ok a, s') => k a s'
           | (Raise e, s') => (Raise e, s')
           end.

Definition lift {S A} (r : Result A) : Eff S A := fun s => (r, s).

Notation "x <- m ;; k" := (bind m (fun x => k))
  (at level 100, m at next level, right associativity, only parsing).

Notation "m ;;; k" := (bind m (fun _ => k))
  (at level 100, right associativity, only parsing).

(** A resource class: its type, the defaults of its fields, and the methods
    each resource supplies itself. *)
Record PyClass : Type := mk_class {
  cls_type : PyType;
  cls_defaults : list (string * PyVal);
  from_request_payload : PyVal -> Result PyVal;
  _get_by_id : AdoClient -> PyVal -> Eff World PyVal
}.

(** [cls.__name__] *)
Definition cls_name (cls : PyClass) : string := type_name (cls_type cls).

(** Calling the dataclass [cls] with the keyword arguments [kwargs]: every
    keyword names a field, and a field without keyword takes its default or
    is a [TypeError]. *)
Definition construct (cls : PyClass) (kwargs : list (string * PyVal)) : Result PyVal :=
  if forallb (fun k => existsb (fun f => String.eqb (field_name f) k) (type_fields (cls_type cls)))
             (PyDict.keys kwargs)
  then
    try attrs := mapM (fun f =>
                   match PyDict.get (field_name f) kwargs with
                   | Some v => Ok (field_name f, v)
                   | None =>
                       match PyDict.get (field_name f) (cls_defaults cls) with
                       | Some v => Ok (field_name f, v)
                       | None => Raise TypeError
                       end
                   end) (type_fields (cls_type cls)) in
    Ok (VObj (cls_type cls) attrs)
  else Raise TypeError.

(* ===================================================================== *)
(** * Resources of [ado_wrapper/resources] *)
(* ===================================================================== *)

(** What a class inherits from [StateManagedResource] when it does not
    define [_get_by_id] itself: [raise NotImplementedError]. *)
Definition base_get_by_id : AdoClient -> PyVal -> Eff World PyVal :=
  fun _ _ => raise NotImplementedError.

(** [resources/repo.py]: the dataclass [Repo]. *)
Module Repo.

Definition type : PyType :=
  mk_type "ado_wrapper.resources.repo" "Repo"
    [ mk_field "repo_id" true false None;
      mk_field "name" false true None;
      mk_field "default_branch" false true (Some "defaultBranch");
      mk_field "is_disabled" false true (Some "isDisabled") ].

Definition defaults : list (string * PyVal) :=
  [ ("default_branch", VStr "main"); ("is_disabled", VBool false) ].

(** [Repo(repo_id, name, default_branch, is_disabled)] *)
Definition new (repo_id name default_branch is_disabled : PyVal) : PyVal :=
  VObj type [ ("repo_id", repo_id); ("name", name);
              ("default_branch", default_branch); ("is_disabled", is_disabled) ].

Definition from_request_payload (data : PyVal) : Result PyVal :=
  match data with
  | VDict data =>
      try id := dict_getitem "id" data in
      try name := dict_getitem "name" data in
      match default (VStr "main") (PyDict.get "defaultBranch" data) with
      | VStr branch =>
          Ok (new id name (VStr (PyString.removeprefix branch "refs/heads/"))
                  (VBool (py_bool (default (VBool false) (PyDict.get "isDisabled" data)))))
      | _ => Raise AttributeError
      end
  | _ => Raise TypeError
  end.

Definition class : PyClass := mk_class type defaults from_request_payload base_get_by_id.

End Repo.

(** [resources/projects.py]: the dataclass [Project]. *)
Module Project.

Definition type : PyType :=
  mk_type "ado_wrapper.resources.projects" "Project"
    [ mk_field "project_id" true false None;
      mk_field "name" false false None;
      mk_field "description" false false None;
      mk_field "last_update_time" false false None ].

Definition defaults : list (string * PyVal) := [ ("last_update_time", VNone) ].

Definition new (project_id name description last_update_time : PyVal) : PyVal :=
  VObj type [ ("project_id", project_id); ("name", name);
              ("description", description); ("last_update_time", last_update_time) ].

Definition from_request_payload (data : PyVal) : Result PyVal :=
  match data with
  | VDict data =>
      try id := dict_getitem "id" data in
      try name := dict_getitem "name" data in
      Ok (new id name (default (VStr "") (PyDict.get "description" data))
                      (default VNone (PyDict.get "lastUpdateTime" data)))
  | _ => Raise TypeError
  end.

Definition class : PyClass := mk_class type defaults from_request_payload base_get_by_id.

End Project.

(** [resources/repo.py], lines 207-228: the dataclass [BuildRepository],
    which has a codec of its own. *)
Module BuildRepository.

Definition type : PyType :=
  mk_type "ado_wrapper.resources.repo" "BuildRepository"
    [ mk_field "build_repository_id" true false None;
      mk_field "name" false false None;
      mk_field "type" false false None;
      mk_field "clean" false false None;
      mk_field "checkout_submodules" false false (Some "checkoutSubmodules") ].

(** [BuildRepository(build_repository_id, name, type, clean, checkout_submodules)] *)
Definition new (build_repository_id name type_ clean checkout_submodules : PyVal) : PyVal :=
  VObj type [ ("build_repository_id", build_repository_id); ("name", name);
              ("type", type_); ("clean", clean);
              ("checkout_submodules", checkout_submodules) ].

(** Lines 215-218. *)
Definition from_request_payload (data : PyVal) : Result PyVal :=
  match data with
  | VDict data =>
      try id := dict_getitem "id" data in
      Ok (new id (default VNone (PyDict.get "name" data))
                 (default (VStr "TfsGit") (PyDict.get "type" data))
                 (default VNone (PyDict.get "clean" data))
                 (default (VBool false) (PyDict.get "checkoutSubmodules" data)))
  | _ => Raise TypeError
  end.

(** Lines 220-222. *)
Definition from_json (data : PyVal) : Result PyVal :=
  match data with
  | VDict data =>
      try id := dict_getitem "id" data in
      Ok (new id (default VNone (PyDict.get "name" data))
                 (default (VStr "TfsGit") (PyDict.get "type" data))
                 (default VNone (PyDict.get "clean" data))
                 (default (VBool false) (PyDict.get "checkoutSubmodules" data)))
  | _ => Raise TypeError
  end.

(** Lines 224-228. *)
Definition to_json (self : PyVal) : Result PyVal :=
  match self with
  | VObj _ attrs =>
      try id := getattr attrs "build_repository_id" in
      try name := getattr attrs "name" in
      try type_ := getattr attrs "type" in
      try clean := getattr attrs "clean" in
      try checkout_submodules := getattr attrs "checkout_submodules" in
      Ok (VDict (PyDict.of_pairs
                   [ ("id", id); ("name", name); ("type", type_); ("clean", clean);
                     ("checkoutSubmodules", checkout_submodules) ]))
  | _ => Raise AttributeError
  end.

End BuildRepository.

(* ===================================================================== *)
(** * Collaborators of the engine that are specified, not shown *)
(* ===================================================================== *)

(** Modelled from the spec: [utils.extract_id] is missing.  A resource has
    exactly one field marked as its identifier ([is_id_field] in the field
    metadata); asking for it on a type that declares none is a configuration
    error. *)
Definition extract_id (obj : PyVal) : Result PyVal :=
  match obj with
  | VObj t attrs =>
      match find is_id_field (type_fields t) with
      | Some f => getattr attrs (field_name f)
      | None => Raise (ValueError ("No id field found for " ++ type_name t ++ "!"))
      end
  | _ => Raise AttributeError
  end.

(** Modelled from the spec: [utils.get_internal_field_names] is missing.  The
    mapping from each editable field's local name to its wire name, which
    defaults to the field's own name. *)
Definition get_internal_field_names (t : PyType) : list (string * string) :=
  map (fun f => (field_name f, default (field_name f) (internal_name f)))
      (List.filter (fun f => editable f) (type_fields t)).

Module StateManager.

(** Modelled from the spec: the state file is a JSON document that maps each
    resource kind to a mapping from id to serialized resource.  The key of an
    identifier is the identifier itself when it is a string (as identifiers
    are), its JSON text when it is a number, a boolean or [None]; any other
    value cannot be the key of a JSON object ([TypeError]). *)
Definition key (resource_id : PyVal) : Result string :=
  match resource_id with
  | VStr s => Ok s
  | VInt n => Ok (PyString.of_Z n)
  | VBool true => Ok "true"
  | VBool false => Ok "false"
  | VNone => Ok "null"
  | _ => Raise TypeError
  end.

(** One write-through step on the store. *)
Definition with_state (f : gmap (string * string) PyVal -> gmap (string * string) PyVal)
  : Eff World unit :=
  fun w => (Ok tt, mk_world (http_log w) (f (state w)) (plan w) (stdout w)).

(** Modelled from the spec: [StateManager.add_resource_to_state] is missing.
    Upsert of the entry keyed by (resource kind name, resource id). *)
Definition add_resource_to_state (kind : string) (resource_id data : PyVal)
  : Eff World unit :=
  k <- lift (key resource_id) ;;
  with_state (fun store => <[(kind, k) := data]> store).

(** Modelled from the spec: [StateManager.update_resource_in_state] is
    missing.  The entry is replaced on a successful update. *)
Definition update_resource_in_state (kind : string) (resource_id data : PyVal)
  : Eff World unit :=
  k <- lift (key resource_id) ;;
  with_state (fun store => <[(kind, k) := data]> store).

(** Modelled from the spec: [StateManager.remove_resource_from_state] is
    missing.  Removal of the entry keyed by (resource kind name, resource id). *)
Definition remove_resource_from_state (kind : string) (resource_id : PyVal)
  : Eff World unit :=
  k <- lift (key resource_id) ;;
  with_state (fun store => delete (kind, k) store).

End StateManager.

Module PlannedStateManagedResource.

(** The class of the placeholder a planned create returns. *)
Definition type : PyType :=
  mk_type "ado_wrapper.plan_resources.plan_resource" "PlannedStateManagedResource" [].

(** One more Planned Change on the plan list. *)
Definition record (c : PlannedChange) : Eff World unit :=
  fun w => (Ok tt, mk_world (http_log w) (state w) (plan w ++ [c]) (stdout w)).

(** Modelled from the spec: [PlannedStateManagedResource.create] is missing.
    The call becomes a Planned Change appended to the in-memory plan list,
    and a resource-shaped placeholder that carries no identifier from a
    server is returned. *)
Definition create (cls : PyClass) (ado_client : AdoClient) (url : string)
    (payload : option (list (string * PyVal))) : Eff World PyVal :=
  record (mk_planned (cls_name cls) PlanCreate url None (default [] payload)) ;;;
  ret (VObj type []).

(** Modelled from the spec: [PlannedStateManagedResource.update] is missing.
    The call becomes a Planned Change (with the instance as before-state)
    appended to the in-memory plan list. *)
Definition update (self : PyVal) (ado_client : AdoClient) (url : string)
    (attribute_name : string) (attribute_value : PyVal)
    (params : list (string * PyVal)) : Eff World unit :=
  record (mk_planned (match self with VObj t _ => type_name t | _ => "" end)
                     PlanUpdate url (Some self) params).

End PlannedStateManagedResource.

(* ===================================================================== *)
(** * Primitives of the engine *)
(* ===================================================================== *)

(** A bare path is joined with the organisation's base URL. *)
Definition full_url (ado_client : AdoClient) (url : string) : string :=
  if PyString.startswith url "https://" then url
  else "https://dev.azure.com/" ++ ado_org ado_client ++ url.

(** One call on [ado_client.session]; it is appended to the log. *)
Definition http (ado_client : AdoClient) (method url : string) (json : option PyVal)
  : Eff World HttpResponse :=
  fun w =>
    let req := mk_request method url json in
    (Ok (session ado_client (http_log w) req),
     mk_world (http_log w ++ [req]) (state w) (plan w) (stdout w)).

(** [print(line)] *)
Definition print (line : string) : Eff World unit :=
  fun w => (Ok tt, mk_world (http_log w) (state w) (plan w) (stdout w ++ [line])).

(** [request.json()] *)
Definition json (request : HttpResponse) : Result PyVal :=
  match json_body request with
  | Some j => Ok j
  | None => Raise JSONDecodeError
  end.

(** [key in container] for a string [key]. *)
Definition py_contains (key : string) (container : PyVal) : Result bool :=
  match container with
  | VDict d => Ok (PyDict.mem key d)
  | VList l => Ok (existsb (fun x => match x with VStr s => String.eqb s key | _ => false end) l)
  | VStr s => Ok (PyString.contains key s)
  | _ => Raise TypeError
  end.

(** [container[key]] for a string [key]. *)
Definition py_getitem (key : string) (container : PyVal) : Result PyVal :=
  match container with
  | VDict d => dict_getitem key d
  | _ => Raise TypeError
  end.

(** [container[0]] *)
Definition py_first (container : PyVal) : Result PyVal :=
  match container with
  | VList (x :: _) => Ok x
  | VList [] => Raise IndexError
  | VStr (String c _) => Ok (VStr (String c EmptyString))
  | VStr EmptyString => Raise IndexError
  | VDict _ => Raise (KeyError "0")
  | _ => Raise TypeError
  end.

(** A computation on the world, run beside the instance [self]. *)
Definition on_world {A} (m : Eff World A) : Eff (PyVal * World) A :=
  fun sw => match m (snd sw) with (r, w') => (r, (fst sw, w')) end.

(** The instance the method was called on. *)
Definition get_self : Eff (PyVal * World) PyVal := fun sw => (Ok (fst sw), sw).

(** [setattr(self, name, value)] *)
Definition setattr (name : string) (value : PyVal) : Eff (PyVal * World) unit :=
  fun sw =>
    match fst sw with
    | VObj t attrs => (Ok tt, (VObj t (PyDict.set name value attrs), snd sw))
    | _ => (Raise AttributeError, sw)
    end.

(* ===================================================================== *)
(** * Sample data *)
(* ===================================================================== *)

Module Sample.

(** A registry with the two resources above. *)
Definition registry : list (string * PyClass) :=
  [ ("Repo", Repo.class); ("Project", Project.class) ].

(** A stand-in for the [__repr__] of the values [py_str] does not spell out. *)
Definition repr_other : PyVal -> string := fun _ => "<object>".

(** The repository of [tests/test_repo.py]. *)
Definition repo : PyVal :=
  Repo.new (VStr "123") (VStr "test-repo") (VStr "master") (VBool false).

(** A project with its [last_update_time]. *)
Definition project : PyVal :=
  Project.new (VStr "7") (VStr "platform") (VStr "shared services")
              (VDatetime (mk_datetime 2024 1 1 12 14 30 360000)).

(** A fresh world: nothing sent, nothing stored, nothing planned or printed. *)
Definition world : World := mk_world [] ∅ [] [].

(** A stub session that gives every request the same answer. *)
Definition stub (status : Z) (body_text : string) (body : option PyVal)
  : list HttpRequest -> HttpRequest -> HttpResponse :=
  fun _ _ => mk_response status body_text body.

Definition client (plan quiet : bool) (status : Z) (body_text : string)
    (body : option PyVal) : AdoClient :=
  mk_client "org" "project" plan quiet (stub status body_text body).

Definition repo_url : string := "/project/_apis/git/repositories/123?api-version=7.1".

End Sample.

(** A stub service that holds one repository: it answers a POST with the
    new repository, a GET with the listing, a PATCH with 200, the first
    DELETE with 204 and every later one with 404. *)
Module Service.

Definition created : PyVal := VDict [ ("id", VStr "123"); ("name", VStr "test-repo") ].

Definition listing : PyVal :=
  VDict [ ("count", VInt 2);
          ("value", VList [ VDict [ ("id", VStr "7"); ("name", VStr "other");
                                    ("defaultBranch", VStr "refs/heads/develop") ];
                            created ]) ].

Definition is_delete (req : HttpRequest) : bool := String.eqb (req_method req) "DELETE".

Definition session : list HttpRequest -> HttpRequest -> HttpResponse :=
  fun log req =>
    if String.eqb (req_method req) "POST" then mk_response 201 "" (Some created)
    else if String.eqb (req_method req) "GET" then mk_response 200 "" (Some listing)
    else if String.eqb (req_method req) "patch" then mk_response 200 "" (Some created)
    else if is_delete req then
      if existsb is_delete log then mk_response 404 "" None
      else mk_response 204 "" None
    else mk_response 405 "" None.

Definition client : AdoClient := mk_client "org" "project" false false session.

End Service.

(* ===================================================================== *)
(** * [state_managed_abc.py] *)
(* ===================================================================== *)

Section StateManagedResource.

(** [utils.get_resource_variables()]: the process-wide registry from type
    names to the resource classes the library knows.  Its classes take
    [to_json] and [from_json] from [StateManagedResource]. *)
Variable get_resource_variables : list (string * PyClass).

(** [str(v)] for the values whose text this model does not spell out:
    containers, datetimes and instances ([__repr__]). *)
Variable repr_other : PyVal -> string.

(** [str(v)] *)
Definition py_str (v : PyVal) : string :=
  match v with
  | VNone => "None"
  | VBool true => "True"
  | VBool false => "False"
  | VInt n => PyString.of_Z n
  | VStr s => s
  | _ => repr_other v
  end.

(** [t in get_resource_variables().values()] *)
Definition is_resource_type (t : PyType) : bool :=
  existsb (fun entry => bool_decide (cls_type (snd entry) = t)) get_resource_variables.

(** [str(type(v)).rsplit(".", maxsplit=1)[-1].removesuffix("'>")] *)
Definition class_name_of (t : PyType) : string :=
  PyString.removesuffix (PyString.rsplit1_last "." (str_type t)) "'>".

(** Lines 13-23.  The instance case holds the body of [to_json] (below): the
    attributes are converted where they stand in [__dict__], and the fields
    then pick their converted attribute by name. *)
Fixpoint recursively_convert_to_json (attribute_name : string) (attribute_value : PyVal)
  {struct attribute_value} : Result (string * PyVal) :=
  match attribute_value with
  | VDict d =>
      try items :=
        mapM (fun item =>
                try kv := recursively_convert_to_json "" (snd item) in
                Ok (fst item, snd kv)) d in
      Ok (attribute_name, VDict (PyDict.of_pairs items))
  | VList l =>
      try items :=
        mapM (fun value =>
                try kv := recursively_convert_to_json attribute_name value in
                Ok (snd kv)) l in
      Ok (attribute_name, VList items)
  | VDatetime d => Ok (attribute_name ++ "::datetime", VStr (DateTime.isoformat d))
  | VObj t attrs =>
      if is_resource_type t then
        let class_name := class_name_of t in
        let converted :=
          map (fun attr => (fst attr, recursively_convert_to_json (fst attr) (snd attr)))
              attrs in
        try pairs :=
          mapM (fun f => match PyDict.get (field_name f) converted with
                         | Some r => r
                         | None => Raise AttributeError
                         end) (type_fields t) in
        Ok (attribute_name ++ "::" ++ class_name, VDict (PyDict.of_pairs pairs))
      else Ok (attribute_name, VStr (py_str attribute_value))
  | _ => Ok (attribute_name, VStr (py_str attribute_value))
  end.

(** Lines 53-57: [StateManagedResource.to_json]. *)
Definition to_json (self : PyVal) : Result PyVal :=
  match self with
  | VObj t attrs =>
      try pairs :=
        mapM (fun f => try attribute_value := getattr attrs (field_name f) in
                       recursively_convert_to_json (field_name f) attribute_value)
             (type_fields t) in
      Ok (VDict (PyDict.of_pairs pairs))
  | _ => Raise AttributeError
  end.

(** Lines 28-36: the loop over [dictionary.items()], [decode] standing for
    the keyword arguments [class_.from_json(value)] passes to [class_]. *)
Definition from_json_loop (decode : PyVal -> Result (list (string * PyVal)))
  : list (string * PyVal) -> list (string * PyVal) -> Result (list (string * PyVal)) :=
  fix loop (todo data_copy : list (string * PyVal)) {struct todo}
    : Result (list (string * PyVal)) :=
    match todo with
    | [] => Ok data_copy
    | (key, value) :: rest =>
        if PyString.contains "::" key
           && negb (String.eqb (List.last (PyString.split "::" key) "") "datetime")
        then
          match PyString.split "::" key with
          | [instance_name; class_type] =>
              try class_ := dict_getitem class_type get_resource_variables in
              try data_copy := dict_delitem key data_copy in
              try kwargs := decode value in
              try instance := construct class_ kwargs in
              loop rest (PyDict.set instance_name instance data_copy)
          | _ => Raise (ValueError "too many values to unpack (expected 2)")
          end
        else if PyString.endswith key "::datetime" then
          try data_copy := dict_delitem key data_copy in
          try stamp := py_fromisoformat value in
          loop rest (PyDict.set (List.hd "" (PyString.split "::" key)) stamp data_copy)
        else loop rest data_copy
    end.

(** Lines 26-37.  [class_.from_json(value)] on line 33 is
    [construct class_ (recursively_convert_from_json value)]. *)
Fixpoint recursively_convert_from_json (dictionary : PyVal) {struct dictionary}
  : Result (list (string * PyVal)) :=
  match dictionary with
  | VDict items => from_json_loop recursively_convert_from_json items (PyDict.of_pairs items)
  | _ => Raise AttributeError
  end.

(** Lines 49-51: [StateManagedResource.from_json]. *)
Definition from_json (cls : PyClass) (data : PyVal) : Result PyVal :=
  try kwargs := recursively_convert_from_json data in
  construct cls kwargs.

(** Lines 63-74. *)
Definition _get_by_url (cls : PyClass) (ado_client : AdoClient) (url : string)
  : Eff World PyVal :=
  let url := full_url ado_client url in
  request <- http ado_client "GET" url None ;;
  if status_code request =? 404 then
    raise (ResourceNotFound ("No " ++ cls_name cls ++ " found with that identifier!"))
  else if status_code request >=? 300 then
    raise (ValueError ("Error getting " ++ cls_name cls ++ " by id: " ++ text request))
  else
    body <- lift (json request) ;;
    has_value <- lift (py_contains "value" body) ;;
    if has_value : bool then
      value <- lift (py_getitem "value" body) ;;
      first <- lift (py_first value) ;;
      lift (from_request_payload cls first)
    else lift (from_request_payload cls body).

(** [payload or {}] on line 89. *)
Definition post_body (payload : option (list (string * PyVal))) : PyVal :=
  VDict (match payload with Some (x :: p) => x :: p | _ => [] end).

(** Lines 76-100. *)
Definition _create (cls : PyClass) (ado_client : AdoClient) (url : string)
    (payload : option (list (string * PyVal))) (refetch : bool) : Eff World PyVal :=
  if plan_mode ado_client then
    PlannedStateManagedResource.create cls ado_client url payload
  else
    let url := full_url ado_client url in
    request <- http ado_client "POST" url (Some (post_body payload)) ;;
    if status_code request >=? 300 then
      if (status_code request =? 401) || (status_code request =? 403) then
        raise (InvalidPermissionsError
                 ("You do not have permission to create this " ++ cls_name cls ++ "! "
                  ++ text request))
      else if status_code request =? 409 then
        raise (ResourceAlreadyExists
                 ("The " ++ cls_name cls ++ " with that identifier already exist!"))
      else
        raise (ValueError ("Error creating " ++ cls_name cls ++ ": "
                           ++ PyString.of_Z (status_code request) ++ " - " ++ text request))
    else
      body <- lift (json request) ;;
      resource <- lift (from_request_payload cls body) ;;
      resource <- (if refetch
                   then id <- lift (extract_id resource) ;; _get_by_id cls ado_client id
                   else ret resource) ;;
      id <- lift (extract_id resource) ;;
      data <- lift (to_json resource) ;;
      StateManager.add_resource_to_state (cls_name cls) id data ;;;
      ret resource.

(** Lines 102-116. *)
Definition _delete_by_id (cls : PyClass) (ado_client : AdoClient) (url resource_id : string)
  : Eff World unit :=
  let url := full_url ado_client url in
  request <- http ado_client "DELETE" url None ;;
  (if negb (status_code request =? 204) then
     if status_code request =? 404 then
       if negb (suppress_warnings ado_client) then
         print "[ADO_WRAPPER] Resource not found, probably already deleted, removing from state"
       else ret tt
     else
       body <- lift (json request) ;;
       has_message <- lift (py_contains "message" body) ;;
       if has_message : bool then
         message <- lift (py_getitem "message" body) ;;
         raise (DeletionFailed ("[ADO_WRAPPER] Error deleting " ++ cls_name cls ++ " ("
                                ++ resource_id ++ "): " ++ py_str message))
       else
         raise (DeletionFailed ("[ADO_WRAPPER] Error deleting " ++ cls_name cls ++ " ("
                                ++ resource_id ++ "): " ++ text request))
   else ret tt) ;;;
  StateManager.remove_resource_from_state (cls_name cls) (VStr resource_id).

(** Lines 118-137.  The state is the instance [self] and the world; [params]
    is the dictionary the caller passed, [params |= ...] its merge. *)
Definition _update (ado_client : AdoClient) (update_action url attribute_name : string)
    (attribute_value : PyVal) (params : list (string * PyVal)) : Eff (PyVal * World) unit :=
  self <- get_self ;;
  match self with
  | VObj self_type _ =>
      let interal_names := get_internal_field_names self_type in
      match PyDict.get attribute_name interal_names with
      | None =>
          raise (ValueError ("The attribute `" ++ attribute_name
                             ++ "` is not editable!  Editable attributes are: "
                             ++ PyString.repr_list (PyDict.keys interal_names)))
      | Some wire_name =>
          let params := PyDict.set wire_name attribute_value params in
          if plan_mode ado_client then
            on_world (PlannedStateManagedResource.update self ado_client url
                        attribute_name attribute_value params)
          else
            let url := full_url ado_client url in
            request <- on_world (http ado_client update_action url (Some (VDict params))) ;;
            if negb (status_code request =? 200) then
              id <- lift (extract_id self) ;;
              raise (UpdateFailed
                       ("Failed to update " ++ type_name self_type ++ " with id " ++ py_str id
                        ++ " and attribute " ++ attribute_name ++ " to "
                        ++ py_str attribute_value ++ ". " ++ String "010" "Reason:"
                        ++ String "010" (text request)))
            else
              setattr attribute_name attribute_value ;;;
              self <- get_self ;;
              id <- lift (extract_id self) ;;
              data <- lift (to_json self) ;;
              on_world (StateManager.update_resource_in_state (type_name self_type) id data)
      end
  | _ => raise AttributeError
  end.

(** ** Vocabulary of the statements about the codec *)

(** Names without [:] and [.], as Python identifiers are. *)
Definition plain_name (s : string) : bool :=
  negb (PyString.has_char ":" s) && negb (PyString.has_char "." s).

(** The registry is keyed by class name, the names are identifiers other
    than [datetime], and looking a class up by its name gives its type. *)
Definition registry_ok : bool :=
  forallb (fun entry =>
             let t := cls_type (snd entry) in
             String.eqb (fst entry) (type_name t)
             && plain_name (type_name t)
             && negb (String.eqb (type_name t) "datetime")
             && match PyDict.get (fst entry) get_resource_variables with
                | Some cls => bool_decide (cls_type cls = t)
                | None => false
                end)
          get_resource_variables.

(** The invariants Python gives its objects: a [datetime] is in range, the
    keys of a [dict] are distinct, and an instance of a dataclass holds
    exactly its declared fields, in order, under identifier names. *)
Fixpoint well_formed (v : PyVal) : bool :=
  match v with
  | VDatetime d => DateTime.valid d
  | VList l => forallb well_formed l
  | VDict d =>
      bool_decide (NoDup (map fst d)) && forallb (fun kv => well_formed (snd kv)) d
  | VObj t attrs =>
      bool_decide (map fst attrs = map field_name (type_fields t))
      && forallb plain_name (map fst attrs)
      && bool_decide (NoDup (map fst attrs))
      && forallb (fun kv => well_formed (snd kv)) attrs
  | _ => true
  end.

(** The key [recursively_convert_to_json] gives to the attribute [name]. *)
Definition key_for (name : string) (v : PyVal) : string :=
  match v with
  | VDatetime _ => name ++ "::datetime"
  | VObj t _ => if is_resource_type t then name ++ "::" ++ type_name t else name
  | _ => name
  end.

(** The JSON value [recursively_convert_to_json] gives to a value. *)
Fixpoint json_form (v : PyVal) : PyVal :=
  match v with
  | VDict d => VDict (map (fun kv => (fst kv, json_form (snd kv))) d)
  | VList l => VList (map json_form l)
  | VDatetime d => VStr (DateTime.isoformat d)
  | VObj t attrs =>
      if is_resource_type t
      then VDict (map (fun kv => (key_for (fst kv) (snd kv), json_form (snd kv))) attrs)
      else VStr (py_str v)
  | _ => VStr (py_str v)
  end.

(** What an attribute value is after encoding and decoding: a timestamp and
    an instance of a registered class come back as such (the instance with
    its own attributes reloaded), everything else comes back in its JSON
    form. *)
Fixpoint reloaded (v : PyVal) : PyVal :=
  match v with
  | VDatetime d => VDatetime d
  | VObj t attrs =>
      if is_resource_type t
      then VObj t (map (fun kv => (fst kv, reloaded (snd kv))) attrs)
      else VStr (py_str v)
  | _ => json_form v
  end.

(** An attribute as [to_json] writes it, and as [from_json] reads it back. *)
Definition json_item (kv : string * PyVal) : string * PyVal :=
  (key_for (fst kv) (snd kv), json_form (snd kv)).

Definition reloaded_item (kv : string * PyVal) : string * PyVal :=
  (fst kv, reloaded (snd kv)).

(** Keys without [:]. *)
Definition plain_keys (l : list (string * PyVal)) : Prop :=
  Forall (fun kv => PyString.has_char ":" (fst kv) = false) l.

(** [from_json] undoes [to_json] on the instance [v], up to [reloaded]. *)
Definition decodes (v : PyVal) : Prop :=
  forall t attrs, v = VObj t attrs ->
  forall cls, cls_type cls = t ->
  from_json cls (VDict (map json_item attrs)) = Ok (VObj t (map reloaded_item attrs)).

(** JSON made of strings, lists and mappings only. *)
Fixpoint json_text (v : PyVal) : bool :=
  match v with
  | VStr _ => true
  | VList l => forallb json_text l
  | VDict d => forallb (fun kv => json_text (snd kv)) d
  | _ => false
  end.

(** The attribute values the codec gives back as they were: strings,
    timestamps, instances of registered classes whose attributes are such
    values again, and lists and mappings of strings. *)
Fixpoint lossless (v : PyVal) : bool :=
  match v with
  | VStr _ => true
  | VDatetime _ => true
  | VObj t attrs => is_resource_type t && forallb (fun kv => lossless (snd kv)) attrs
  | VList _ | VDict _ => json_text v
  | _ => false
  end.

(** The values [recursively_convert_to_json] hands to [str]. *)
Definition stringified (v : PyVal) : bool :=
  match v with
  | VDict _ | VList _ | VDatetime _ => false
  | VObj t _ => negb (is_resource_type t)
  | _ => true
  end.

(** ** Vocabulary of the statements about the engine *)

(** The world after one more call on the session. *)
Definition logged (w : World) (req : HttpRequest) : World :=
  mk_world (http_log w ++ [req]) (state w) (plan w) (stdout w).

(** The answer of the stub to [req] in world [w]. *)
Definition answer (ado_client : AdoClient) (w : World) (req : HttpRequest) : HttpResponse :=
  session ado_client (http_log w) req.

(** The line [_delete_by_id] prints on a 404 answer. *)
Definition warning_404 : string :=
  "[ADO_WRAPPER] Resource not found, probably already deleted, removing from state".

(** The world after a deletion that went through: one more call, the entry
    of (type name, id) gone, [out] on the standard output. *)
Definition removed (cls : PyClass) (resource_id : string) (w : World) (req : HttpRequest)
    (out : list string) : World :=
  mk_world (http_log w ++ [req]) (delete (cls_name cls, resource_id) (state w)) (plan w) out.

(** The message of [DeletionFailed] for a response whose body is the JSON
    object [d] (lines 113-115). *)
Definition deletion_message (cls : PyClass) (resource_id : string)
    (request : HttpResponse) (d : list (string * PyVal)) : string :=
  "[ADO_WRAPPER] Error deleting " ++ cls_name cls ++ " (" ++ resource_id ++ "): "
  ++ match PyDict.get "message" d with
     | Some message => py_str message
     | None => text request
     end.

(** The message of line 123. *)
Definition not_editable_message (t : PyType) (attribute_name : string) : string :=
  "The attribute `" ++ attribute_name ++ "` is not editable!  Editable attributes are: "
  ++ PyString.repr_list (PyDict.keys (get_internal_field_names t)).

(** The message of [UpdateFailed] (line 134). *)
Definition update_failed_message (t : PyType) (id : PyVal) (attribute_name : string)
    (attribute_value : PyVal) (request : HttpResponse) : string :=
  "Failed to update " ++ type_name t ++ " with id " ++ py_str id
  ++ " and attribute " ++ attribute_name ++ " to " ++ py_str attribute_value ++ ". "
  ++ String "010" "Reason:" ++ String "010" (text request).


(* ===================================================================== *)
(** * [state_managed_abc.py], the read operations, and the callers in
      [resources/repo.py] *)
(* ===================================================================== *)

(** The items a [for] loop or a comprehension runs over. *)
Definition py_iter (container : PyVal) : Result (list PyVal) :=
  match container with
  | VList l => Ok l
  | VDict d => Ok (map (fun kv => VStr (fst kv)) d)
  | VStr s => Ok (map (fun c => VStr (String c EmptyString)) (list_ascii_of_string s))
  | _ => Raise TypeError
  end.

(** [value == s] for a string [s]. *)
Definition py_eq_str (value : PyVal) (s : string) : bool :=
  match value with
  | VStr s' => String.eqb s' s
  | _ => false
  end.

(** Lines 142-149. *)
Definition _get_all (cls : PyClass) (ado_client : AdoClient) (url : string)
  : Eff World (list PyVal) :=
  let url := full_url ado_client url in
  request <- http ado_client "GET" url None ;;
  if status_code request >=? 300 then
    raise (ValueError ("Error getting all " ++ cls_name cls ++ ": " ++ text request))
  else
    body <- lift (json request) ;;
    value <- lift (py_getitem "value" body) ;;
    resources <- lift (py_iter value) ;;
    lift (mapM (from_request_payload cls) resources).

(** Lines 157-160: the first resource [func] accepts, or [None]. *)
Fixpoint first_match (func : PyVal -> Result bool) (resources : list PyVal) : Result PyVal :=
  match resources with
  | [] => Ok VNone
  | resource :: rest =>
      try found := func resource in
      if found : bool then Ok resource else first_match func rest
  end.

(** Lines 151-160.  [get_all] is the [cls.get_all] of the class the method
    is called on. *)
Definition _get_by_abstract_filter (get_all : AdoClient -> Eff World (list PyVal))
    (ado_client : AdoClient) (func : PyVal -> Result bool) : Eff World PyVal :=
  resources <- get_all ado_client ;;
  lift (first_match func resources).

(** The path of a repository in [resources/repo.py]. *)
Definition Repo_path (ado_client : AdoClient) (repo_id : string) : string :=
  "/" ++ ado_project ado_client ++ "/_apis/git/repositories/" ++ repo_id ++ "?api-version=7.1".

(** [Repo.get_by_id], lines 48-53. *)
Definition Repo_get_by_id (ado_client : AdoClient) (repo_id : string) : Eff World PyVal :=
  _get_by_url Repo.class ado_client (Repo_path ado_client repo_id).

(** [Repo.update], lines 66-71. *)
Definition Repo_update (ado_client : AdoClient) (attribute_name : string)
    (attribute_value : PyVal) : Eff (PyVal * World) unit :=
  self <- get_self ;;
  match self with
  | VObj _ attrs =>
      repo_id <- lift (getattr attrs "repo_id") ;;
      _update ado_client "patch" (Repo_path ado_client (py_str repo_id))
              attribute_name attribute_value []
  | _ => raise AttributeError
  end.

(** [Repo.get_all], lines 86-91. *)
Definition Repo_get_all (ado_client : AdoClient) : Eff World (list PyVal) :=
  _get_all Repo.class ado_client
    ("/" ++ ado_project ado_client ++ "/_apis/git/repositories?api-version=7.1").

(** [lambda repo: repo.name == repo_name] on line 99. *)
Definition has_name (repo_name : string) (repo : PyVal) : Result bool :=
  match repo with
  | VObj _ attrs => try name := getattr attrs "name" in Ok (py_eq_str name repo_name)
  | _ => Raise AttributeError
  end.

(** [Repo.get_by_name], lines 97-99. *)
Definition Repo_get_by_name (ado_client : AdoClient) (repo_name : string) : Eff World PyVal :=
  _get_by_abstract_filter Repo_get_all ado_client (has_name repo_name).

(* ===================================================================== *)
(** * Strings: tagged keys and class names *)
(* ===================================================================== *)

Section StringFacts.

Import PyString.

Lemma append_nil_r (s : string) : s ++ "" = s.
Proof. induction s as [|c s IH]; simpl; [reflexivity | rewrite IH; reflexivity]. Qed.

Lemma append_assoc (a b c : string) : (a ++ b) ++ c = a ++ (b ++ c).
Proof. induction a as [|x a IH]; simpl; [reflexivity | rewrite IH; reflexivity]. Qed.

Lemma length_append (a b : string) :
  String.length (a ++ b) = (String.length a + String.length b)%nat.
Proof. induction a as [|x a IH]; simpl; [reflexivity | rewrite IH; reflexivity]. Qed.

Lemma has_char_append (c : ascii) (a b : string) :
  has_char c (a ++ b) = has_char c a || has_char c b.
Proof.
  induction a as [|x a IH]; simpl; [reflexivity |].
  rewrite IH. apply orb_assoc.
Qed.

Lemma substring_whole (s : string) : substring 0 (String.length s) s = s.
Proof. induction s as [|c s IH]; simpl; [reflexivity | rewrite IH; reflexivity]. Qed.

Lemma substring_append_l (a b : string) : substring 0 (String.length a) (a ++ b) = a.
Proof.
  induction a as [|x a IH]; simpl.
  - destruct b; reflexivity.
  - rewrite IH. reflexivity.
Qed.

Lemma substring_append_r (a b : string) :
  substring (String.length a) (String.length b) (a ++ b) = b.
Proof. induction a as [|x a IH]; simpl; [apply substring_whole | exact IH]. Qed.

Lemma has_char_substring (c : ascii) (n m : nat) (s : string) :
  has_char c (substring n m s) = true -> has_char c s = true.
Proof.
  revert n m. induction s as [|x s IH]; intros n m.
  - destruct n, m; simpl; intros H; exact H.
  - destruct n as [|n]; simpl.
    + destruct m as [|m]; simpl; [discriminate |].
      intros H. apply orb_true_iff in H. apply orb_true_iff.
      destruct H as [H|H]; [left; exact H | right; exact (IH 0%nat m H)].
    + intros H. apply orb_true_iff. right. exact (IH n m H).
Qed.

Lemma endswith_append (a p : string) : endswith (a ++ p) p = true.
Proof.
  unfold endswith. rewrite length_append.
  replace (String.length a + String.length p - String.length p)%nat
    with (String.length a) by lia.
  rewrite substring_append_r, String.eqb_refl, andb_true_r.
  apply Nat.leb_le. lia.
Qed.

Lemma endswith_has_char (c : ascii) (s p : string) :
  has_char c p = true -> has_char c s = false -> endswith s p = false.
Proof.
  intros Hp Hs. unfold endswith.
  destruct (String.eqb_spec
              (substring (String.length s - String.length p) (String.length p) s) p)
    as [Heq|Hne]; [| apply andb_false_r].
  rewrite <- Heq in Hp. apply has_char_substring in Hp. congruence.
Qed.

Lemma removesuffix_append (a p : string) : removesuffix (a ++ p) p = a.
Proof.
  unfold removesuffix. rewrite endswith_append, length_append.
  replace (String.length a + String.length p - String.length p)%nat
    with (String.length a) by lia.
  apply substring_append_l.
Qed.

Lemma rsplit1_last_append (c : ascii) (a b : string) :
  has_char c b = false -> rsplit1_last c (a ++ String c b) = b.
Proof.
  intros Hb. induction a as [|x a IH]; simpl.
  - rewrite Hb, Ascii.eqb_refl. reflexivity.
  - rewrite has_char_append. simpl. rewrite Ascii.eqb_refl, orb_true_r. exact IH.
Qed.

Lemma prefix_append (p s : string) : String.prefix p (p ++ s) = true.
Proof.
  induction p as [|c p IH].
  - destruct s; reflexivity.
  - change (String.prefix (String c p) (String c p ++ s))
      with (if ascii_dec c c then String.prefix p (p ++ s) else false).
    destruct (ascii_dec c c) as [_|Hne]; [exact IH | congruence].
Qed.

Lemma prefix_colons_other (c : ascii) (s : string) :
  Ascii.eqb c ":" = false -> String.prefix "::" (String c s) = false.
Proof.
  intros H.
  change (String.prefix "::" (String c s))
    with (if ascii_dec ":" c then String.prefix ":" s else false).
  destruct (ascii_dec ":" c) as [Heq|Hne]; [| reflexivity].
  subst c. discriminate.
Qed.

Lemma contains_cons (sep : string) (c : ascii) (s : string) :
  contains sep (String c s) = String.prefix sep (String c s) || contains sep s.
Proof. reflexivity. Qed.

Lemma split_go_cons (sep cur : string) (c : ascii) (s : string) :
  split_go sep 0 cur (String c s)
  = if String.prefix sep (String c s)
    then cur :: split_go sep (String.length sep - 1) "" s
    else split_go sep 0 (cur ++ String c "") s.
Proof. reflexivity. Qed.

Lemma split_go_skip (sep cur : string) (k : nat) (c : ascii) (s : string) :
  split_go sep (S k) cur (String c s) = split_go sep k cur s.
Proof. reflexivity. Qed.

Lemma contains_plain (s : string) : has_char ":" s = false -> contains "::" s = false.
Proof.
  induction s as [|c s IH]; [reflexivity |].
  simpl has_char. intros H. apply orb_false_iff in H. destruct H as [Hc Hs].
  rewrite contains_cons, (prefix_colons_other c s Hc), (IH Hs). reflexivity.
Qed.

Lemma contains_tagged (n rest : string) : contains "::" (n ++ "::" ++ rest) = true.
Proof.
  induction n as [|c n IH].
  - change ("" ++ "::" ++ rest) with (String ":" (String ":" rest)).
    rewrite contains_cons.
    change (String ":" (String ":" rest)) with ("::" ++ rest).
    rewrite prefix_append. reflexivity.
  - change ((String c n ++ "::" ++ rest)) with (String c (n ++ "::" ++ rest)).
    rewrite contains_cons, IH. apply orb_true_r.
Qed.

Lemma split_go_plain (cur s : string) :
  has_char ":" s = false -> split_go "::" 0 cur s = [cur ++ s].
Proof.
  revert cur. induction s as [|c s IH]; intros cur.
  - intros _. rewrite append_nil_r. reflexivity.
  - simpl has_char. intros H. apply orb_false_iff in H. destruct H as [Hc Hs].
    rewrite split_go_cons, (prefix_colons_other c s Hc).
    rewrite (IH _ Hs), append_assoc. reflexivity.
Qed.

Lemma split_go_tagged (cur n rest : string) :
  has_char ":" n = false ->
  split_go "::" 0 cur (n ++ "::" ++ rest) = (cur ++ n) :: split_go "::" 0 "" rest.
Proof.
  revert cur. induction n as [|c n IH]; intros cur.
  - intros _. rewrite append_nil_r.
    change ("" ++ "::" ++ rest) with (String ":" (String ":" rest)).
    rewrite split_go_cons.
    change (String ":" (String ":" rest)) with ("::" ++ rest) at 1.
    rewrite prefix_append. reflexivity.
  - simpl has_char. intros H. apply orb_false_iff in H. destruct H as [Hc Hs].
    change ((String c n ++ "::" ++ rest)) with (String c (n ++ "::" ++ rest)).
    rewrite split_go_cons, (prefix_colons_other c _ Hc).
    rewrite (IH _ Hs), append_assoc. reflexivity.
Qed.

Lemma split_plain (s : string) : has_char ":" s = false -> split "::" s = [s].
Proof. intros H. unfold split. rewrite (split_go_plain _ _ H). reflexivity. Qed.

Lemma split_tagged (n tag : string) :
  has_char ":" n = false -> has_char ":" tag = false ->
  split "::" (n ++ "::" ++ tag) = [n; tag].
Proof.
  intros Hn Ht. unfold split. rewrite (split_go_tagged _ _ _ Hn).
  rewrite (split_go_plain _ _ Ht). reflexivity.
Qed.

Lemma plain_name_colon (s : string) : plain_name s = true -> has_char ":" s = false.
Proof.
  unfold plain_name. intros H. apply andb_true_iff in H. destruct H as [H _].
  apply negb_true_iff in H. exact H.
Qed.

Lemma plain_name_dot (s : string) : plain_name s = true -> has_char "." s = false.
Proof.
  unfold plain_name. intros H. apply andb_true_iff in H. destruct H as [_ H].
  apply negb_true_iff in H. exact H.
Qed.

(** A tagged key is neither a plain name nor a key tagged for another name. *)
Lemma tagged_not_plain (n tag s : string) :
  has_char ":" s = false -> n ++ "::" ++ tag <> s.
Proof.
  intros Hs Heq. subst s. rewrite has_char_append in Hs. simpl in Hs.
  rewrite orb_true_r in Hs. discriminate.
Qed.

Lemma tagged_inj (n n' tag tag' : string) :
  has_char ":" n = false -> has_char ":" n' = false ->
  n ++ "::" ++ tag = n' ++ "::" ++ tag' -> n = n'.
Proof.
  revert n'. induction n as [|c n IH]; intros n' Hn Hn' Heq.
  - destruct n' as [|c' n']; [reflexivity |].
    simpl in Heq. injection Heq as Hc _. subst c'. simpl in Hn'. discriminate.
  - destruct n' as [|c' n'].
    + simpl in Heq. injection Heq as Hc _. subst c. simpl in Hn. discriminate.
    + simpl in Heq. injection Heq as Hc Hrest. subst c'.
      simpl in Hn, Hn'. apply orb_false_iff in Hn, Hn'.
      f_equal. apply IH; tauto.
Qed.

End StringFacts.

(** The name cut out of [str(type(v))] is the class name. *)
Lemma class_name_of_plain (t : PyType) :
  plain_name (type_name t) = true -> class_name_of t = type_name t.
Proof.
  intros H. unfold class_name_of, str_type.
  replace ("<class '" ++ type_module t ++ "." ++ type_name t ++ "'>")
    with (("<class '" ++ type_module t) ++ String "." (type_name t ++ "'>"))
    by (rewrite append_assoc; reflexivity).
  rewrite rsplit1_last_append.
  - apply removesuffix_append.
  - rewrite has_char_append, (plain_name_dot _ H). reflexivity.
Qed.

(* ===================================================================== *)
(** * Timestamps: [fromisoformat] inverts [isoformat] *)
(* ===================================================================== *)

Section DateTimeFacts.

Import DateTime.

Lemma digit_val_digit (d : Z) : 0 <= d < 10 -> digit_val (digit d) = Some d.
Proof.
  intros H.
  assert (Hd : d = 0 \/ d = 1 \/ d = 2 \/ d = 3 \/ d = 4 \/ d = 5 \/ d = 6
               \/ d = 7 \/ d = 8 \/ d = 9) by lia.
  repeat (destruct Hd as [Hd|Hd]; [subst d; reflexivity |]).
  subst d; reflexivity.
Qed.

Lemma read_digits_pad (k : nat) (n acc : Z) (rest : string) :
  0 <= n ->
  read_digits k acc (pad k n ++ rest) = Some (acc * 10 ^ Z.of_nat k + n mod 10 ^ Z.of_nat k, rest).
Proof.
  intros Hn. revert acc. induction k as [|k IH]; intros acc.
  - simpl. rewrite Z.mod_1_r. f_equal. f_equal. lia.
  - change (pad (S k) n ++ rest)
      with (String (digit ((n / 10 ^ Z.of_nat k) mod 10)) (pad k n ++ rest)).
    change (read_digits (S k) acc (String (digit ((n / 10 ^ Z.of_nat k) mod 10))
                                          (pad k n ++ rest)))
      with (match digit_val (digit ((n / 10 ^ Z.of_nat k) mod 10)) with
            | Some v => read_digits k (acc * 10 + v) (pad k n ++ rest)
            | None => None
            end).
    rewrite digit_val_digit by (apply Z.mod_pos_bound; lia).
    rewrite IH. f_equal. f_equal.
    rewrite Nat2Z.inj_succ, Z.pow_succ_r by lia.
    assert (Hpow : 0 < 10 ^ Z.of_nat k) by (apply Z.pow_pos_nonneg; lia).
    rewrite (Z.mul_comm 10 (10 ^ Z.of_nat k)).
    rewrite (Z.rem_mul_r n (10 ^ Z.of_nat k) 10) by lia.
    ring.
Qed.

Lemma read_digits_field (k : nat) (n : Z) (rest : string) :
  0 <= n < 10 ^ Z.of_nat k ->
  read_digits k 0 (pad k n ++ rest) = Some (n, rest).
Proof.
  intros H. rewrite read_digits_pad by lia. rewrite Z.mod_small by lia.
  reflexivity.
Qed.

Lemma days_in_month_bound (y m : Z) : days_in_month y m <= 31.
Proof.
  unfold days_in_month.
  destruct (m =? 2); [destruct (is_leap y); lia |].
  destruct ((m =? 4) || (m =? 6) || (m =? 9) || (m =? 11)); lia.
Qed.

Theorem fromisoformat_isoformat (d : datetime) :
  valid d = true -> fromisoformat (isoformat d) = Some d.
Proof.
  destruct d as [y mo dd hh mi ss us].
  intros Hv. pose proof Hv as Hvalid. unfold valid in Hv.
  cbn [year month day hour minute second microsecond] in Hv.
  repeat (apply andb_true_iff in Hv; destruct Hv as [Hv ?]).
  repeat match goal with
         | H : (_ <=? _) = true |- _ => apply Z.leb_le in H
         | H : (_ <? _) = true |- _ => apply Z.ltb_lt in H
         end.
  pose proof (days_in_month_bound y mo) as Hdays.
  unfold fromisoformat, isoformat.
  cbn [year month day hour minute second microsecond].
  rewrite read_digits_field by (simpl; lia).
  change (expect "-" ("-" ++ ?s)) with (Some s). cbv beta iota.
  rewrite read_digits_field by (simpl; lia).
  cbv beta iota.
  change (expect "-" ("-" ++ ?s)) with (Some s). cbv beta iota.
  rewrite read_digits_field by (simpl; lia).
  cbv beta iota.
  change ("T" ++ ?s) with (String "T" s). cbv beta iota.
  rewrite read_digits_field by (simpl; lia).
  cbv beta iota.
  change (expect ":" (":" ++ ?s)) with (Some s). cbv beta iota.
  rewrite read_digits_field by (simpl; lia).
  cbv beta iota.
  change (expect ":" (":" ++ ?s)) with (Some s). cbv beta iota.
  rewrite read_digits_field by (simpl; lia).
  cbv beta iota.
  destruct (Z.eqb_spec us 0) as [->|Hus].
  - rewrite Hvalid. reflexivity.
  - change ("." ++ pad 6 us) with (String "." (pad 6 us)). cbv beta iota.
    change (Ascii.eqb "." ".") with true. cbv beta iota.
    rewrite <- (append_nil_r (pad 6 us)).
    rewrite read_digits_field by (simpl; lia).
    rewrite Hvalid. reflexivity.
Qed.

End DateTimeFacts.

(* ===================================================================== *)
(** * Dictionaries *)
(* ===================================================================== *)

Section DictFacts.

Context {V : Type}.
Implicit Types (d : list (string * V)) (k : string).

Lemma get_app k d1 d2 :
  PyDict.get k (d1 ++ d2)
  = match PyDict.get k d1 with Some v => Some v | None => PyDict.get k d2 end.
Proof.
  induction d1 as [|[k' v'] d1 IH]; simpl; [reflexivity |].
  destruct (String.eqb k' k); [reflexivity | exact IH].
Qed.

Lemma get_set k k' (v : V) d :
  PyDict.get k (PyDict.set k' v d) = if String.eqb k' k then Some v else PyDict.get k d.
Proof.
  induction d as [|[k0 v0] d IH]; simpl.
  - reflexivity.
  - destruct (String.eqb_spec k0 k') as [->|Hne]; simpl.
    + destruct (String.eqb k' k); reflexivity.
    + destruct (String.eqb_spec k0 k) as [->|Hne'].
      * apply String.eqb_neq in Hne. rewrite String.eqb_sym, Hne. reflexivity.
      * exact IH.
Qed.

Lemma get_remove k k' d :
  PyDict.get k (PyDict.remove k' d) = if String.eqb k' k then None else PyDict.get k d.
Proof.
  unfold PyDict.remove.
  induction d as [|[k0 v0] d IH]; simpl.
  - destruct (String.eqb k' k); reflexivity.
  - destruct (String.eqb_spec k0 k') as [->|Hne]; simpl.
    + rewrite IH. destruct (String.eqb k' k); reflexivity.
    + rewrite IH. destruct (String.eqb_spec k0 k) as [->|Hne'].
      * apply String.eqb_neq in Hne. rewrite String.eqb_sym, Hne. reflexivity.
      * reflexivity.
Qed.

Lemma get_Some_In k (v : V) d : PyDict.get k d = Some v -> In (k, v) d.
Proof.
  induction d as [|[k0 v0] d IH]; simpl; [discriminate |].
  destruct (String.eqb_spec k0 k) as [->|Hne].
  - intros [= ->]. left. reflexivity.
  - intros H. right. exact (IH H).
Qed.

Lemma get_Some_key k (v : V) d : PyDict.get k d = Some v -> In k (map fst d).
Proof. intros H. apply get_Some_In in H. apply (in_map fst) in H. exact H. Qed.

Lemma get_not_In k d : ~ In k (map fst d) -> PyDict.get k d = None.
Proof.
  intros H. destruct (PyDict.get k d) as [v|] eqn:Hg; [| reflexivity].
  exfalso. apply H. exact (get_Some_key _ _ _ Hg).
Qed.

Lemma get_In k (v : V) d : List.NoDup (map fst d) -> In (k, v) d -> PyDict.get k d = Some v.
Proof.
  induction d as [|[k0 v0] d IH]; simpl; [tauto |].
  intros Hnd [Heq|Hin].
  - injection Heq as -> ->. rewrite String.eqb_refl. reflexivity.
  - apply List.NoDup_cons_iff in Hnd. destruct Hnd as [Hk0 Hnd].
    destruct (String.eqb_spec k0 k) as [->|Hne].
    + exfalso. apply Hk0. apply (in_map fst) in Hin. exact Hin.
    + exact (IH Hnd Hin).
Qed.

Lemma set_fresh k (v : V) d : ~ In k (map fst d) -> PyDict.set k v d = (d ++ [(k, v)])%list.
Proof.
  induction d as [|[k0 v0] d IH]; simpl; [reflexivity |].
  intros H. destruct (String.eqb_spec k0 k) as [->|Hne]; [tauto |].
  rewrite IH by tauto. reflexivity.
Qed.

Lemma of_pairs_distinct (l : list (string * V)) :
  List.NoDup (map fst l) -> PyDict.of_pairs l = l.
Proof.
  unfold PyDict.of_pairs.
  assert (Hgen : forall acc, List.NoDup (map fst (acc ++ l)) ->
                 fold_left (fun d kv => PyDict.set (fst kv) (snd kv) d) l acc = (acc ++ l)%list).
  { induction l as [|[k v] l IH]; intros acc Hnd; simpl.
    - rewrite app_nil_r. reflexivity.
    - rewrite set_fresh.
      + rewrite IH; rewrite <- app_assoc; [reflexivity | exact Hnd].
      + rewrite map_app in Hnd. apply List.NoDup_remove_2 in Hnd.
        intros Hin. apply Hnd. apply in_or_app. left. exact Hin. }
  intros Hnd. exact (Hgen [] Hnd).
Qed.

Lemma mem_get k d : PyDict.mem k d = true <-> PyDict.get k d <> None.
Proof. unfold PyDict.mem. destruct (PyDict.get k d); split; congruence. Qed.

End DictFacts.

Lemma dict_get_None_keys {V} (k : string) (d : list (string * V)) :
  PyDict.get k d = None <-> ~ In k (PyDict.keys d).
Proof.
  induction d as [|[k' v] d IH]; simpl.
  - tauto.
  - destruct (String.eqb_spec k' k) as [->|Hne].
    + split; [discriminate | intros H; exfalso; apply H; left; reflexivity].
    + rewrite IH. split; [intros H [Heq|Hin]; [congruence | tauto] | tauto].
Qed.

Lemma get_map_values {V W} (f : V -> W) (k : string) (d : list (string * V)) :
  PyDict.get k (map (fun kv => (fst kv, f (snd kv))) d) = option_map f (PyDict.get k d).
Proof.
  induction d as [|[k0 v0] d IH]; simpl; [reflexivity |].
  destruct (String.eqb k0 k); [reflexivity | exact IH].
Qed.

Lemma mapM_map {A B} (f : A -> Result B) (g : A -> B) (l : list A) :
  Forall (fun x => f x = Ok (g x)) l -> mapM f l = Ok (map g l).
Proof.
  induction 1 as [|x l Hx _ IH]; simpl; [reflexivity |].
  rewrite Hx, IH. reflexivity.
Qed.

(* ===================================================================== *)
(** * Induction on values, through lists, mappings and attributes *)
(* ===================================================================== *)

Lemma PyVal_nested_ind (P : PyVal -> Prop) :
  P VNone ->
  (forall b, P (VBool b)) ->
  (forall n, P (VInt n)) ->
  (forall s, P (VStr s)) ->
  (forall d, P (VDatetime d)) ->
  (forall l, Forall P l -> P (VList l)) ->
  (forall d, Forall (fun kv => P (snd kv)) d -> P (VDict d)) ->
  (forall t attrs, Forall (fun kv => P (snd kv)) attrs -> P (VObj t attrs)) ->
  forall v, P v.
Proof.
  intros HNone HBool HInt HStr HDate HList HDict HObj.
  fix IH 1. intros [| b | n | s | d | l | d | t attrs].
  - exact HNone.
  - apply HBool.
  - apply HInt.
  - apply HStr.
  - apply HDate.
  - apply HList. induction l as [|x l IHl]; constructor; [apply IH | exact IHl].
  - apply HDict. induction d as [|[k x] d IHd]; constructor; [apply IH | exact IHd].
  - apply HObj. induction attrs as [|[k x] a IHa]; constructor; [apply IH | exact IHa].
Qed.

(* ===================================================================== *)
(** * The codec *)
(* ===================================================================== *)

(** ** The registry *)

Lemma registry_entry (t : PyType) :
  registry_ok = true -> is_resource_type t = true ->
  plain_name (type_name t) = true
  /\ type_name t <> "datetime"
  /\ exists cls, PyDict.get (type_name t) get_resource_variables = Some cls
                 /\ cls_type cls = t.
Proof.
  unfold registry_ok, is_resource_type. intros Hok Hres.
  apply existsb_exists in Hres. destruct Hres as [[k cls] [Hin Ht]].
  apply bool_decide_eq_true in Ht. simpl in Ht.
  rewrite forallb_forall in Hok. specialize (Hok _ Hin). simpl in Hok.
  rewrite Ht in Hok.
  repeat (apply andb_true_iff in Hok; destruct Hok as [Hok ?]).
  apply String.eqb_eq in Hok. subst k.
  repeat split; try assumption.
  - apply negb_true_iff in H0. apply String.eqb_neq in H0. exact H0.
  - destruct (PyDict.get (type_name t) get_resource_variables) as [cls'|];
      [| discriminate].
    exists cls'. split; [reflexivity |]. apply bool_decide_eq_true in H. exact H.
Qed.

(** ** Keys *)

Lemma key_for_shape (n : string) (v : PyVal) :
  key_for n v = n \/ exists tag, key_for n v = n ++ "::" ++ tag.
Proof.
  destruct v; simpl; try (left; reflexivity).
  - right. exists "datetime". reflexivity.
  - destruct (is_resource_type t); [right; eexists; reflexivity | left; reflexivity].
Qed.

Lemma key_for_tagged_inj (n n' tag : string) (v : PyVal) :
  PyString.has_char ":" n = false -> PyString.has_char ":" n' = false ->
  key_for n' v = n ++ "::" ++ tag -> n' = n.
Proof.
  intros Hn Hn' Heq. destruct (key_for_shape n' v) as [H|[tag' H]]; rewrite H in Heq.
  - symmetry in Heq. exfalso. exact (tagged_not_plain _ _ _ Hn' Heq).
  - exact (tagged_inj _ _ _ _ Hn' Hn Heq).
Qed.

Lemma key_for_inj (n n' : string) (v v' : PyVal) :
  PyString.has_char ":" n = false -> PyString.has_char ":" n' = false ->
  key_for n v = key_for n' v' -> n = n'.
Proof.
  intros Hn Hn' Heq. destruct (key_for_shape n v) as [H|[tag H]]; rewrite H in Heq.
  - destruct (key_for_shape n' v') as [H'|[tag' H']]; rewrite H' in Heq.
    + exact Heq.
    + symmetry in Heq. exfalso. exact (tagged_not_plain _ _ _ Hn Heq).
  - symmetry. symmetry in Heq. exact (key_for_tagged_inj _ _ _ _ Hn Hn' Heq).
Qed.

Lemma plain_keys_of_names (l : list (string * PyVal)) :
  forallb plain_name (map fst l) = true -> plain_keys l.
Proof.
  intros H. rewrite forallb_forall in H. apply List.Forall_forall. intros kv Hin.
  apply plain_name_colon. apply H. apply in_map. exact Hin.
Qed.

Lemma in_json_items_name (key : string) (l : list (string * PyVal)) :
  In key (map fst (map json_item l)) ->
  exists kv, In kv l /\ key = key_for (fst kv) (snd kv).
Proof.
  rewrite map_map. intros H. apply in_map_iff in H. destruct H as [kv [Hk Hin]].
  exists kv. split; [exact Hin | symmetry; exact Hk].
Qed.

Lemma json_items_distinct (l : list (string * PyVal)) :
  plain_keys l -> List.NoDup (map fst l) -> List.NoDup (map fst (map json_item l)).
Proof.
  induction l as [|[n v] l IH]; intros Hp Hnd; simpl; [constructor |].
  apply List.Forall_cons_iff in Hp. destruct Hp as [Hn Hp]. simpl in Hn.
  simpl in Hnd. apply List.NoDup_cons_iff in Hnd. destruct Hnd as [Hnot Hnd].
  constructor; [| exact (IH Hp Hnd)].
  intros Hin. apply in_json_items_name in Hin. destruct Hin as [[n' v'] [Hin Heq]].
  simpl in Heq. apply Hnot.
  assert (Hn' : PyString.has_char ":" n' = false).
  { rewrite List.Forall_forall in Hp. exact (Hp _ Hin). }
  rewrite (key_for_inj _ _ _ _ Hn Hn' Heq).
  apply (in_map fst) in Hin. exact Hin.
Qed.

Lemma reloaded_items_names (l : list (string * PyVal)) :
  map fst (map reloaded_item l) = map fst l.
Proof. rewrite map_map. reflexivity. Qed.

(** ** Encoding *)

Lemma well_formed_obj (t : PyType) (attrs : list (string * PyVal)) :
  well_formed (VObj t attrs) = true ->
  map fst attrs = map field_name (type_fields t)
  /\ plain_keys attrs
  /\ List.NoDup (map fst attrs)
  /\ Forall (fun kv => well_formed (snd kv) = true) attrs.
Proof.
  simpl. intros H.
  repeat (apply andb_true_iff in H; destruct H as [H ?]).
  apply bool_decide_eq_true in H.
  repeat split.
  - exact H.
  - apply plain_keys_of_names. assumption.
  - apply NoDup_ListNoDup. eapply bool_decide_eq_true. eassumption.
  - apply List.Forall_forall. intros kv Hin.
    match goal with Hf : forallb _ attrs = true |- _ =>
      rewrite forallb_forall in Hf; exact (Hf _ Hin) end.
Qed.

(** A function of the fields that is right at each attribute's name maps
    the fields to the attributes. *)
Lemma mapM_fields {C} (h : Field -> Result C) (g : string * PyVal -> C)
    (fields : list Field) (attrs : list (string * PyVal)) :
  map fst attrs = map field_name fields ->
  Forall (fun kv => forall f, field_name f = fst kv -> h f = Ok (g kv)) attrs ->
  mapM h fields = Ok (map g attrs).
Proof.
  revert attrs. induction fields as [|f fields IH]; intros [|kv attrs] Hnames Hall;
    try discriminate; [reflexivity |].
  simpl in Hnames. injection Hnames as Hname Hnames.
  apply List.Forall_cons_iff in Hall. destruct Hall as [Hf Hall].
  simpl. rewrite (Hf f (eq_sym Hname)), (IH attrs Hnames Hall). reflexivity.
Qed.

(** [recursively_convert_to_json] computes [key_for] and [json_form]. *)
Lemma recursively_convert_to_json_spec :
  registry_ok = true ->
  forall v, well_formed v = true ->
  forall name, recursively_convert_to_json name v = Ok (key_for name v, json_form v).
Proof.
  intros Hreg. induction v as [| b | n | s | d | l IH | d IH | t attrs IH]
    using PyVal_nested_ind; intros Hwf name; try reflexivity.
  - (* list *)
    simpl in Hwf. rewrite forallb_forall in Hwf. simpl.
    rewrite (mapM_map _ json_form).
    + reflexivity.
    + apply List.Forall_forall. intros x Hin.
      rewrite List.Forall_forall in IH. rewrite (IH x Hin (Hwf x Hin)). reflexivity.
  - (* dict *)
    simpl in Hwf. apply andb_true_iff in Hwf. destruct Hwf as [Hnd Hwf].
    apply bool_decide_eq_true, NoDup_ListNoDup in Hnd.
    rewrite forallb_forall in Hwf. simpl.
    rewrite (mapM_map _ (fun kv => (fst kv, json_form (snd kv)))).
    + rewrite of_pairs_distinct; [reflexivity |].
      rewrite map_map. exact Hnd.
    + apply List.Forall_forall. intros x Hin.
      rewrite List.Forall_forall in IH. rewrite (IH x Hin (Hwf x Hin)). reflexivity.
  - (* instance *)
    destruct (well_formed_obj _ _ Hwf) as (Hnames & Hplain & Hnd & Hall).
    simpl. destruct (is_resource_type t) eqn:Hres; [| reflexivity].
    destruct (registry_entry t Hreg Hres) as (Hcls & _ & _).
    rewrite (class_name_of_plain t Hcls).
    rewrite (mapM_fields _ json_item _ attrs Hnames).
    + change (map json_item attrs)
        with (map (fun kv => (key_for (fst kv) (snd kv), json_form (snd kv))) attrs).
      rewrite of_pairs_distinct; [reflexivity |].
      apply (json_items_distinct attrs Hplain Hnd).
    + apply List.Forall_forall. intros [n x] Hin f Hf. simpl in Hf. rewrite Hf.
      rewrite (get_In n (recursively_convert_to_json n x)).
      * rewrite List.Forall_forall in IH, Hall.
        exact (IH _ Hin (Hall _ Hin) n).
      * rewrite map_map. exact Hnd.
      * apply in_map_iff. exists (n, x). split; [reflexivity | exact Hin].
Qed.

(** [to_json] writes every attribute under its key, in field order. *)
Lemma to_json_spec (t : PyType) (attrs : list (string * PyVal)) :
  registry_ok = true -> well_formed (VObj t attrs) = true ->
  to_json (VObj t attrs) = Ok (VDict (map json_item attrs)).
Proof.
  intros Hreg Hwf.
  destruct (well_formed_obj _ _ Hwf) as (Hnames & Hplain & Hnd & Hall).
  unfold to_json.
  rewrite (mapM_fields _ json_item _ attrs Hnames).
  - rewrite of_pairs_distinct; [reflexivity |].
    apply (json_items_distinct attrs Hplain Hnd).
  - apply List.Forall_forall. intros [n x] Hin f Hf. simpl in Hf. rewrite Hf.
    unfold getattr. rewrite (get_In n x attrs Hnd Hin).
    rewrite List.Forall_forall in Hall.
    exact (recursively_convert_to_json_spec Hreg x (Hall _ Hin) n).
Qed.

Lemma mapM_ext {A B} (f f' : A -> Result B) (l : list A) :
  (forall x, f x = f' x) -> mapM f l = mapM f' l.
Proof.
  intros H. induction l as [|x l IH]; simpl; [reflexivity |].
  rewrite H, IH. reflexivity.
Qed.

Lemma get_map_item {V W} (g : string -> V -> W) (k : string) (d : list (string * V)) :
  PyDict.get k (map (fun kv => (fst kv, g (fst kv) (snd kv))) d)
  = option_map (g k) (PyDict.get k d).
Proof.
  induction d as [|[k0 v0] d IH]; simpl; [reflexivity |].
  destruct (String.eqb_spec k0 k) as [->|Hne]; [reflexivity | exact IH].
Qed.

(** Line 22: on an instance of a registered class the conversion is the
    instance's [to_json] under the key tagged with the class name, whatever
    the instance holds. *)
Lemma recursively_convert_to_json_instance (name : string) (t : PyType)
    (attrs : list (string * PyVal)) :
  is_resource_type t = true ->
  recursively_convert_to_json name (VObj t attrs)
  = try data := to_json (VObj t attrs) in Ok (name ++ "::" ++ class_name_of t, data).
Proof.
  intros Hres. simpl. rewrite Hres.
  rewrite (mapM_ext _ (fun f => try attribute_value := getattr attrs (field_name f) in
                                recursively_convert_to_json (field_name f) attribute_value)).
  - destruct (mapM _ (type_fields t)); reflexivity.
  - intros f. rewrite (get_map_item recursively_convert_to_json). unfold getattr.
    destruct (PyDict.get (field_name f) attrs); reflexivity.
Qed.

(** ** Decoding *)

(** Keyword arguments that look up like [attrs] build the instance with
    [attrs], whatever their order. *)
Lemma construct_spec (cls : PyClass) (attrs kwargs : list (string * PyVal)) :
  map fst attrs = map field_name (type_fields (cls_type cls)) ->
  List.NoDup (map fst attrs) ->
  (forall k, PyDict.get k kwargs = PyDict.get k attrs) ->
  construct cls kwargs = Ok (VObj (cls_type cls) attrs).
Proof.
  intros Hnames Hnd Hsame. unfold construct.
  assert (Hkeys : forallb (fun k => existsb (fun f => String.eqb (field_name f) k)
                                      (type_fields (cls_type cls)))
                          (PyDict.keys kwargs) = true).
  { apply forallb_forall. intros k Hk. apply existsb_exists.
    assert (Hin : In k (map fst attrs)).
    { destruct (PyDict.get k attrs) as [v|] eqn:Hg.
      - exact (get_Some_key _ _ _ Hg).
      - rewrite <- Hsame in Hg. apply dict_get_None_keys in Hg. contradiction. }
    rewrite Hnames in Hin. apply in_map_iff in Hin. destruct Hin as [f [Hf Hin]].
    exists f. split; [exact Hin |]. apply String.eqb_eq. exact Hf. }
  rewrite Hkeys.
  rewrite (mapM_fields _ (fun kv => kv) _ attrs Hnames).
  - rewrite map_id. reflexivity.
  - apply List.Forall_forall. intros [n x] Hin f Hf. simpl in Hf. rewrite Hf.
    rewrite Hsame, (get_In n x attrs Hnd Hin). reflexivity.
Qed.

Lemma from_json_loop_step (decode : PyVal -> Result (list (string * PyVal)))
    (key : string) (value : PyVal) (rest data_copy : list (string * PyVal)) :
  from_json_loop decode ((key, value) :: rest) data_copy
  = if PyString.contains "::" key
       && negb (String.eqb (List.last (PyString.split "::" key) "") "datetime")
    then
      match PyString.split "::" key with
      | [instance_name; class_type] =>
          try class_ := dict_getitem class_type get_resource_variables in
          try data_copy := dict_delitem key data_copy in
          try kwargs := decode value in
          try instance := construct class_ kwargs in
          from_json_loop decode rest (PyDict.set instance_name instance data_copy)
      | _ => Raise (ValueError "too many values to unpack (expected 2)")
      end
    else if PyString.endswith key "::datetime" then
      try data_copy := dict_delitem key data_copy in
      try stamp := py_fromisoformat value in
      from_json_loop decode rest
        (PyDict.set (List.hd "" (PyString.split "::" key)) stamp data_copy)
    else from_json_loop decode rest data_copy.
Proof. reflexivity. Qed.

(** An untagged key is passed over. *)
Lemma from_json_loop_plain decode (key : string) (value : PyVal)
    (rest data_copy : list (string * PyVal)) :
  PyString.has_char ":" key = false ->
  from_json_loop decode ((key, value) :: rest) data_copy
  = from_json_loop decode rest data_copy.
Proof.
  intros H. rewrite from_json_loop_step.
  rewrite (contains_plain _ H). simpl andb. cbv iota.
  rewrite (endswith_has_char ":" key "::datetime" eq_refl H). reflexivity.
Qed.

(** A key tagged [::datetime] is replaced by the parsed timestamp. *)
Lemma from_json_loop_datetime decode (n : string) (value : PyVal)
    (rest data_copy : list (string * PyVal)) :
  PyString.has_char ":" n = false ->
  from_json_loop decode ((n ++ "::datetime", value) :: rest) data_copy
  = try data_copy := dict_delitem (n ++ "::datetime") data_copy in
    try stamp := py_fromisoformat value in
    from_json_loop decode rest (PyDict.set n stamp data_copy).
Proof.
  intros H. rewrite from_json_loop_step.
  change (n ++ "::datetime") with (n ++ "::" ++ "datetime").
  rewrite (split_tagged n "datetime" H eq_refl).
  rewrite (contains_tagged n "datetime"). simpl andb. cbv iota.
  change (n ++ "::" ++ "datetime") with (n ++ "::datetime").
  rewrite (endswith_append n "::datetime"). reflexivity.
Qed.

(** A key tagged with a class name is replaced by the decoded instance. *)
Lemma from_json_loop_resource decode (n class_type : string) (value : PyVal)
    (rest data_copy : list (string * PyVal)) :
  PyString.has_char ":" n = false ->
  PyString.has_char ":" class_type = false ->
  class_type <> "datetime" ->
  from_json_loop decode ((n ++ "::" ++ class_type, value) :: rest) data_copy
  = try class_ := dict_getitem class_type get_resource_variables in
    try data_copy := dict_delitem (n ++ "::" ++ class_type) data_copy in
    try kwargs := decode value in
    try instance := construct class_ kwargs in
    from_json_loop decode rest (PyDict.set n instance data_copy).
Proof.
  intros Hn Hc Hne. rewrite from_json_loop_step.
  rewrite (split_tagged n class_type Hn Hc).
  rewrite (contains_tagged n class_type). simpl List.last.
  apply String.eqb_neq in Hne. rewrite Hne. reflexivity.
Qed.

(** Replacing a tagged entry by its decoded value, seen through lookups. *)
Lemma tagged_step_lookup (L E D : list (string * PyVal)) (n tag : string) (j v : PyVal) :
  plain_keys L -> PyString.has_char ":" n = false ->
  ~ In n (map fst L) -> ~ In (n ++ "::" ++ tag) (map fst E) ->
  (forall k, PyDict.get k D = PyDict.get k (L ++ (n ++ "::" ++ tag, j) :: E)) ->
  PyDict.mem (n ++ "::" ++ tag) D = true
  /\ forall k, PyDict.get k (PyDict.set n v (PyDict.remove (n ++ "::" ++ tag) D))
               = PyDict.get k ((L ++ [(n, v)]) ++ E).
Proof.
  intros HL Hn HnL HkE Hinv.
  assert (HkeyL : forall k u, PyDict.get k L = Some u ->
                  k <> n /\ k <> n ++ "::" ++ tag).
  { intros k u Hg. pose proof (get_Some_In _ _ _ Hg) as Hin.
    split.
    - intros ->. apply HnL. exact (get_Some_key _ _ _ Hg).
    - intros ->. unfold plain_keys in HL. rewrite List.Forall_forall in HL.
      specialize (HL _ Hin). simpl in HL.
      exact (tagged_not_plain n tag _ HL eq_refl). }
  assert (HtagL : PyDict.get (n ++ "::" ++ tag) L = None).
  { destruct (PyDict.get (n ++ "::" ++ tag) L) as [u|] eqn:Hg; [| reflexivity].
    destruct (HkeyL _ _ Hg) as [_ Hne]. congruence. }
  assert (Hcons : forall k k' (u : PyVal) d,
            PyDict.get k ((k', u) :: d) = if String.eqb k' k then Some u else PyDict.get k d)
    by reflexivity.
  split.
  - apply mem_get. rewrite Hinv, get_app, HtagL, Hcons.
    rewrite String.eqb_refl. discriminate.
  - intros k. rewrite get_set, get_remove, Hinv, <- app_assoc.
    change ([(n, v)] ++ E)%list with ((n, v) :: E).
    rewrite !get_app, !Hcons.
    destruct (PyDict.get k L) as [u|] eqn:Hg.
    + destruct (HkeyL _ _ Hg) as [Hne1 Hne2].
      apply not_eq_sym, String.eqb_neq in Hne1, Hne2. rewrite Hne1, Hne2. reflexivity.
    + destruct (String.eqb_spec n k) as [->|Hne1]; [reflexivity |].
      destruct (String.eqb_spec (n ++ "::" ++ tag) k) as [<-|Hne2]; [| reflexivity].
      symmetry. apply get_not_In. exact HkE.
Qed.

Lemma tagged_key_fresh (n tag : string) (todo : list (string * PyVal)) :
  PyString.has_char ":" n = false -> plain_keys todo -> ~ In n (map fst todo) ->
  ~ In (n ++ "::" ++ tag) (map fst (map json_item todo)).
Proof.
  intros Hn Hp Hnot Hin. apply in_json_items_name in Hin.
  destruct Hin as [[n' x'] [Hin Heq]]. simpl in Heq. apply Hnot.
  assert (Hn' : PyString.has_char ":" n' = false).
  { unfold plain_keys in Hp. rewrite List.Forall_forall in Hp. exact (Hp _ Hin). }
  symmetry in Heq. rewrite <- (key_for_tagged_inj _ _ _ _ Hn Hn' Heq).
  apply (in_map fst) in Hin. exact Hin.
Qed.

Lemma plain_item (n : string) (x : PyVal) :
  key_for n x = n -> reloaded x = json_form x ->
  json_item (n, x) = reloaded_item (n, x).
Proof.
  intros Hk Hr. unfold json_item, reloaded_item. simpl. rewrite Hk, Hr. reflexivity.
Qed.

(** The loop of [recursively_convert_from_json] over the items [to_json]
    wrote: [done] are the attributes already passed, [todo] those to come,
    and [data_copy] looks up like the decoded [done] followed by the encoded
    [todo]. *)
Lemma from_json_loop_spec :
  registry_ok = true ->
  forall todo done data_copy,
  List.NoDup (map fst (done ++ todo)) ->
  plain_keys (done ++ todo) ->
  Forall (fun kv => well_formed (snd kv) = true /\ decodes (snd kv)) todo ->
  (forall k, PyDict.get k data_copy
             = PyDict.get k (map reloaded_item done ++ map json_item todo)) ->
  exists kwargs,
    from_json_loop recursively_convert_from_json (map json_item todo) data_copy = Ok kwargs
    /\ forall k, PyDict.get k kwargs = PyDict.get k (map reloaded_item (done ++ todo)).
Proof.
  intros Hreg. induction todo as [|[n x] todo IH]; intros done D Hnd Hplain Hall Hinv.
  - exists D. split; [reflexivity |]. intros k. rewrite Hinv.
    simpl. rewrite !app_nil_r. reflexivity.
  - apply List.Forall_cons_iff in Hall. destruct Hall as [[Hwf Hdec] Hall]. simpl in Hwf.
    assert (Hn : PyString.has_char ":" n = false).
    { unfold plain_keys in Hplain. rewrite List.Forall_forall in Hplain.
      apply (Hplain (n, x)). apply in_or_app. right. left. reflexivity. }
    assert (Hnd' : List.NoDup (map fst ((done ++ [(n, x)]) ++ todo)))
      by (rewrite <- app_assoc; exact Hnd).
    assert (Hplain' : plain_keys ((done ++ [(n, x)]) ++ todo))
      by (rewrite <- app_assoc; exact Hplain).
    assert (Hdone : ~ In n (map fst (map reloaded_item done))).
    { rewrite reloaded_items_names. rewrite map_app in Hnd. simpl in Hnd.
      apply List.NoDup_remove_2 in Hnd. intros Hin. apply Hnd.
      apply in_or_app. left. exact Hin. }
    assert (Htodo : ~ In n (map fst todo)).
    { rewrite map_app in Hnd. simpl in Hnd.
      apply List.NoDup_remove_2 in Hnd. intros Hin. apply Hnd.
      apply in_or_app. right. exact Hin. }
    assert (Hplain_done : plain_keys (map reloaded_item done)).
    { unfold plain_keys in *. rewrite List.Forall_forall in Hplain.
      apply List.Forall_forall. intros kv Hin. apply in_map_iff in Hin.
      destruct Hin as [kv' [<- Hin]]. simpl. apply Hplain.
      apply in_or_app. left. exact Hin. }
    assert (Hplain_todo : plain_keys todo).
    { unfold plain_keys in *. rewrite List.Forall_forall in Hplain.
      apply List.Forall_forall. intros kv Hin. apply Hplain.
      apply in_or_app. right. right. exact Hin. }
    assert (Hfinish : forall D',
              (forall k, PyDict.get k D'
                         = PyDict.get k ((map reloaded_item done ++ [reloaded_item (n, x)])
                                         ++ map json_item todo)) ->
              exists kwargs,
                from_json_loop recursively_convert_from_json (map json_item todo) D'
                = Ok kwargs
                /\ forall k, PyDict.get k kwargs
                             = PyDict.get k (map reloaded_item (done ++ (n, x) :: todo))).
    { intros D' Hinv'.
      destruct (IH (done ++ [(n, x)])%list D' Hnd' Hplain' Hall) as [kwargs [Hrun Hlook]].
      - intros k. rewrite Hinv', map_app. reflexivity.
      - exists kwargs. split; [exact Hrun |]. intros k. rewrite Hlook, <- app_assoc.
        reflexivity. }
    assert (Hplain_case : json_item (n, x) = reloaded_item (n, x) -> key_for n x = n ->
              exists kwargs,
                from_json_loop recursively_convert_from_json
                  (map json_item ((n, x) :: todo)) D = Ok kwargs
                /\ forall k, PyDict.get k kwargs
                             = PyDict.get k (map reloaded_item (done ++ (n, x) :: todo))).
    { intros Hitem Hkey. simpl map. unfold json_item at 1. simpl fst. simpl snd.
      rewrite Hkey, (from_json_loop_plain _ _ _ _ _ Hn).
      apply Hfinish. intros k. rewrite Hinv. simpl map. rewrite Hitem, <- app_assoc.
      reflexivity. }
    assert (Htagged : forall tag v,
              key_for n x = n ++ "::" ++ tag -> reloaded x = v ->
              PyDict.mem (n ++ "::" ++ tag) D = true
              /\ forall k, PyDict.get k (PyDict.set n v (PyDict.remove (n ++ "::" ++ tag) D))
                           = PyDict.get k ((map reloaded_item done ++ [reloaded_item (n, x)])
                                           ++ map json_item todo)).
    { intros tag v Hkey Hv. unfold reloaded_item at 2. simpl fst. simpl snd. rewrite Hv.
      apply (tagged_step_lookup _ _ _ _ _ (json_form x)); try assumption.
      - apply tagged_key_fresh; assumption.
      - intros k. rewrite Hinv. simpl map. unfold json_item at 1. simpl fst. simpl snd.
        rewrite Hkey. reflexivity. }
    destruct x as [| b | z | s | d | l | d | t attrs];
      try (apply Hplain_case; reflexivity).
    + (* a timestamp *)
      destruct (Htagged "datetime" (VDatetime d) eq_refl eq_refl) as [Hmem Hlook].
      simpl map. unfold json_item at 1. simpl fst. simpl snd.
      change (key_for n (VDatetime d)) with (n ++ "::datetime").
      change (json_form (VDatetime d)) with (VStr (DateTime.isoformat d)).
      rewrite (from_json_loop_datetime _ _ _ _ _ Hn).
      unfold dict_delitem. change (n ++ "::datetime") with (n ++ "::" ++ "datetime").
      rewrite Hmem. unfold py_fromisoformat.
      rewrite (fromisoformat_isoformat d Hwf).
      apply Hfinish. exact Hlook.
    + (* an instance *)
      destruct (is_resource_type t) eqn:Hres.
      * destruct (registry_entry t Hreg Hres) as (Hname & Hnot & cls & Hget & Hcls).
        assert (Hkey : key_for n (VObj t attrs) = n ++ "::" ++ type_name t)
          by (simpl; rewrite Hres; reflexivity).
        assert (Hrel : reloaded (VObj t attrs) = VObj t (map reloaded_item attrs))
          by (simpl; rewrite Hres; reflexivity).
        destruct (Htagged _ _ Hkey Hrel) as [Hmem Hlook].
        simpl map. unfold json_item at 1. simpl fst. simpl snd. rewrite Hkey.
        rewrite (from_json_loop_resource _ _ _ _ _ _ Hn (plain_name_colon _ Hname) Hnot).
        unfold dict_getitem, dict_delitem. rewrite Hget, Hmem.
        assert (Hjson : json_form (VObj t attrs) = VDict (map json_item attrs))
          by (simpl; rewrite Hres; reflexivity).
        rewrite Hjson.
        pose proof (Hdec t attrs eq_refl cls Hcls) as Hfrom. unfold from_json in Hfrom.
        destruct (recursively_convert_from_json (VDict (map json_item attrs)))
          as [kw|e]; [| discriminate].
        rewrite Hfrom. apply Hfinish. exact Hlook.
      * apply Hplain_case; unfold json_item, reloaded_item; simpl; rewrite Hres;
          reflexivity.
Qed.

(** Decoding what [to_json] wrote gives the instance with its attributes
    reloaded. *)
Lemma from_json_spec :
  registry_ok = true -> forall v, well_formed v = true -> decodes v.
Proof.
  intros Hreg. induction v as [| b | n | s | d | l IH | d IH | t attrs IH]
    using PyVal_nested_ind; intros Hwf t' attrs' Heq cls Hcls; try discriminate.
  injection Heq as <- <-.
  destruct (well_formed_obj _ _ Hwf) as (Hnames & Hplain & Hnd & Hall).
  unfold from_json.
  change (recursively_convert_from_json (VDict (map json_item attrs)))
    with (from_json_loop recursively_convert_from_json (map json_item attrs)
            (PyDict.of_pairs (map json_item attrs))).
  rewrite (of_pairs_distinct _ (json_items_distinct attrs Hplain Hnd)).
  destruct (from_json_loop_spec Hreg attrs [] (map json_item attrs)) as [kw [Hrun Hlook]];
    try assumption.
  - apply List.Forall_forall. intros kv Hin.
    rewrite List.Forall_forall in IH, Hall. split; [exact (Hall _ Hin) |].
    exact (IH _ Hin (Hall _ Hin)).
  - intros k. reflexivity.
  - rewrite Hrun. rewrite <- Hcls. apply construct_spec.
    + rewrite reloaded_items_names, Hcls. exact Hnames.
    + rewrite reloaded_items_names. exact Hnd.
    + exact Hlook.
Qed.

(** ** Round trips *)

(** Encoding and decoding an instance reloads each attribute. *)
Lemma from_json_to_json (cls : PyClass) (t : PyType) (attrs : list (string * PyVal)) :
  registry_ok = true -> well_formed (VObj t attrs) = true -> cls_type cls = t ->
  to_json (VObj t attrs) = Ok (VDict (map json_item attrs))
  /\ from_json cls (VDict (map json_item attrs)) = Ok (VObj t (map reloaded_item attrs)).
Proof.
  intros Hreg Hwf Hcls. split.
  - apply to_json_spec; assumption.
  - exact (from_json_spec Hreg _ Hwf t attrs eq_refl cls Hcls).
Qed.

Lemma json_text_fixed (v : PyVal) : json_text v = true -> json_form v = v.
Proof.
  induction v as [| b | n | s | d | l IH | d IH | t attrs IH]
    using PyVal_nested_ind; simpl; intros H; try discriminate; try reflexivity.
  - f_equal. rewrite forallb_forall in H. rewrite List.Forall_forall in IH.
    rewrite <- (map_id l) at 2. apply map_ext_in. intros x Hin. exact (IH x Hin (H x Hin)).
  - f_equal. rewrite forallb_forall in H. rewrite List.Forall_forall in IH.
    rewrite <- (map_id d) at 2. apply map_ext_in. intros [k x] Hin. simpl.
    f_equal. exact (IH _ Hin (H _ Hin)).
Qed.

Lemma lossless_fixed (v : PyVal) : lossless v = true -> reloaded v = v.
Proof.
  induction v as [| b | n | s | d | l IH | d IH | t attrs IH]
    using PyVal_nested_ind; intros H; try discriminate; try reflexivity.
  - exact (json_text_fixed (VList l) H).
  - exact (json_text_fixed (VDict d) H).
  - simpl in H. apply andb_true_iff in H. destruct H as [Hres H].
    simpl. rewrite Hres. f_equal.
    rewrite forallb_forall in H. rewrite List.Forall_forall in IH.
    rewrite <- (map_id attrs) at 2. apply map_ext_in. intros [k x] Hin. simpl.
    f_equal. exact (IH _ Hin (H _ Hin)).
Qed.

Lemma stringified_reloaded (v : PyVal) :
  stringified v = true -> reloaded v = VStr (py_str v).
Proof.
  destruct v as [| b | n | s | d | l | d | t attrs]; simpl; intros H;
    try discriminate; try reflexivity.
  apply negb_true_iff in H. rewrite H. reflexivity.
Qed.

(** *** What the tests of the repository assert: the JSON form is stable *)

Lemma json_form_well_formed (v : PyVal) :
  well_formed v = true -> well_formed (json_form v) = true.
Proof.
  induction v as [| b | n | s | d | l IH | d IH | t attrs IH]
    using PyVal_nested_ind; intros Hwf; try reflexivity.
  - simpl in *. rewrite forallb_forall in Hwf. rewrite List.Forall_forall in IH.
    apply forallb_forall. intros y Hy. apply in_map_iff in Hy.
    destruct Hy as [x [<- Hx]]. exact (IH x Hx (Hwf x Hx)).
  - simpl in *. apply andb_true_iff in Hwf. destruct Hwf as [Hnd Hwf].
    rewrite forallb_forall in Hwf. rewrite List.Forall_forall in IH.
    apply andb_true_iff. split.
    + rewrite map_map. exact Hnd.
    + apply forallb_forall. intros y Hy. apply in_map_iff in Hy.
      destruct Hy as [x [<- Hx]]. exact (IH x Hx (Hwf x Hx)).
  - destruct (well_formed_obj _ _ Hwf) as (Hnames & Hplain & Hnd & Hall).
    simpl. destruct (is_resource_type t); [| reflexivity].
    simpl. apply andb_true_iff. split.
    + apply bool_decide_eq_true, NoDup_ListNoDup.
      exact (json_items_distinct attrs Hplain Hnd).
    + apply forallb_forall. intros y Hy. apply in_map_iff in Hy.
      destruct Hy as [x [<- Hx]]. rewrite List.Forall_forall in IH, Hall.
      exact (IH x Hx (Hall x Hx)).
Qed.

Lemma reloaded_well_formed (v : PyVal) :
  well_formed v = true -> well_formed (reloaded v) = true.
Proof.
  induction v as [| b | n | s | d | l IH | d IH | t attrs IH]
    using PyVal_nested_ind; intros Hwf; try reflexivity; try exact Hwf.
  - exact (json_form_well_formed (VList l) Hwf).
  - exact (json_form_well_formed (VDict d) Hwf).
  - destruct (well_formed_obj _ _ Hwf) as (Hnames & Hplain & Hnd & Hall).
    simpl. destruct (is_resource_type t); [| reflexivity].
    simpl in Hwf. simpl. rewrite !map_map. simpl.
    repeat (apply andb_true_iff in Hwf; destruct Hwf as [Hwf ?]).
    repeat (apply andb_true_iff; split); try assumption.
    rewrite forallb_forall. intros y Hy. apply in_map_iff in Hy.
    destruct Hy as [x [<- Hx]]. rewrite List.Forall_forall in IH, Hall.
    exact (IH x Hx (Hall x Hx)).
Qed.

Lemma json_form_idempotent (v : PyVal) : json_form (json_form v) = json_form v.
Proof.
  induction v as [| b | n | s | d | l IH | d IH | t attrs IH]
    using PyVal_nested_ind; try reflexivity.
  - simpl. f_equal. rewrite map_map. apply map_ext_in. intros x Hx.
    rewrite List.Forall_forall in IH. exact (IH x Hx).
  - simpl. f_equal. rewrite map_map. apply map_ext_in. intros x Hx. simpl.
    rewrite List.Forall_forall in IH. f_equal. exact (IH x Hx).
  - simpl. destruct (is_resource_type t); [| reflexivity].
    simpl. f_equal. rewrite map_map. apply map_ext_in. intros x Hx. simpl.
    rewrite List.Forall_forall in IH. f_equal. exact (IH x Hx).
Qed.

Lemma key_for_reloaded (n : string) (v : PyVal) : key_for n (reloaded v) = key_for n v.
Proof.
  destruct v as [| b | z | s | d | l | d | t attrs]; try reflexivity.
  simpl. destruct (is_resource_type t) eqn:Hres; simpl; [rewrite Hres |]; reflexivity.
Qed.

Lemma json_form_reloaded (v : PyVal) : json_form (reloaded v) = json_form v.
Proof.
  induction v as [| b | n | s | d | l IH | d IH | t attrs IH]
    using PyVal_nested_ind; try reflexivity.
  - exact (json_form_idempotent (VList l)).
  - exact (json_form_idempotent (VDict d)).
  - simpl. destruct (is_resource_type t) eqn:Hres; [| reflexivity].
    simpl. rewrite Hres. f_equal. rewrite map_map. apply map_ext_in. intros x Hx. simpl.
    rewrite List.Forall_forall in IH. rewrite key_for_reloaded. f_equal. exact (IH x Hx).
Qed.

(** [x.to_json() == X.from_json(x.to_json()).to_json()], the assertion of
    [tests/test_repo.py] and [tests/test_pull_requests.py], for every
    well-formed instance. *)
Lemma to_json_stable (cls : PyClass) (t : PyType) (attrs : list (string * PyVal)) :
  registry_ok = true -> well_formed (VObj t attrs) = true -> cls_type cls = t ->
  exists data reloaded_instance,
    to_json (VObj t attrs) = Ok data
    /\ from_json cls data = Ok reloaded_instance
    /\ to_json reloaded_instance = Ok data.
Proof.
  intros Hreg Hwf Hcls.
  destruct (from_json_to_json cls t attrs Hreg Hwf Hcls) as [Hto Hfrom].
  exists (VDict (map json_item attrs)), (VObj t (map reloaded_item attrs)).
  split; [exact Hto |]. split; [exact Hfrom |].
  rewrite to_json_spec; [| exact Hreg |].
  - f_equal. f_equal. rewrite map_map. apply map_ext. intros [n x].
    unfold json_item, reloaded_item. simpl.
    rewrite key_for_reloaded, json_form_reloaded. reflexivity.
  - destruct (well_formed_obj _ _ Hwf) as (Hnames & Hplain & Hnd & Hall).
    simpl in Hwf. simpl. rewrite !map_map. simpl.
    repeat (apply andb_true_iff in Hwf; destruct Hwf as [Hwf ?]).
    repeat (apply andb_true_iff; split); try assumption.
    rewrite forallb_forall. intros y Hy. apply in_map_iff in Hy.
    destruct Hy as [x [<- Hx]]. rewrite List.Forall_forall in Hall.
    exact (reloaded_well_formed _ (Hall x Hx)).
Qed.

(** C1, amended. For every instance of a class of the registry, decoding
    its encoding succeeds and yields an instance of the same class with the
    same attribute names, each value [v] having become [reloaded v].  When
    the values are strings, timestamps, instances of registered classes with
    such attributes again, or lists and mappings of strings, that is the
    same instance.  Otherwise a value comes back changed: an instance of a
    registered class with its own attributes taken through the same round
    trip, a list or a mapping as the list or mapping of the JSON forms of
    its elements, and anything else as its [str] text; the JSON form of a
    value is what [recursively_convert_to_json] writes for it. *)
Theorem roundtrip_lossless (cls : PyClass) (t : PyType) (attrs : list (string * PyVal)) :
  registry_ok = true ->
  well_formed (VObj t attrs) = true ->
  cls_type cls = t ->
  (exists data,
     to_json (VObj t attrs) = Ok data
     /\ from_json cls data = Ok (VObj t (map reloaded_item attrs))
     /\ (forallb (fun kv => lossless (snd kv)) attrs = true ->
         from_json cls data = Ok (VObj t attrs)))
  /\ (forall v,
        (lossless v = true -> reloaded v = v)
        /\ (stringified v = true -> reloaded v = VStr (py_str v))
        /\ (forall l, v = VList l -> reloaded v = VList (map json_form l))
        /\ (forall d, v = VDict d ->
            reloaded v = VDict (map (fun kv => (fst kv, json_form (snd kv))) d))
        /\ (forall t' attrs', v = VObj t' attrs' -> is_resource_type t' = true ->
            reloaded v = VObj t' (map reloaded_item attrs')))
  /\ (forall v name, well_formed v = true ->
        recursively_convert_to_json name v = Ok (key_for name v, json_form v)).
Proof.
  intros Hreg Hwf Hcls.
  destruct (from_json_to_json cls t attrs Hreg Hwf Hcls) as [Hto Hfrom].
  split; [| split].
  - exists (VDict (map json_item attrs)). split; [exact Hto |]. split; [exact Hfrom |].
    intros Hloss. rewrite Hfrom. f_equal. f_equal.
    rewrite forallb_forall in Hloss.
    rewrite <- (map_id attrs) at 2. apply map_ext_in. intros [k x] Hin.
    unfold reloaded_item. simpl. f_equal. exact (lossless_fixed x (Hloss _ Hin)).
  - intros v. split; [exact (lossless_fixed v) |].
    split; [exact (stringified_reloaded v) |].
    split; [intros l ->; reflexivity |].
    split; [intros d ->; reflexivity |].
    intros t' attrs' -> Hres.
    change (reloaded (VObj t' attrs'))
      with (if is_resource_type t' then VObj t' (map reloaded_item attrs')
            else VStr (py_str (VObj t' attrs'))).
    rewrite Hres. reflexivity.
  - intros v name Hv. exact (recursively_convert_to_json_spec Hreg v Hv name).
Qed.

(** C8. A value that is not a dict, a list, a datetime or an instance of a
    registered class is encoded as [str(value)] under the unchanged key:
    [False] as ["False"], [None] as ["None"], an integer as its decimal
    form; and decoding the encoding of an instance gives such an attribute
    back as that string. *)
Theorem scalars_come_back_as_strings (name : string) (v : PyVal) :
  stringified v = true ->
  recursively_convert_to_json name v = Ok (name, VStr (py_str v))
  /\ py_str (VBool false) = "False"
  /\ py_str (VBool true) = "True"
  /\ py_str VNone = "None"
  /\ (forall n, py_str (VInt n) = PyString.of_Z n)
  /\ forall cls t attrs,
       registry_ok = true -> well_formed (VObj t attrs) = true -> cls_type cls = t ->
       PyDict.get name attrs = Some v ->
       exists data attrs',
         to_json (VObj t attrs) = Ok data
         /\ from_json cls data = Ok (VObj t attrs')
         /\ PyDict.get name attrs' = Some (VStr (py_str v)).
Proof.
  intros Hs. repeat split.
  - destruct v as [| b | n | s | d | l | d | t attrs]; simpl in *;
      try discriminate; try reflexivity.
    apply negb_true_iff in Hs. rewrite Hs. reflexivity.
  - intros cls t attrs Hreg Hwf Hcls Hget.
    destruct (from_json_to_json cls t attrs Hreg Hwf Hcls) as [Hto Hfrom].
    exists (VDict (map json_item attrs)), (map reloaded_item attrs).
    repeat split; [exact Hto | exact Hfrom |].
    change (map reloaded_item attrs)
      with (map (fun kv => (fst kv, reloaded (snd kv))) attrs).
    rewrite get_map_values, Hget. simpl. rewrite (stringified_reloaded v Hs). reflexivity.
Qed.


(* ===================================================================== *)
(** * The engine: what a run returns and what it leaves behind *)
(* ===================================================================== *)

Lemma http_run ado_client method url body w :
  http ado_client method url body w
  = (Ok (answer ado_client w (mk_request method url body)),
     logged w (mk_request method url body)).
Proof. reflexivity. Qed.

Lemma bind_http {A} ado_client method url body (k : HttpResponse -> Eff World A) w :
  bind (http ado_client method url body) k w
  = k (answer ado_client w (mk_request method url body))
      (logged w (mk_request method url body)).
Proof. reflexivity. Qed.

Lemma bind_lift_ok {S A B} (r : Result A) (a : A) (k : A -> Eff S B) s :
  r = Ok a -> bind (lift r) k s = k a s.
Proof. intros ->. reflexivity. Qed.

Lemma bind_lift_raise {S A B} (r : Result A) e (k : A -> Eff S B) s :
  r = Raise e -> bind (lift r) k s = (Raise e, s).
Proof. intros ->. reflexivity. Qed.

Lemma geb_300_true n : 300 <= n -> (n >=? 300) = true.
Proof. intros H. rewrite Z.geb_leb. apply Z.leb_le. exact H. Qed.

Lemma geb_300_false n : n < 300 -> (n >=? 300) = false.
Proof. intros H. rewrite Z.geb_leb. apply Z.leb_gt. exact H. Qed.

(** ** [_get_by_url] *)

(** C6. Fetch-one-by-URL: a 404 answer raises the not-found error, whose
    message names the resource type; any other status of 300 or more raises
    the generic request error ([ValueError]), whose message ends with the
    response body. *)
Theorem get_by_url_error_classes (cls : PyClass) (ado_client : AdoClient)
    (url : string) (w : World) :
  let req := mk_request "GET" (full_url ado_client url) None in
  let request := answer ado_client w req in
  (status_code request = 404 ->
   _get_by_url cls ado_client url w
   = (Raise (ResourceNotFound ("No " ++ cls_name cls ++ " found with that identifier!")),
      logged w req))
  /\ (status_code request <> 404 -> 300 <= status_code request ->
      _get_by_url cls ado_client url w
      = (Raise (ValueError ("Error getting " ++ cls_name cls ++ " by id: " ++ text request)),
         logged w req)).
Proof.
  intros req request. unfold _get_by_url. rewrite bind_http. fold req request.
  split.
  - intros H. rewrite H. reflexivity.
  - intros Hne Hge. apply Z.eqb_neq in Hne. rewrite Hne.
    rewrite (geb_300_true _ Hge). reflexivity.
Qed.

(** C9. A successful GET whose JSON body is [{"value": []}] makes
    fetch-one-by-URL index the empty list: the run ends in [IndexError],
    neither in the not-found error nor in a resource. *)
Theorem get_by_url_empty_value (cls : PyClass) (ado_client : AdoClient)
    (url : string) (w : World) :
  let req := mk_request "GET" (full_url ado_client url) None in
  let request := answer ado_client w req in
  status_code request = 200 ->
  json_body request = Some (VDict [("value", VList [])]) ->
  _get_by_url cls ado_client url w = (Raise IndexError, logged w req)
  /\ (forall msg, fst (_get_by_url cls ado_client url w) <> Raise (ResourceNotFound msg))
  /\ (forall resource, fst (_get_by_url cls ado_client url w) <> Ok resource).
Proof.
  intros req request Hstatus Hbody.
  assert (Hrun : _get_by_url cls ado_client url w = (Raise IndexError, logged w req)).
  { unfold _get_by_url. rewrite bind_http. fold req request.
    rewrite Hstatus. simpl.
    unfold json. rewrite Hbody. reflexivity. }
  rewrite Hrun. simpl. repeat split; intros; discriminate.
Qed.

(** ** [_create] *)

(** A create whose POST succeeds, without refetch: the decoded resource is
    returned and upserted under (type name, id). *)
Lemma create_success (cls : PyClass) (ado_client : AdoClient) (url : string)
    (payload : option (list (string * PyVal))) (w : World)
    (body resource data : PyVal) (id : string) :
  let req := mk_request "POST" (full_url ado_client url) (Some (post_body payload)) in
  let request := answer ado_client w req in
  plan_mode ado_client = false ->
  status_code request < 300 ->
  json_body request = Some body ->
  from_request_payload cls body = Ok resource ->
  extract_id resource = Ok (VStr id) ->
  to_json resource = Ok data ->
  _create cls ado_client url payload false w
  = (Ok resource,
     mk_world (http_log w ++ [req]) (<[(cls_name cls, id) := data]> (state w))
              (plan w) (stdout w)).
Proof.
  intros req request Hplan Hstatus Hbody Hdecode Hid Hjson.
  unfold _create. rewrite Hplan. fold (post_body payload).
  rewrite bind_http. fold req request.
  rewrite (geb_300_false _ Hstatus).
  unfold json. rewrite Hbody.
  rewrite (bind_lift_ok _ body) by reflexivity.
  rewrite (bind_lift_ok _ resource) by exact Hdecode.
  unfold bind at 1. unfold ret at 1.
  rewrite (bind_lift_ok _ (VStr id)) by exact Hid.
  rewrite (bind_lift_ok _ data) by exact Hjson.
  reflexivity.
Qed.

(** A create whose POST is answered with 401 or 403. *)
Lemma create_permission_denied (cls : PyClass) (ado_client : AdoClient) (url : string)
    (payload : option (list (string * PyVal))) (refetch : bool) (w : World) :
  let req := mk_request "POST" (full_url ado_client url) (Some (post_body payload)) in
  let request := answer ado_client w req in
  plan_mode ado_client = false ->
  status_code request = 401 \/ status_code request = 403 ->
  _create cls ado_client url payload refetch w
  = (Raise (InvalidPermissionsError
              ("You do not have permission to create this " ++ cls_name cls ++ "! "
               ++ text request)),
     logged w req).
Proof.
  intros req request Hplan Hstatus.
  unfold _create. rewrite Hplan. fold (post_body payload).
  rewrite bind_http. fold req request.
  destruct Hstatus as [H | H]; rewrite H; reflexivity.
Qed.

(** In plan mode a create is the plan component's create and nothing else. *)
Lemma create_plan_mode (cls : PyClass) (ado_client : AdoClient) (url : string)
    (payload : option (list (string * PyVal))) (refetch : bool) (w : World) :
  plan_mode ado_client = true ->
  _create cls ado_client url payload refetch w
  = PlannedStateManagedResource.create cls ado_client url payload w.
Proof. intros H. unfold _create. rewrite H. reflexivity. Qed.

(** ** [_delete_by_id] *)

Lemma delete_204 (cls : PyClass) (ado_client : AdoClient) (url resource_id : string)
    (w : World) :
  let req := mk_request "DELETE" (full_url ado_client url) None in
  status_code (answer ado_client w req) = 204 ->
  _delete_by_id cls ado_client url resource_id w
  = (Ok tt, removed cls resource_id w req (stdout w)).
Proof.
  intros req H. unfold _delete_by_id. rewrite bind_http. fold req.
  unfold bind at 1. rewrite H. reflexivity.
Qed.

Lemma delete_404 (cls : PyClass) (ado_client : AdoClient) (url resource_id : string)
    (w : World) :
  let req := mk_request "DELETE" (full_url ado_client url) None in
  status_code (answer ado_client w req) = 404 ->
  _delete_by_id cls ado_client url resource_id w
  = (Ok tt, removed cls resource_id w req
              (if suppress_warnings ado_client then stdout w
               else stdout w ++ [warning_404])).
Proof.
  intros req H. unfold _delete_by_id. rewrite bind_http. fold req.
  unfold bind at 1. rewrite H. simpl.
  destruct (suppress_warnings ado_client); reflexivity.
Qed.

Lemma delete_other_raises (cls : PyClass) (ado_client : AdoClient)
    (url resource_id : string) (w : World) :
  let req := mk_request "DELETE" (full_url ado_client url) None in
  let request := answer ado_client w req in
  status_code request <> 204 -> status_code request <> 404 ->
  exists e, _delete_by_id cls ado_client url resource_id w = (Raise e, logged w req).
Proof.
  intros req request H204 H404. unfold _delete_by_id. rewrite bind_http.
  fold req request. unfold bind at 1.
  apply Z.eqb_neq in H204, H404. rewrite H204, H404. simpl.
  unfold json. destruct (json_body request) as [body|]; [| eexists; reflexivity].
  rewrite (bind_lift_ok _ body) by reflexivity.
  destruct (py_contains "message" body) as [[|]|e].
  - rewrite (bind_lift_ok _ true) by reflexivity.
    destruct (py_getitem "message" body) as [m|e]; eexists; reflexivity.
  - eexists; reflexivity.
  - eexists; reflexivity.
Qed.

Lemma delete_other_object_body (cls : PyClass) (ado_client : AdoClient)
    (url resource_id : string) (w : World) (d : list (string * PyVal)) :
  let req := mk_request "DELETE" (full_url ado_client url) None in
  let request := answer ado_client w req in
  status_code request <> 204 -> status_code request <> 404 ->
  json_body request = Some (VDict d) ->
  _delete_by_id cls ado_client url resource_id w
  = (Raise (DeletionFailed (deletion_message cls resource_id request d)), logged w req).
Proof.
  intros req request H204 H404 Hbody. unfold _delete_by_id. rewrite bind_http.
  fold req request. unfold bind at 1.
  apply Z.eqb_neq in H204, H404. rewrite H204, H404. simpl.
  unfold json, deletion_message. rewrite Hbody.
  rewrite (bind_lift_ok _ (VDict d)) by reflexivity.
  simpl. unfold PyDict.mem, dict_getitem.
  destruct (PyDict.get "message" d) as [m|] eqn:Hm; reflexivity.
Qed.

(** ** [_update] *)

Lemma update_not_editable (ado_client : AdoClient) (update_action url attribute_name : string)
    (attribute_value : PyVal) (params : list (string * PyVal))
    (t : PyType) (attrs : list (string * PyVal)) (w : World) :
  PyDict.get attribute_name (get_internal_field_names t) = None ->
  _update ado_client update_action url attribute_name attribute_value params (VObj t attrs, w)
  = (Raise (ValueError (not_editable_message t attribute_name)), (VObj t attrs, w)).
Proof.
  intros H. unfold _update, bind, get_self. simpl. rewrite H. reflexivity.
Qed.

Lemma update_plan_mode (ado_client : AdoClient) (update_action url attribute_name : string)
    (attribute_value : PyVal) (params : list (string * PyVal))
    (t : PyType) (attrs : list (string * PyVal)) (w : World) (wire_name : string) :
  PyDict.get attribute_name (get_internal_field_names t) = Some wire_name ->
  plan_mode ado_client = true ->
  _update ado_client update_action url attribute_name attribute_value params (VObj t attrs, w)
  = on_world (PlannedStateManagedResource.update (VObj t attrs) ado_client url attribute_name
                attribute_value (PyDict.set wire_name attribute_value params))
             (VObj t attrs, w).
Proof.
  intros H Hplan. unfold _update, bind, get_self. simpl. rewrite H, Hplan. reflexivity.
Qed.

Lemma update_not_200 (ado_client : AdoClient) (update_action url attribute_name : string)
    (attribute_value : PyVal) (params : list (string * PyVal))
    (t : PyType) (attrs : list (string * PyVal)) (w : World) (wire_name : string) :
  let self := VObj t attrs in
  let req := mk_request update_action (full_url ado_client url)
               (Some (VDict (PyDict.set wire_name attribute_value params))) in
  let request := answer ado_client w req in
  PyDict.get attribute_name (get_internal_field_names t) = Some wire_name ->
  plan_mode ado_client = false ->
  status_code request <> 200 ->
  _update ado_client update_action url attribute_name attribute_value params (self, w)
  = (match extract_id self with
     | Ok id => Raise (UpdateFailed (update_failed_message t id attribute_name
                                       attribute_value request))
     | Raise e => Raise e
     end, (self, logged w req)).
Proof.
  intros self req request H Hplan Hstatus.
  apply Z.eqb_neq in Hstatus.
  unfold _update, bind, get_self, on_world, self. cbn [fst snd]. rewrite H, Hplan.
  simpl (snd _). simpl (fst _). rewrite http_run. fold req request.
  rewrite Hstatus. cbn [negb].
  unfold lift, raise. destruct (extract_id (VObj t attrs)); reflexivity.
Qed.

Lemma update_200 (ado_client : AdoClient) (update_action url attribute_name : string)
    (attribute_value : PyVal) (params : list (string * PyVal))
    (t : PyType) (attrs : list (string * PyVal)) (w : World) (wire_name id : string)
    (data : PyVal) :
  let self' := VObj t (PyDict.set attribute_name attribute_value attrs) in
  let req := mk_request update_action (full_url ado_client url)
               (Some (VDict (PyDict.set wire_name attribute_value params))) in
  PyDict.get attribute_name (get_internal_field_names t) = Some wire_name ->
  plan_mode ado_client = false ->
  status_code (answer ado_client w req) = 200 ->
  extract_id self' = Ok (VStr id) ->
  to_json self' = Ok data ->
  _update ado_client update_action url attribute_name attribute_value params (VObj t attrs, w)
  = (Ok tt, (self', mk_world (http_log w ++ [req]) (<[(type_name t, id) := data]> (state w))
                             (plan w) (stdout w))).
Proof.
  intros self' req H Hplan Hstatus Hid Hjson.
  unfold _update, bind, get_self, on_world, setattr. cbn [fst snd]. rewrite H, Hplan.
  simpl (snd _). simpl (fst _). rewrite http_run. fold req.
  rewrite Hstatus. unfold self' in Hid, Hjson.
  cbv beta iota zeta delta [negb fst snd lift Z.eqb Pos.eqb].
  rewrite Hid, Hjson. reflexivity.
Qed.

(** The keys of [get_internal_field_names] are the names of the fields
    declared editable, in declaration order. *)
Lemma internal_field_names_keys (t : PyType) :
  PyDict.keys (get_internal_field_names t)
  = map field_name (List.filter (fun f => editable f) (type_fields t)).
Proof.
  unfold get_internal_field_names, PyDict.keys. rewrite map_map. reflexivity.
Qed.

(** ** The claims about the engine *)

(** C2. While the client's plan-mode flag is set, a create is exactly the
    plan component's create, and an update, once the attribute has passed
    the editable-field validation, exactly the plan component's update; in
    both, and also when the validation fails, no HTTP request is issued and
    the State Store is not mutated. *)
Theorem plan_mode_isolation (cls : PyClass) (ado_client : AdoClient)
    (url update_action attribute_name : string)
    (payload : option (list (string * PyVal))) (refetch : bool)
    (attribute_value : PyVal) (params : list (string * PyVal))
    (t : PyType) (attrs : list (string * PyVal)) (w : World) :
  plan_mode ado_client = true ->
  let created := _create cls ado_client url payload refetch w in
  let updated := _update ado_client update_action url attribute_name attribute_value
                   params (VObj t attrs, w) in
  (created = PlannedStateManagedResource.create cls ado_client url payload w
   /\ http_log (snd created) = http_log w
   /\ state (snd created) = state w)
  /\ (http_log (snd (snd updated)) = http_log w
      /\ state (snd (snd updated)) = state w
      /\ forall wire_name,
           PyDict.get attribute_name (get_internal_field_names t) = Some wire_name ->
           updated = on_world (PlannedStateManagedResource.update (VObj t attrs) ado_client
                                 url attribute_name attribute_value
                                 (PyDict.set wire_name attribute_value params))
                              (VObj t attrs, w)).
Proof.
  intros Hplan created updated. split.
  - unfold created. rewrite create_plan_mode by exact Hplan. repeat split; reflexivity.
  - unfold updated.
    destruct (PyDict.get attribute_name (get_internal_field_names t)) as [wire|] eqn:Hget.
    + rewrite (update_plan_mode _ _ _ _ _ _ _ _ _ wire) by assumption.
      repeat split; try reflexivity. intros wire' Heq. congruence.
    + rewrite update_not_editable by exact Hget.
      repeat split; try reflexivity. intros wire' Heq. discriminate.
Qed.

(** C3. An update of an attribute that is not in the type's editable-field
    set raises an error whose message lists the editable attribute names,
    and leaves the world (no HTTP call, the State Store) and the instance as
    they were. *)
Theorem update_rejects_non_editable (ado_client : AdoClient)
    (update_action url attribute_name : string) (attribute_value : PyVal)
    (params : list (string * PyVal)) (t : PyType) (attrs : list (string * PyVal))
    (w : World) :
  ~ In attribute_name (map field_name (List.filter (fun f => editable f) (type_fields t))) ->
  _update ado_client update_action url attribute_name attribute_value params (VObj t attrs, w)
  = (Raise (ValueError
              ("The attribute `" ++ attribute_name
               ++ "` is not editable!  Editable attributes are: "
               ++ PyString.repr_list
                    (map field_name (List.filter (fun f => editable f) (type_fields t))))),
     (VObj t attrs, w)).
Proof.
  intros Hnot. rewrite <- internal_field_names_keys in *.
  apply dict_get_None_keys in Hnot.
  rewrite update_not_editable by exact Hnot. reflexivity.
Qed.

(** C4, amended. Delete-by-id: a 204 answer removes the (type name, id)
    entry from the State Store; a 404 answer prints the warning unless the
    client's [suppress_warnings] flag is set, does not raise, and still
    removes the entry; any other status raises and leaves the State Store
    untouched, the error being the deletion-failed one when the response
    body is a JSON object. *)
Theorem delete_by_id_outcomes (cls : PyClass) (ado_client : AdoClient)
    (url resource_id : string) (w : World) :
  let req := mk_request "DELETE" (full_url ado_client url) None in
  let request := answer ado_client w req in
  let run := _delete_by_id cls ado_client url resource_id w in
  (status_code request = 204 ->
   run = (Ok tt, removed cls resource_id w req (stdout w)))
  /\ (status_code request = 404 ->
      run = (Ok tt, removed cls resource_id w req
                      (if suppress_warnings ado_client then stdout w
                       else stdout w ++ [warning_404])))
  /\ (status_code request <> 204 -> status_code request <> 404 ->
      (exists e, run = (Raise e, logged w req))
      /\ state (snd run) = state w
      /\ forall d, json_body request = Some (VDict d) ->
           run = (Raise (DeletionFailed (deletion_message cls resource_id request d)),
                  logged w req)).
Proof.
  intros req request run. unfold run. split; [| split].
  - apply delete_204.
  - apply delete_404.
  - intros H204 H404.
    destruct (delete_other_raises cls ado_client url resource_id w H204 H404) as [e He].
    split; [exists e; exact He |]. split.
    + rewrite He. reflexivity.
    + intros d Hd. apply delete_other_object_body; assumption.
Qed.


(** C7, amended. A 401 or 403 answer raises the permission error on create
    only; on update it raises the update-failed error, as every status other
    than 200 does, and on delete (the body being a JSON object) the
    deletion-failed error, as every status other than 204 and 404 does. *)
Theorem mutating_calls_on_401_403 (cls : PyClass) (ado_client : AdoClient)
    (url update_action attribute_name wire_name resource_id : string)
    (payload : option (list (string * PyVal))) (refetch : bool)
    (attribute_value id : PyVal) (params d : list (string * PyVal))
    (t : PyType) (attrs : list (string * PyVal)) (w : World) :
  let post := mk_request "POST" (full_url ado_client url) (Some (post_body payload)) in
  let change := mk_request update_action (full_url ado_client url)
                  (Some (VDict (PyDict.set wire_name attribute_value params))) in
  let del := mk_request "DELETE" (full_url ado_client url) None in
  let denied request := status_code request = 401 \/ status_code request = 403 in
  plan_mode ado_client = false ->
  (denied (answer ado_client w post) ->
   fst (_create cls ado_client url payload refetch w)
   = Raise (InvalidPermissionsError
              ("You do not have permission to create this " ++ cls_name cls ++ "! "
               ++ text (answer ado_client w post))))
  /\ (denied (answer ado_client w change) ->
      PyDict.get attribute_name (get_internal_field_names t) = Some wire_name ->
      extract_id (VObj t attrs) = Ok id ->
      fst (_update ado_client update_action url attribute_name attribute_value params
             (VObj t attrs, w))
      = Raise (UpdateFailed (update_failed_message t id attribute_name attribute_value
                               (answer ado_client w change))))
  /\ (denied (answer ado_client w del) ->
      json_body (answer ado_client w del) = Some (VDict d) ->
      fst (_delete_by_id cls ado_client url resource_id w)
      = Raise (DeletionFailed (deletion_message cls resource_id
                                 (answer ado_client w del) d))).
Proof.
  intros post change del denied Hplan. split; [| split].
  - intros Hd. unfold post. rewrite create_permission_denied by assumption. reflexivity.
  - intros Hd Hget Hid.
    rewrite (update_not_200 _ _ _ _ _ _ _ _ _ wire_name) by
      (try assumption; destruct Hd as [H|H]; unfold change in H; rewrite H; discriminate).
    cbv beta iota delta [fst]. rewrite Hid. reflexivity.
  - intros Hd Hbody.
    rewrite (delete_other_object_body cls ado_client url resource_id w d);
      try assumption; try reflexivity;
      destruct Hd as [H|H]; unfold del in H; rewrite H; discriminate.
Qed.

(** C10. An update of an editable attribute (plan mode off) whose answer has
    a status other than 200 raises, and leaves the instance and the State
    Store as they were before the call; the error is the update-failed one
    whenever the instance has its identifier. *)
Theorem update_failure_is_atomic (ado_client : AdoClient)
    (update_action url attribute_name wire_name : string) (attribute_value : PyVal)
    (params : list (string * PyVal)) (t : PyType) (attrs : list (string * PyVal))
    (w : World) :
  let self := VObj t attrs in
  let req := mk_request update_action (full_url ado_client url)
               (Some (VDict (PyDict.set wire_name attribute_value params))) in
  let request := answer ado_client w req in
  let run := _update ado_client update_action url attribute_name attribute_value params
               (self, w) in
  PyDict.get attribute_name (get_internal_field_names t) = Some wire_name ->
  plan_mode ado_client = false ->
  status_code request <> 200 ->
  (exists e, fst run = Raise e)
  /\ fst (snd run) = self
  /\ state (snd (snd run)) = state w
  /\ forall id, extract_id self = Ok id ->
       fst run = Raise (UpdateFailed (update_failed_message t id attribute_name
                                        attribute_value request)).
Proof.
  intros self req request run Hget Hplan Hstatus. unfold run, self.
  rewrite (update_not_200 _ _ _ _ _ _ _ _ _ wire_name) by assumption.
  cbv beta iota delta [fst snd]. fold self req request. repeat split.
  - destruct (extract_id self); eexists; reflexivity.
  - intros id Hid. rewrite Hid. reflexivity.
Qed.

(* ===================================================================== *)
(** * More of the codec: what [from_json] rejects, what [to_json] writes *)
(* ===================================================================== *)

(** Untagged items do not change the keyword arguments. *)
Lemma from_json_loop_skips_plain decode (pre rest data_copy : list (string * PyVal)) :
  plain_keys pre ->
  from_json_loop decode (pre ++ rest) data_copy = from_json_loop decode rest data_copy.
Proof.
  induction pre as [|[k v] pre IH]; intros Hp; [reflexivity |].
  apply List.Forall_cons_iff in Hp. destruct Hp as [Hk Hp]. simpl in Hk.
  change (((k, v) :: pre) ++ rest)%list with ((k, v) :: (pre ++ rest))%list.
  rewrite (from_json_loop_plain _ _ _ _ _ Hk). exact (IH Hp).
Qed.

(** X1. A dictionary without [::] in its keys is handed to the class as its
    keyword arguments, unchanged. *)
Theorem from_json_untagged (cls : PyClass) (d : list (string * PyVal)) :
  plain_keys d -> List.NoDup (map fst d) ->
  recursively_convert_from_json (VDict d) = Ok d
  /\ from_json cls (VDict d) = construct cls d.
Proof.
  intros Hp Hnd.
  assert (H : recursively_convert_from_json (VDict d) = Ok d).
  { change (recursively_convert_from_json (VDict d))
      with (from_json_loop recursively_convert_from_json d (PyDict.of_pairs d)).
    rewrite (of_pairs_distinct d Hnd).
    rewrite <- (app_nil_r d) at 1. rewrite (from_json_loop_skips_plain _ _ _ _ Hp).
    reflexivity. }
  split; [exact H |]. unfold from_json. rewrite H. reflexivity.
Qed.

Lemma mapM_raises {A B} (f : A -> Result B) (e : PyExn) (l : list A) :
  Forall (fun x => (exists y, f x = Ok y) \/ f x = Raise e) l ->
  Exists (fun x => f x = Raise e) l ->
  mapM f l = Raise e.
Proof.
  induction l as [|x l IH]; intros Hall Hex; [inversion Hex |].
  apply List.Forall_cons_iff in Hall. destruct Hall as [Hx Hall].
  simpl. destruct Hx as [[y Hy]|Hx].
  - rewrite Hy. inversion Hex as [? ? Hbad|? ? Hlater]; subst; [congruence |].
    rewrite (IH Hall Hlater). reflexivity.
  - rewrite Hx. reflexivity.
Qed.

(** The constructor call refuses a keyword that is no field, and the lack of
    a field that has no default. *)
Lemma construct_type_error (cls : PyClass) (kwargs : list (string * PyVal)) :
  ((exists k, In k (PyDict.keys kwargs)
              /\ ~ In k (map field_name (type_fields (cls_type cls))))
   \/ (exists f, In f (type_fields (cls_type cls))
                 /\ PyDict.get (field_name f) kwargs = None
                 /\ PyDict.get (field_name f) (cls_defaults cls) = None)) ->
  construct cls kwargs = Raise TypeError.
Proof.
  intros H. unfold construct.
  destruct (forallb _ (PyDict.keys kwargs)) eqn:Hkeys; [| reflexivity].
  destruct H as [[k [Hk Hnot]] | [f [Hf [Hget Hdef]]]].
  - exfalso. rewrite forallb_forall in Hkeys. specialize (Hkeys k Hk).
    apply existsb_exists in Hkeys. destruct Hkeys as [f [Hf Heq]].
    apply String.eqb_eq in Heq. apply Hnot. rewrite <- Heq. apply in_map. exact Hf.
  - rewrite (mapM_raises _ TypeError); [reflexivity | |].
    + apply List.Forall_forall. intros g _.
      destruct (PyDict.get (field_name g) kwargs); [left; eexists; reflexivity |].
      destruct (PyDict.get (field_name g) (cls_defaults cls));
        [left; eexists; reflexivity | right; reflexivity].
    + apply List.Exists_exists. exists f. split; [exact Hf |].
      rewrite Hget, Hdef. reflexivity.
Qed.

(** X2. A stored object whose keys are not those of the class is refused by
    [from_json] with [TypeError]: a key that names no field of the class,
    or the lack of a field that has no default. *)
Theorem from_json_rejects_wrong_fields (cls : PyClass) (d : list (string * PyVal)) :
  plain_keys d -> List.NoDup (map fst d) ->
  ((exists k, In k (PyDict.keys d)
              /\ ~ In k (map field_name (type_fields (cls_type cls))))
   \/ (exists f, In f (type_fields (cls_type cls))
                 /\ PyDict.get (field_name f) d = None
                 /\ PyDict.get (field_name f) (cls_defaults cls) = None)) ->
  from_json cls (VDict d) = Raise TypeError.
Proof.
  intros Hp Hnd H. unfold from_json.
  change (recursively_convert_from_json (VDict d))
    with (from_json_loop recursively_convert_from_json d (PyDict.of_pairs d)).
  rewrite (of_pairs_distinct d Hnd).
  rewrite <- (app_nil_r d) at 1. rewrite (from_json_loop_skips_plain _ _ _ _ Hp).
  exact (construct_type_error cls d H).
Qed.


Lemma split_three (a b c : string) :
  PyString.has_char ":" a = false -> PyString.has_char ":" b = false ->
  PyString.has_char ":" c = false ->
  PyString.split "::" (a ++ "::" ++ b ++ "::" ++ c) = [a; b; c].
Proof.
  intros Ha Hb Hc. unfold PyString.split.
  rewrite (split_go_tagged _ _ _ Ha), (split_go_tagged _ _ _ Hb), (split_go_plain _ _ Hc).
  reflexivity.
Qed.

(** X4. When the items before it are untagged, a key with two [::] whose
    last part is not [datetime] cannot be unpacked into instance name and
    class name: the decoding stops with [ValueError], whatever follows the
    key. *)
Theorem from_json_two_tags (cls : PyClass) (pre post : list (string * PyVal))
    (a b c : string) (value : PyVal) :
  plain_keys pre ->
  PyString.has_char ":" a = false -> PyString.has_char ":" b = false ->
  PyString.has_char ":" c = false -> c <> "datetime" ->
  from_json cls (VDict (pre ++ (a ++ "::" ++ b ++ "::" ++ c, value) :: post))
  = Raise (ValueError "too many values to unpack (expected 2)").
Proof.
  intros Hp Ha Hb Hc Hne. unfold from_json.
  change (recursively_convert_from_json
            (VDict (pre ++ (a ++ "::" ++ b ++ "::" ++ c, value) :: post)))
    with (from_json_loop recursively_convert_from_json
            (pre ++ (a ++ "::" ++ b ++ "::" ++ c, value) :: post)
            (PyDict.of_pairs (pre ++ (a ++ "::" ++ b ++ "::" ++ c, value) :: post))).
  rewrite (from_json_loop_skips_plain _ _ _ _ Hp), from_json_loop_step.
  rewrite (split_three a b c Ha Hb Hc), (contains_tagged a (b ++ "::" ++ c)).
  simpl List.last. apply String.eqb_neq in Hne. rewrite Hne. reflexivity.
Qed.

Lemma get_fold_set (l acc : list (string * PyVal)) (k : string) :
  In k (map fst l) \/ PyDict.get k acc <> None ->
  PyDict.get k (fold_left (fun d kv => PyDict.set (fst kv) (snd kv) d) l acc) <> None.
Proof.
  revert acc. induction l as [|[k0 v0] l IH]; intros acc H; simpl.
  - destruct H as [[] | H]. exact H.
  - apply IH. simpl in H. destruct H as [[-> | H] | H].
    + right. rewrite get_set, String.eqb_refl. discriminate.
    + left. exact H.
    + right. rewrite get_set. destruct (String.eqb k0 k); [discriminate | exact H].
Qed.

Lemma of_pairs_mem (l : list (string * PyVal)) (k : string) :
  In k (map fst l) -> PyDict.mem k (PyDict.of_pairs l) = true.
Proof.
  intros H. apply mem_get. apply get_fold_set. left. exact H.
Qed.

(** X5. When the items before it are untagged, a key tagged [::datetime]
    whose value is not a string stops the decoding with [TypeError],
    whatever follows the key. *)
Theorem from_json_timestamp_needs_text (cls : PyClass) (pre post : list (string * PyVal))
    (n : string) (value : PyVal) :
  plain_keys pre ->
  PyString.has_char ":" n = false ->
  (forall s, value <> VStr s) ->
  from_json cls (VDict (pre ++ (n ++ "::datetime", value) :: post)) = Raise TypeError.
Proof.
  intros Hp Hn Hns. unfold from_json.
  change (recursively_convert_from_json
            (VDict (pre ++ (n ++ "::datetime", value) :: post)))
    with (from_json_loop recursively_convert_from_json
            (pre ++ (n ++ "::datetime", value) :: post)
            (PyDict.of_pairs (pre ++ (n ++ "::datetime", value) :: post))).
  rewrite (from_json_loop_skips_plain _ _ _ _ Hp).
  rewrite (from_json_loop_datetime _ _ _ _ _ Hn).
  unfold dict_delitem. rewrite of_pairs_mem;
    [| rewrite map_app; apply in_or_app; right; left; reflexivity].
  destruct value; try reflexivity. exfalso. exact (Hns _ eq_refl).
Qed.

(* ===================================================================== *)
(** * The read operations *)
(* ===================================================================== *)

Lemma full_url_https (ado_client : AdoClient) (url : string) :
  PyString.startswith (full_url ado_client url) "https://" = true.
Proof.
  unfold full_url. destruct (PyString.startswith url "https://") eqn:H; [exact H |].
  unfold PyString.startswith.
  change ("https://dev.azure.com/" ++ ado_org ado_client ++ url)
    with ("https://" ++ ("dev.azure.com/" ++ ado_org ado_client ++ url)).
  apply prefix_append.
Qed.

Lemma lift_world {A} (r : Result A) (w : World) : snd (lift r w) = w.
Proof. destruct r; reflexivity. Qed.

Lemma bind_lift_world {A B} (r : Result A) (k : A -> Eff World B) (w w' : World) :
  (forall a, snd (k a w) = w') -> w = w' -> snd (bind (lift r) k w) = w'.
Proof. intros Hk Hw. destruct r as [a|e]; simpl; [apply Hk | exact Hw]. Qed.

Lemma get_by_url_world (cls : PyClass) (ado_client : AdoClient) (url : string) (w : World) :
  snd (_get_by_url cls ado_client url w)
  = logged w (mk_request "GET" (full_url ado_client url) None).
Proof.
  unfold _get_by_url. rewrite bind_http.
  destruct (status_code _ =? 404); [reflexivity |].
  destruct (status_code _ >=? 300); [reflexivity |].
  apply bind_lift_world; [| reflexivity]. intros body.
  apply bind_lift_world; [| reflexivity]. intros [|].
  - apply bind_lift_world; [| reflexivity]. intros value.
    apply bind_lift_world; [| reflexivity]. intros first. apply lift_world.
  - apply lift_world.
Qed.

Lemma get_all_world (cls : PyClass) (ado_client : AdoClient) (url : string) (w : World) :
  snd (_get_all cls ado_client url w)
  = logged w (mk_request "GET" (full_url ado_client url) None).
Proof.
  unfold _get_all. rewrite bind_http.
  destruct (status_code _ >=? 300); [reflexivity |].
  apply bind_lift_world; [| reflexivity]. intros body.
  apply bind_lift_world; [| reflexivity]. intros value.
  apply bind_lift_world; [| reflexivity]. intros resources. apply lift_world.
Qed.

(** X6. Whatever the service answers and whether or not the call succeeds,
    fetch-one and fetch-all send exactly one request, a GET without body to
    an [https://] address, and touch neither the State Store, nor the plan,
    nor the standard output. *)
Theorem read_operations_only_read (cls : PyClass) (ado_client : AdoClient)
    (url : string) (w : World) :
  let req := mk_request "GET" (full_url ado_client url) None in
  PyString.startswith (req_url req) "https://" = true
  /\ snd (_get_by_url cls ado_client url w)
     = mk_world (http_log w ++ [req]) (state w) (plan w) (stdout w)
  /\ snd (_get_all cls ado_client url w)
     = mk_world (http_log w ++ [req]) (state w) (plan w) (stdout w).
Proof.
  intros req. split; [apply full_url_https |].
  split; [apply get_by_url_world | apply get_all_world].
Qed.

(** X7. The payload a successful fetch-one decodes: the first element of the
    list under ["value"] when the body is an object with that key, and the
    whole body when it is an object without it. *)
Theorem get_by_url_payload (cls : PyClass) (ado_client : AdoClient) (url : string)
    (w : World) (body : list (string * PyVal)) :
  let req := mk_request "GET" (full_url ado_client url) None in
  let request := answer ado_client w req in
  status_code request < 300 ->
  json_body request = Some (VDict body) ->
  (PyDict.get "value" body = None ->
   _get_by_url cls ado_client url w
   = (from_request_payload cls (VDict body), logged w req))
  /\ (forall first rest, PyDict.get "value" body = Some (VList (first :: rest)) ->
      _get_by_url cls ado_client url w
      = (from_request_payload cls first, logged w req)).
Proof.
  intros req request Hstatus Hbody.
  assert (H404 : (status_code request =? 404) = false) by (apply Z.eqb_neq; lia).
  split.
  - intros Hget. unfold _get_by_url. rewrite bind_http. fold req request.
    rewrite H404, (geb_300_false _ Hstatus). unfold json. rewrite Hbody.
    rewrite (bind_lift_ok _ (VDict body)) by reflexivity.
    rewrite (bind_lift_ok _ false)
      by (unfold py_contains, PyDict.mem; rewrite Hget; reflexivity).
    unfold lift. destruct (from_request_payload cls (VDict body)); reflexivity.
  - intros first rest Hget. unfold _get_by_url. rewrite bind_http. fold req request.
    rewrite H404, (geb_300_false _ Hstatus). unfold json. rewrite Hbody.
    rewrite (bind_lift_ok _ (VDict body)) by reflexivity.
    rewrite (bind_lift_ok _ true)
      by (unfold py_contains, PyDict.mem; rewrite Hget; reflexivity).
    rewrite (bind_lift_ok _ (VList (first :: rest)))
      by (unfold py_getitem, dict_getitem; rewrite Hget; reflexivity).
    rewrite (bind_lift_ok _ first) by reflexivity.
    unfold lift. destruct (from_request_payload cls first); reflexivity.
Qed.

(** X8. Fetch-all has no not-found case: every status of 300 or more, 404
    included, raises [ValueError] with the response text; and a successful
    answer whose object has no ["value"] raises [KeyError]. *)
Theorem get_all_failures (cls : PyClass) (ado_client : AdoClient) (url : string)
    (w : World) :
  let req := mk_request "GET" (full_url ado_client url) None in
  let request := answer ado_client w req in
  (300 <= status_code request ->
   _get_all cls ado_client url w
   = (Raise (ValueError ("Error getting all " ++ cls_name cls ++ ": " ++ text request)),
      logged w req))
  /\ (forall body, status_code request < 300 ->
      json_body request = Some (VDict body) ->
      PyDict.get "value" body = None ->
      _get_all cls ado_client url w = (Raise (KeyError "value"), logged w req)).
Proof.
  intros req request. split.
  - intros Hge. unfold _get_all. rewrite bind_http. fold req request.
    rewrite (geb_300_true _ Hge). reflexivity.
  - intros body Hlt Hbody Hget. unfold _get_all. rewrite bind_http. fold req request.
    rewrite (geb_300_false _ Hlt). unfold json. rewrite Hbody.
    rewrite (bind_lift_ok _ (VDict body)) by reflexivity.
    rewrite (bind_lift_raise _ (KeyError "value"))
      by (unfold py_getitem, dict_getitem; rewrite Hget; reflexivity).
    reflexivity.
Qed.

Lemma mapM_length {A B} (f : A -> Result B) (l : list A) (l' : list B) :
  mapM f l = Ok l' -> Forall2 (fun x y => f x = Ok y) l l'.
Proof.
  revert l'. induction l as [|x l IH]; intros l' H; simpl in H.
  - injection H as <-. constructor.
  - destruct (f x) as [y|e] eqn:Hx; [| discriminate].
    destruct (mapM f l) as [ys|e] eqn:Hl; [| discriminate].
    injection H as <-. constructor; [exact Hx | exact (IH ys eq_refl)].
Qed.

Lemma mapM_first_failure {A B} (f : A -> Result B) (pre : list A) (x : A)
    (post : list A) (e : PyExn) :
  Forall (fun y => exists z, f y = Ok z) pre -> f x = Raise e ->
  mapM f (pre ++ x :: post) = Raise e.
Proof.
  intros Hpre Hx. induction Hpre as [|y pre [z Hy] _ IH]; simpl.
  - rewrite Hx. reflexivity.
  - rewrite Hy. simpl in IH. rewrite IH. reflexivity.
Qed.

(** X9. A successful fetch-all decodes the elements of the list under ["value"]
    one by one and in order: the result has one resource per element, and
    the first element that does not decode ends the call with its error. *)
Theorem get_all_decodes_each (cls : PyClass) (ado_client : AdoClient) (url : string)
    (w : World) (body : list (string * PyVal)) (items : list PyVal) :
  let req := mk_request "GET" (full_url ado_client url) None in
  let request := answer ado_client w req in
  status_code request < 300 ->
  json_body request = Some (VDict body) ->
  PyDict.get "value" body = Some (VList items) ->
  (forall resources, mapM (from_request_payload cls) items = Ok resources ->
     _get_all cls ado_client url w = (Ok resources, logged w req)
     /\ Forall2 (fun item resource => from_request_payload cls item = Ok resource)
                items resources)
  /\ (forall pre item post e, items = (pre ++ item :: post)%list ->
        Forall (fun y => exists z, from_request_payload cls y = Ok z) pre ->
        from_request_payload cls item = Raise e ->
        _get_all cls ado_client url w = (Raise e, logged w req)).
Proof.
  intros req request Hlt Hbody Hget.
  assert (Hrun : _get_all cls ado_client url w
                 = (mapM (from_request_payload cls) items, logged w req)).
  { unfold _get_all. rewrite bind_http. fold req request.
    rewrite (geb_300_false _ Hlt). unfold json. rewrite Hbody.
    rewrite (bind_lift_ok _ (VDict body)) by reflexivity.
    rewrite (bind_lift_ok _ (VList items))
      by (unfold py_getitem, dict_getitem; rewrite Hget; reflexivity).
    rewrite (bind_lift_ok _ items) by reflexivity.
    unfold lift. destruct (mapM _ items); reflexivity. }
  split.
  - intros resources Hok. rewrite Hrun, Hok. split; [reflexivity |].
    apply mapM_length. exact Hok.
  - intros pre item post e -> Hpre Hitem. rewrite Hrun.
    rewrite (mapM_first_failure _ pre item post e Hpre Hitem). reflexivity.
Qed.

(** X10. The filter returns the first resource of the listing that [func]
    accepts, and [None], not an error, when it accepts none; resources after
    the first match are not looked at. *)
Theorem get_by_abstract_filter_first_or_none
    (get_all : AdoClient -> Eff World (list PyVal)) (ado_client : AdoClient)
    (func : PyVal -> Result bool) (p : PyVal -> bool)
    (w w' : World) (pre post : list PyVal) :
  Forall (fun resource => func resource = Ok (p resource)) pre ->
  Forall (fun resource => p resource = false) pre ->
  (get_all ado_client w = (Ok pre, w') ->
   _get_by_abstract_filter get_all ado_client func w = (Ok VNone, w'))
  /\ (forall resource, func resource = Ok true ->
      get_all ado_client w = (Ok (pre ++ resource :: post)%list, w') ->
      _get_by_abstract_filter get_all ado_client func w = (Ok resource, w')).
Proof.
  intros Hfunc Hnone.
  assert (Hpre : forall rest, first_match func (pre ++ rest) = first_match func rest).
  { intros rest. induction pre as [|r pre IH]; [reflexivity |].
    apply List.Forall_cons_iff in Hfunc. destruct Hfunc as [Hr Hfunc].
    apply List.Forall_cons_iff in Hnone. destruct Hnone as [Hn Hnone].
    simpl. rewrite Hr, Hn. exact (IH Hfunc Hnone). }
  split.
  - intros Hall. unfold _get_by_abstract_filter, bind. rewrite Hall.
    rewrite <- (app_nil_r pre), Hpre. reflexivity.
  - intros resource Hres Hall. unfold _get_by_abstract_filter, bind. rewrite Hall.
    rewrite Hpre. simpl. rewrite Hres. reflexivity.
Qed.

(* ===================================================================== *)
(** * [resources/repo.py] *)
(* ===================================================================== *)

Lemma removeprefix_append (p s : string) : PyString.removeprefix (p ++ s) p = s.
Proof.
  unfold PyString.removeprefix, PyString.startswith.
  rewrite prefix_append, length_append.
  replace (String.length p + String.length s - String.length p)%nat
    with (String.length s) by lia.
  apply substring_append_r.
Qed.

(** X11. What [Repo.from_request_payload] makes of a JSON object: ["id"] and
    ["name"] are required, the branch loses one leading [refs/heads/] and is
    [main] when absent, and [is_disabled] is always a boolean. *)
Theorem Repo_from_request_payload_cases (data : list (string * PyVal)) :
  let disabled := VBool (py_bool (default (VBool false) (PyDict.get "isDisabled" data))) in
  (PyDict.get "id" data = None ->
   Repo.from_request_payload (VDict data) = Raise (KeyError "id"))
  /\ (forall id, PyDict.get "id" data = Some id -> PyDict.get "name" data = None ->
      Repo.from_request_payload (VDict data) = Raise (KeyError "name"))
  /\ (forall id name, PyDict.get "id" data = Some id -> PyDict.get "name" data = Some name ->
      (PyDict.get "defaultBranch" data = None ->
       Repo.from_request_payload (VDict data) = Ok (Repo.new id name (VStr "main") disabled))
      /\ (forall branch,
            PyDict.get "defaultBranch" data = Some (VStr ("refs/heads/" ++ branch)) ->
            Repo.from_request_payload (VDict data)
            = Ok (Repo.new id name (VStr branch) disabled))
      /\ (forall branch,
            PyDict.get "defaultBranch" data = Some (VStr branch) ->
            PyString.startswith branch "refs/heads/" = false ->
            Repo.from_request_payload (VDict data)
            = Ok (Repo.new id name (VStr branch) disabled))).
Proof.
  intros disabled. unfold Repo.from_request_payload, dict_getitem. split; [| split].
  - intros ->. reflexivity.
  - intros id -> ->. reflexivity.
  - intros id name -> ->. split; [| split].
    + intros ->. reflexivity.
    + intros branch ->.
      change (default (VStr "main") (Some (VStr ("refs/heads/" ++ branch))))
        with (VStr ("refs/heads/" ++ branch)).
      cbv beta iota. rewrite removeprefix_append. reflexivity.
    + intros branch -> Hno.
      change (default (VStr "main") (Some (VStr branch))) with (VStr branch).
      cbv beta iota. unfold PyString.removeprefix. rewrite Hno. reflexivity.
Qed.

Lemma Repo_payload_shape (data repo : PyVal) :
  Repo.from_request_payload data = Ok repo ->
  exists id name default_branch is_disabled,
    repo = Repo.new id name default_branch is_disabled.
Proof.
  unfold Repo.from_request_payload. destruct data as [| | | | | | data |]; try discriminate.
  destruct (dict_getitem "id" data) as [id|]; [| discriminate].
  destruct (dict_getitem "name" data) as [name|]; [| discriminate].
  destruct (default (VStr "main") (PyDict.get "defaultBranch" data));
    try discriminate.
  intros H. injection H as <-. eauto.
Qed.

Lemma first_match_skips (func : PyVal -> Result bool) (pre rest : list PyVal) :
  Forall (fun resource => func resource = Ok false) pre ->
  first_match func (pre ++ rest) = first_match func rest.
Proof.
  induction 1 as [|r pre Hr _ IH]; [reflexivity |]. simpl. rewrite Hr. exact IH.
Qed.

Lemma get_all_run (cls : PyClass) (ado_client : AdoClient) (url : string) (w : World)
    (body : list (string * PyVal)) (items : list PyVal) :
  let req := mk_request "GET" (full_url ado_client url) None in
  let request := answer ado_client w req in
  status_code request < 300 ->
  json_body request = Some (VDict body) ->
  PyDict.get "value" body = Some (VList items) ->
  _get_all cls ado_client url w = (mapM (from_request_payload cls) items, logged w req).
Proof.
  intros req request Hlt Hbody Hget.
  unfold _get_all. rewrite bind_http. fold req request.
  rewrite (geb_300_false _ Hlt). unfold json. rewrite Hbody.
  rewrite (bind_lift_ok _ (VDict body)) by reflexivity.
  rewrite (bind_lift_ok _ (VList items))
    by (unfold py_getitem, dict_getitem; rewrite Hget; reflexivity).
  rewrite (bind_lift_ok _ items) by reflexivity.
  unfold lift. destruct (mapM _ items); reflexivity.
Qed.

(** X12. [Repo.get_by_name] lists the repositories of the project with one GET
    and returns the first one whose name is [repo_name], or [None] when the
    listing has none; comparing the names never fails on what the listing
    decodes to. *)
Theorem Repo_get_by_name_first_or_none (ado_client : AdoClient) (repo_name : string)
    (w : World) (body : list (string * PyVal)) (items repos : list PyVal) :
  let req := mk_request "GET"
               ("https://dev.azure.com/" ++ ado_org ado_client ++ "/"
                ++ ado_project ado_client ++ "/_apis/git/repositories?api-version=7.1")
               None in
  let request := answer ado_client w req in
  status_code request < 300 ->
  json_body request = Some (VDict body) ->
  PyDict.get "value" body = Some (VList items) ->
  mapM Repo.from_request_payload items = Ok repos ->
  Forall (fun repo => exists found, has_name repo_name repo = Ok found) repos
  /\ (Forall (fun repo => has_name repo_name repo = Ok false) repos ->
      Repo_get_by_name ado_client repo_name w = (Ok VNone, logged w req))
  /\ (forall pre repo post, repos = (pre ++ repo :: post)%list ->
      Forall (fun repo => has_name repo_name repo = Ok false) pre ->
      has_name repo_name repo = Ok true ->
      Repo_get_by_name ado_client repo_name w = (Ok repo, logged w req)).
Proof.
  intros req request Hlt Hbody Hget Hrepos.
  assert (Hrun : Repo_get_all ado_client w = (Ok repos, logged w req)).
  { unfold Repo_get_all.
    rewrite (get_all_run Repo.class ado_client _ w body items); [| exact Hlt | exact Hbody | exact Hget].
    change (from_request_payload Repo.class) with Repo.from_request_payload.
    rewrite Hrepos. reflexivity. }
  split; [| split].
  - clear Hrun Hget. apply mapM_length in Hrepos.
    induction Hrepos as [|item repo items' repos' Hitem _ IH]; [constructor |].
    constructor; [| exact IH].
    apply Repo_payload_shape in Hitem. destruct Hitem as (id & name & b & dis & ->).
    eexists. reflexivity.
  - intros Hnone. unfold Repo_get_by_name, _get_by_abstract_filter, bind. rewrite Hrun.
    rewrite <- (app_nil_r repos), (first_match_skips _ _ _ Hnone). reflexivity.
  - intros pre repo post -> Hpre Hrepo.
    unfold Repo_get_by_name, _get_by_abstract_filter, bind. rewrite Hrun.
    rewrite (first_match_skips _ _ _ Hpre). simpl. rewrite Hrepo. reflexivity.
Qed.

(** X13. A [BuildRepository] survives its own codec unchanged, whatever its five
    attributes hold; and reading a stored object needs its ["id"] only, the
    other four attributes falling back to [None], ["TfsGit"], [None] and
    [False]. *)
Theorem BuildRepository_roundtrip
    (build_repository_id name type_ clean checkout_submodules : PyVal) :
  let self := BuildRepository.new build_repository_id name type_ clean checkout_submodules in
  (exists data, BuildRepository.to_json self = Ok data
                /\ BuildRepository.from_json data = Ok self)
  /\ BuildRepository.from_json (VDict [("id", build_repository_id)])
     = Ok (BuildRepository.new build_repository_id VNone (VStr "TfsGit") VNone (VBool false))
  /\ (forall data, PyDict.get "id" data = None ->
        BuildRepository.from_json (VDict data) = Raise (KeyError "id")).
Proof.
  intros self. split; [| split].
  - eexists. split; reflexivity.
  - reflexivity.
  - intros data H. unfold BuildRepository.from_json, dict_getitem. rewrite H. reflexivity.
Qed.

(* ===================================================================== *)
(** * More of the engine: [_create], [_update], [_delete_by_id] *)
(* ===================================================================== *)

(** X14. A create that the service refuses: 409 raises the already-exists error,
    and every other status of 300 or more that is neither 401 nor 403 raises
    [ValueError] with the status and the response text.  Nothing but the
    request is left behind. *)
Theorem create_conflict_and_other_errors (cls : PyClass) (ado_client : AdoClient)
    (url : string) (payload : option (list (string * PyVal))) (refetch : bool)
    (w : World) :
  let req := mk_request "POST" (full_url ado_client url) (Some (post_body payload)) in
  let request := answer ado_client w req in
  plan_mode ado_client = false ->
  (status_code request = 409 ->
   _create cls ado_client url payload refetch w
   = (Raise (ResourceAlreadyExists
               ("The " ++ cls_name cls ++ " with that identifier already exist!")),
      logged w req))
  /\ (300 <= status_code request ->
      status_code request <> 401 -> status_code request <> 403 ->
      status_code request <> 409 ->
      _create cls ado_client url payload refetch w
      = (Raise (ValueError ("Error creating " ++ cls_name cls ++ ": "
                            ++ PyString.of_Z (status_code request) ++ " - "
                            ++ text request)),
         logged w req)).
Proof.
  intros req request Hplan. split.
  - intros H. unfold _create. rewrite Hplan. fold (post_body payload).
    rewrite bind_http. fold req request. rewrite H. reflexivity.
  - intros Hge H401 H403 H409. unfold _create. rewrite Hplan. fold (post_body payload).
    rewrite bind_http. fold req request. rewrite (geb_300_true _ Hge).
    apply Z.eqb_neq in H401, H403, H409. rewrite H401, H403, H409. reflexivity.
Qed.

Lemma create_run_cases (cls : PyClass) (ado_client : AdoClient)
    (url : string) (payload : option (list (string * PyVal))) (refetch : bool)
    (w : World) (run : Result PyVal * World) :
  let req := mk_request "POST" (full_url ado_client url) (Some (post_body payload)) in
  plan_mode ado_client = false ->
  refetch = false \/ _get_by_id cls = base_get_by_id ->
  run = _create cls ado_client url payload refetch w ->
  http_log (snd run) = (http_log w ++ [req])%list
  /\ plan (snd run) = plan w
  /\ stdout (snd run) = stdout w
  /\ (state (snd run) = state w \/ exists resource, fst run = Ok resource).
Proof.
  intros req Hplan Hre Hrun. unfold _create in Hrun. rewrite Hplan in Hrun.
  fold (post_body payload) in Hrun. rewrite bind_http in Hrun. fold req in Hrun.
  assert (Hfail : forall e, run = (Raise e, logged w req) ->
            http_log (snd run) = (http_log w ++ [req])%list
            /\ plan (snd run) = plan w /\ stdout (snd run) = stdout w
            /\ (state (snd run) = state w \/ exists resource, fst run = Ok resource)).
  { intros e ->. repeat split. left. reflexivity. }
  destruct (status_code _ >=? 300).
  { destruct (_ || _); [exact (Hfail _ Hrun) |].
    destruct (_ =? 409); exact (Hfail _ Hrun). }
  unfold json in Hrun. destruct (json_body _) as [body|]; [| exact (Hfail _ Hrun)].
  rewrite (bind_lift_ok _ body) in Hrun by reflexivity.
  destruct (from_request_payload cls body) as [resource|e0] eqn:Hdecode;
    [| exact (Hfail _ Hrun)].
  rewrite (bind_lift_ok _ resource) in Hrun by reflexivity.
  assert (Hplain :
            run = bind (ret resource)
                    (fun resource =>
                       id <- lift (extract_id resource) ;;
                       data <- lift (to_json resource) ;;
                       StateManager.add_resource_to_state (cls_name cls) id data ;;;
                       ret resource) (logged w req) ->
            http_log (snd run) = (http_log w ++ [req])%list
            /\ plan (snd run) = plan w /\ stdout (snd run) = stdout w
            /\ (state (snd run) = state w \/ exists resource, fst run = Ok resource)).
  { intros Hrun'. unfold bind at 1 in Hrun'. unfold ret at 1 in Hrun'.
    destruct (extract_id resource) as [id|e1] eqn:Hid; [| exact (Hfail _ Hrun')].
    rewrite (bind_lift_ok _ id) in Hrun' by reflexivity.
    destruct (to_json resource) as [data|e2] eqn:Hjson; [| exact (Hfail _ Hrun')].
    rewrite (bind_lift_ok _ data) in Hrun' by reflexivity.
    unfold StateManager.add_resource_to_state in Hrun'.
    destruct (StateManager.key id) as [k|e3]; [| exact (Hfail _ Hrun')].
    rewrite Hrun'. repeat split. right. eexists. reflexivity. }
  destruct Hre as [-> | Hbase]; [exact (Hplain Hrun) |].
  destruct refetch; [| exact (Hplain Hrun)].
  rewrite Hbase in Hrun. unfold bind at 1 in Hrun.
  destruct (extract_id resource) as [id|e1] eqn:Hid; exact (Hfail _ Hrun).
Qed.

Lemma delete_log (cls : PyClass) (ado_client : AdoClient) (url resource_id : string)
    (w : World) :
  http_log (snd (_delete_by_id cls ado_client url resource_id w))
  = (http_log w ++ [mk_request "DELETE" (full_url ado_client url) None])%list
  /\ plan (snd (_delete_by_id cls ado_client url resource_id w)) = plan w.
Proof.
  set (req := mk_request "DELETE" (full_url ado_client url) None).
  destruct (Z.eq_dec (status_code (answer ado_client w req)) 204) as [H204|Hne].
  { rewrite (delete_204 cls ado_client url resource_id w H204). split; reflexivity. }
  destruct (Z.eq_dec (status_code (answer ado_client w req)) 404) as [H404|Hne'].
  { rewrite (delete_404 cls ado_client url resource_id w H404). split; reflexivity. }
  apply Z.eqb_neq in Hne, Hne'.
  remember (_delete_by_id cls ado_client url resource_id w) as run eqn:Hrun.
  unfold _delete_by_id in Hrun. rewrite bind_http in Hrun. fold req in Hrun.
  unfold bind at 1 in Hrun. rewrite Hne, Hne' in Hrun. cbn [negb] in Hrun.
  unfold json in Hrun. destruct (json_body _) as [body|]; [| subst run; split; reflexivity].
  rewrite (bind_lift_ok _ body) in Hrun by reflexivity.
  destruct (py_contains "message" body) as [[|]|e] eqn:Hc.
  - rewrite (bind_lift_ok _ true) in Hrun by reflexivity.
    destruct (py_getitem "message" body) as [message|e] eqn:Hm.
    + rewrite (bind_lift_ok _ message) in Hrun by reflexivity.
      subst run. split; reflexivity.
    + rewrite (bind_lift_raise _ e) in Hrun by reflexivity.
      subst run. split; reflexivity.
  - rewrite (bind_lift_ok _ false) in Hrun by reflexivity. subst run. split; reflexivity.
  - rewrite (bind_lift_raise _ e) in Hrun by reflexivity. subst run. split; reflexivity.
Qed.

(** X15. A create that raises, for whatever reason (the status, a body that is
    not JSON, a payload the class cannot decode, a resource without
    identifier, a refetch the class does not implement), has sent its one
    POST and has written nothing to the State Store, the plan or the
    standard output. *)
Theorem create_failure_records_nothing (cls : PyClass) (ado_client : AdoClient)
    (url : string) (payload : option (list (string * PyVal))) (refetch : bool)
    (w : World) (e : PyExn) :
  let req := mk_request "POST" (full_url ado_client url) (Some (post_body payload)) in
  plan_mode ado_client = false ->
  refetch = false \/ _get_by_id cls = base_get_by_id ->
  fst (_create cls ado_client url payload refetch w) = Raise e ->
  snd (_create cls ado_client url payload refetch w)
  = mk_world (http_log w ++ [req]) (state w) (plan w) (stdout w).
Proof.
  intros req Hplan Hre Hraise.
  destruct (create_run_cases cls ado_client url payload refetch w _ Hplan Hre eq_refl)
    as (Hlog & Hp & Hout & [Hstate | [resource Hok]]); [| congruence].
  destruct (snd (_create cls ado_client url payload refetch w)) as [l s p o].
  simpl in Hlog, Hp, Hout, Hstate. subst. reflexivity.
Qed.

(** X16. A create with refetch on a class that keeps the base [_get_by_id]: the
    POST is sent and answered, and then the call raises
    [NotImplementedError]; the created resource is not recorded. *)
Theorem create_refetch_not_implemented (cls : PyClass) (ado_client : AdoClient)
    (url : string) (payload : option (list (string * PyVal))) (w : World)
    (body resource id : PyVal) :
  let req := mk_request "POST" (full_url ado_client url) (Some (post_body payload)) in
  let request := answer ado_client w req in
  plan_mode ado_client = false ->
  _get_by_id cls = base_get_by_id ->
  status_code request < 300 ->
  json_body request = Some body ->
  from_request_payload cls body = Ok resource ->
  extract_id resource = Ok id ->
  _create cls ado_client url payload true w = (Raise NotImplementedError, logged w req).
Proof.
  intros req request Hplan Hbase Hstatus Hbody Hdecode Hid.
  unfold _create. rewrite Hplan. fold (post_body payload).
  rewrite bind_http. fold req request.
  rewrite (geb_300_false _ Hstatus). unfold json. rewrite Hbody.
  rewrite (bind_lift_ok _ body) by reflexivity.
  rewrite (bind_lift_ok _ resource) by exact Hdecode.
  rewrite Hbase. unfold bind at 1.
  rewrite (bind_lift_ok _ id) by exact Hid. reflexivity.
Qed.

Lemma update_log (ado_client : AdoClient) (update_action url attribute_name : string)
    (attribute_value : PyVal) (params : list (string * PyVal))
    (t : PyType) (attrs : list (string * PyVal)) (w : World) (wire_name : string) :
  let req := mk_request update_action (full_url ado_client url)
               (Some (VDict (PyDict.set wire_name attribute_value params))) in
  let run := _update ado_client update_action url attribute_name attribute_value params
               (VObj t attrs, w) in
  PyDict.get attribute_name (get_internal_field_names t) = Some wire_name ->
  plan_mode ado_client = false ->
  http_log (snd (snd run)) = (http_log w ++ [req])%list
  /\ plan (snd (snd run)) = plan w /\ stdout (snd (snd run)) = stdout w.
Proof.
  intros req run H Hplan.
  destruct (Z.eq_dec (status_code (answer ado_client w req)) 200) as [H200|Hne].
  - assert (Hrun : run = _update ado_client update_action url attribute_name attribute_value
                           params (VObj t attrs, w)) by reflexivity.
    clearbody run.
    unfold _update, bind, get_self, on_world, setattr in Hrun. cbn [fst snd] in Hrun.
    rewrite H, Hplan in Hrun.
    simpl (snd _) in Hrun. simpl (fst _) in Hrun. rewrite http_run in Hrun. fold req in Hrun.
    rewrite H200 in Hrun.
    cbv beta iota zeta delta [negb fst snd lift Z.eqb Pos.eqb] in Hrun.
    destruct (extract_id _) as [id|e]; [| subst run; repeat split; reflexivity].
    destruct (to_json _) as [data|e]; [| subst run; repeat split; reflexivity].
    unfold StateManager.update_resource_in_state, bind, lift in Hrun.
    destruct (StateManager.key id); subst run; repeat split; reflexivity.
  - unfold run.
    rewrite (update_not_200 ado_client update_action url attribute_name attribute_value
               params t attrs w wire_name H Hplan Hne).
    repeat split; reflexivity.
Qed.

(** X17. A successful update (the answer is 200): the request carries the new
    value under the attribute's wire name, the instance has the attribute
    set, the entry of the instance in the State Store is its new serialized
    form, and every other entry is as before. *)
Theorem update_success_refreshes_state (ado_client : AdoClient)
    (update_action url attribute_name : string) (attribute_value : PyVal)
    (params : list (string * PyVal)) (t : PyType) (attrs : list (string * PyVal))
    (w : World) (wire_name id : string) (data : PyVal) :
  let self' := VObj t (PyDict.set attribute_name attribute_value attrs) in
  let req := mk_request update_action (full_url ado_client url)
               (Some (VDict (PyDict.set wire_name attribute_value params))) in
  let run := _update ado_client update_action url attribute_name attribute_value params
               (VObj t attrs, w) in
  PyDict.get attribute_name (get_internal_field_names t) = Some wire_name ->
  plan_mode ado_client = false ->
  status_code (answer ado_client w req) = 200 ->
  extract_id self' = Ok (VStr id) ->
  to_json self' = Ok data ->
  fst run = Ok tt
  /\ fst (snd run) = self'
  /\ getattr (PyDict.set attribute_name attribute_value attrs) attribute_name
     = Ok attribute_value
  /\ http_log (snd (snd run)) = (http_log w ++ [req])%list
  /\ PyDict.get wire_name (PyDict.set wire_name attribute_value params)
     = Some attribute_value
  /\ state (snd (snd run)) !! (type_name t, id) = Some data
  /\ forall other, other <> (type_name t, id) ->
       state (snd (snd run)) !! other = state w !! other.
Proof.
  intros self' req run H Hplan Hstatus Hid Hjson. unfold run.
  rewrite (update_200 ado_client update_action url attribute_name attribute_value params
             t attrs w wire_name id data H Hplan Hstatus Hid Hjson).
  cbn [fst snd state http_log].
  split; [reflexivity |]. split; [reflexivity |].
  split; [unfold getattr; rewrite get_set, String.eqb_refl; reflexivity |].
  split; [reflexivity |].
  split; [rewrite get_set, String.eqb_refl; reflexivity |].
  split; [apply lookup_insert_eq |].
  intros other Hne. apply lookup_insert_ne. congruence.
Qed.

Lemma full_url_path (ado_client : AdoClient) (path : string) :
  full_url ado_client ("/" ++ path) = "https://dev.azure.com/" ++ ado_org ado_client ++ "/" ++ path.
Proof. reflexivity. Qed.

(** X18. [Repo.update] sends a [patch] to the repository's own address; its body
    is one pair, the new value under the wire name of the attribute:
    [name], [defaultBranch] or [isDisabled].  This holds whatever the
    service answers. *)
Theorem Repo_update_sends_wire_name (ado_client : AdoClient)
    (attribute_name wire_name repo_id : string)
    (attribute_value name default_branch is_disabled : PyVal) (w : World) :
  let self := Repo.new (VStr repo_id) name default_branch is_disabled in
  let req := mk_request "patch"
               ("https://dev.azure.com/" ++ ado_org ado_client ++ "/"
                ++ ado_project ado_client ++ "/_apis/git/repositories/" ++ repo_id
                ++ "?api-version=7.1")
               (Some (VDict [(wire_name, attribute_value)])) in
  plan_mode ado_client = false ->
  In (attribute_name, wire_name)
     [ ("name", "name"); ("default_branch", "defaultBranch");
       ("is_disabled", "isDisabled") ] ->
  http_log (snd (snd (Repo_update ado_client attribute_name attribute_value (self, w))))
  = (http_log w ++ [req])%list.
Proof.
  intros self req Hplan Hin.
  assert (Hwire : PyDict.get attribute_name (get_internal_field_names Repo.type)
                  = Some wire_name).
  { destruct Hin as [H | [H | [H | []]]]; injection H as <- <-; reflexivity. }
  unfold Repo_update, bind at 1, get_self. cbn [fst]. unfold self, Repo.new.
  rewrite (bind_lift_ok _ (VStr repo_id)) by reflexivity.
  change (py_str (VStr repo_id)) with repo_id.
  exact (proj1 (update_log ado_client "patch" (Repo_path ado_client repo_id) attribute_name
                  attribute_value [] Repo.type _ w wire_name Hwire Hplan)).
Qed.

(** X19. Plan mode is consulted by create and update only.  A delete and the
    two read operations do the same whether the flag is set or not: in plan
    mode too the DELETE is sent to the service, and nothing is put on the
    plan. *)
Theorem plan_mode_is_ignored_by_delete_and_reads (cls : PyClass) (org project : string)
    (quiet : bool) (service : list HttpRequest -> HttpRequest -> HttpResponse)
    (url resource_id : string) (w : World) :
  let planning := mk_client org project true quiet service in
  let applying := mk_client org project false quiet service in
  _delete_by_id cls planning url resource_id w = _delete_by_id cls applying url resource_id w
  /\ _get_by_url cls planning url w = _get_by_url cls applying url w
  /\ _get_all cls planning url w = _get_all cls applying url w
  /\ http_log (snd (_delete_by_id cls planning url resource_id w))
     = (http_log w ++ [mk_request "DELETE" (full_url planning url) None])%list
  /\ plan (snd (_delete_by_id cls planning url resource_id w)) = plan w.
Proof.
  intros planning applying.
  split; [reflexivity |]. split; [reflexivity |]. split; [reflexivity |].
  exact (delete_log cls planning url resource_id w).
Qed.

(** X20. Creating a resource and then deleting it by its identifier leaves the
    State Store as it was before the create, when it had no entry for that
    identifier; the two requests are on the log in that order. *)
Theorem create_then_delete_restores_store (cls : PyClass) (ado_client : AdoClient)
    (create_url delete_url : string) (payload : option (list (string * PyVal)))
    (w : World) (body resource data : PyVal) (id : string) :
  let post := mk_request "POST" (full_url ado_client create_url)
                (Some (post_body payload)) in
  let del := mk_request "DELETE" (full_url ado_client delete_url) None in
  let w1 := snd (_create cls ado_client create_url payload false w) in
  let w2 := snd (_delete_by_id cls ado_client delete_url id w1) in
  plan_mode ado_client = false ->
  status_code (answer ado_client w post) < 300 ->
  json_body (answer ado_client w post) = Some body ->
  from_request_payload cls body = Ok resource ->
  extract_id resource = Ok (VStr id) ->
  to_json resource = Ok data ->
  status_code (session ado_client (http_log w ++ [post]) del) = 204 ->
  state w !! (cls_name cls, id) = None ->
  state w1 !! (cls_name cls, id) = Some data
  /\ state w2 = state w
  /\ http_log w2 = (http_log w ++ [post; del])%list.
Proof.
  intros post del w1 w2 Hplan Hstatus Hbody Hdecode Hid Hjson Hdel Hfresh.
  assert (Hw1 : w1 = mk_world (http_log w ++ [post])
                       (<[(cls_name cls, id) := data]> (state w)) (plan w) (stdout w)).
  { unfold w1. rewrite (create_success cls ado_client create_url payload w body resource
                          data id Hplan Hstatus Hbody Hdecode Hid Hjson). reflexivity. }
  assert (Hw2 : w2 = removed cls id w1 del (stdout w1)).
  { unfold w2. rewrite (delete_204 cls ado_client delete_url id w1); [reflexivity |].
    rewrite Hw1. exact Hdel. }
  split; [rewrite Hw1; apply lookup_insert_eq |].
  rewrite Hw2, Hw1. unfold removed. cbn [state http_log]. split.
  - rewrite delete_insert_eq. apply delete_id. exact Hfresh.
  - rewrite <- app_assoc. reflexivity.
Qed.

(** X21. Deleting twice is deleting once, as far as the State Store goes: a
    second delete of the same identifier, which the service answers with
    404, succeeds and leaves the store as the first delete left it. *)
Theorem delete_by_id_twice (cls : PyClass) (ado_client : AdoClient)
    (url resource_id : string) (w : World) :
  let del := mk_request "DELETE" (full_url ado_client url) None in
  let first := _delete_by_id cls ado_client url resource_id w in
  let second := _delete_by_id cls ado_client url resource_id (snd first) in
  status_code (session ado_client (http_log w) del) = 204 ->
  status_code (session ado_client (http_log w ++ [del]) del) = 404 ->
  fst first = Ok tt /\ fst second = Ok tt
  /\ state (snd second) = state (snd first)
  /\ state (snd second) !! (cls_name cls, resource_id) = None
  /\ http_log (snd second) = (http_log w ++ [del; del])%list.
Proof.
  intros del first second H204 H404.
  assert (H1 : first = (Ok tt, removed cls resource_id w del (stdout w))).
  { unfold first. apply delete_204. exact H204. }
  assert (H2 : second
               = (Ok tt, removed cls resource_id (snd first) del
                           (if suppress_warnings ado_client then stdout (snd first)
                            else stdout (snd first) ++ [warning_404]))).
  { unfold second. apply delete_404. rewrite H1. exact H404. }
  rewrite H2, H1. unfold removed. cbn [fst snd state http_log].
  split; [reflexivity |]. split; [reflexivity |].
  split; [apply delete_delete_eq |].
  split; [rewrite delete_delete_eq; apply lookup_delete_eq |].
  rewrite <- app_assoc. reflexivity.
Qed.

(* ===================================================================== *)
(** * More of the codec: what [to_json] writes and what comes back *)
(* ===================================================================== *)

Lemma json_items_follow_fields (fields : list Field) (attrs : list (string * PyVal)) :
  map fst attrs = map field_name fields ->
  Forall2 (fun f item => fst item = field_name f
                         \/ exists tag, fst item = field_name f ++ "::" ++ tag)
          fields (map json_item attrs).
Proof.
  revert fields. induction attrs as [|[n v] attrs IH]; intros [|f fields] H;
    try discriminate; [constructor |].
  simpl in H. injection H as Hn Hrest. constructor; [| exact (IH fields Hrest)].
  simpl. subst n. exact (key_for_shape (field_name f) v).
Qed.

(** X22. [to_json] writes one item per declared field, in the order of the
    declaration; the key of an item is the field's name, alone or followed
    by [::] and a tag, and no two items have the same key, so that building
    the [dict] drops nothing. *)
Theorem to_json_writes_each_field_once (t : PyType) (attrs : list (string * PyVal)) :
  registry_ok = true -> well_formed (VObj t attrs) = true ->
  exists data,
    to_json (VObj t attrs) = Ok (VDict data)
    /\ List.NoDup (PyDict.keys data)
    /\ Forall2 (fun f item => fst item = field_name f
                              \/ exists tag, fst item = field_name f ++ "::" ++ tag)
               (type_fields t) data.
Proof.
  intros Hreg Hwf. exists (map json_item attrs).
  destruct (well_formed_obj _ _ Hwf) as (Hnames & Hplain & Hnd & _).
  split; [exact (to_json_spec t attrs Hreg Hwf) |].
  split; [exact (json_items_distinct attrs Hplain Hnd) |].
  exact (json_items_follow_fields _ _ Hnames).
Qed.

Lemma reloaded_instance_well_formed (t : PyType) (attrs : list (string * PyVal)) :
  well_formed (VObj t attrs) = true ->
  well_formed (VObj t (map reloaded_item attrs)) = true.
Proof.
  intros Hwf. destruct (well_formed_obj _ _ Hwf) as (Hnames & Hplain & Hnd & Hall).
  simpl in Hwf. simpl. rewrite !map_map. simpl.
  repeat (apply andb_true_iff in Hwf; destruct Hwf as [Hwf ?]).
  repeat (apply andb_true_iff; split); try assumption.
  rewrite forallb_forall. intros y Hy. apply in_map_iff in Hy.
  destruct Hy as [x [<- Hx]]. rewrite List.Forall_forall in Hall.
  exact (reloaded_well_formed _ (Hall x Hx)).
Qed.

Lemma json_items_reloaded (attrs : list (string * PyVal)) :
  map json_item (map reloaded_item attrs) = map json_item attrs.
Proof.
  rewrite map_map. apply map_ext. intros [n x].
  unfold json_item, reloaded_item. simpl.
  rewrite key_for_reloaded, json_form_reloaded. reflexivity.
Qed.

(** X23. The assertion of the repository's tests, for every instance: encoding,
    decoding and encoding again gives the JSON of the first encoding.  The
    decoded instance is an instance of the same class, and it is a fixed
    point of the codec: decoding its encoding gives it back. *)
Theorem to_json_roundtrip_is_stable (cls : PyClass) (t : PyType)
    (attrs : list (string * PyVal)) :
  registry_ok = true -> well_formed (VObj t attrs) = true -> cls_type cls = t ->
  exists data attrs',
    to_json (VObj t attrs) = Ok data
    /\ from_json cls data = Ok (VObj t attrs')
    /\ map fst attrs' = map fst attrs
    /\ well_formed (VObj t attrs') = true
    /\ to_json (VObj t attrs') = Ok data
    /\ (exists data', to_json (VObj t attrs') = Ok data'
                      /\ from_json cls data' = Ok (VObj t attrs')).
Proof.
  intros Hreg Hwf Hcls.
  destruct (from_json_to_json cls t attrs Hreg Hwf Hcls) as [Hto Hfrom].
  pose proof (reloaded_instance_well_formed t attrs Hwf) as Hwf'.
  assert (Hto' : to_json (VObj t (map reloaded_item attrs))
                 = Ok (VDict (map json_item attrs))).
  { rewrite (to_json_spec t _ Hreg Hwf'), json_items_reloaded. reflexivity. }
  exists (VDict (map json_item attrs)), (map reloaded_item attrs).
  split; [exact Hto |]. split; [exact Hfrom |].
  split; [rewrite map_map; reflexivity |].
  split; [exact Hwf' |]. split; [exact Hto' |].
  exists (VDict (map json_item attrs)). split; [exact Hto' | exact Hfrom].
Qed.

Lemma to_json_entry (attrs : list (string * PyVal)) (name : string) (v : PyVal) :
  plain_keys attrs -> List.NoDup (map fst attrs) ->
  PyDict.get name attrs = Some v ->
  PyDict.get (key_for name v) (map json_item attrs) = Some (json_form v).
Proof.
  intros Hplain Hnd Hget. apply get_In; [exact (json_items_distinct attrs Hplain Hnd) |].
  apply get_Some_In in Hget.
  exact (in_map json_item attrs (name, v) Hget).
Qed.

(** X24. Tags are given to attributes only.  A timestamp inside a list or a
    mapping is written as its ISO text under no tag, and it is that text,
    not a timestamp, that decoding puts in the instance. *)
Theorem timestamps_in_containers_stay_text (cls : PyClass) (t : PyType)
    (attrs : list (string * PyVal)) (name : string) (d : datetime) :
  registry_ok = true -> well_formed (VObj t attrs) = true -> cls_type cls = t ->
  exists data attrs',
    to_json (VObj t attrs) = Ok (VDict data)
    /\ from_json cls (VDict data) = Ok (VObj t attrs')
    /\ (forall pre post,
          PyDict.get name attrs = Some (VList (pre ++ VDatetime d :: post)) ->
          let text := VList (map json_form pre ++ VStr (DateTime.isoformat d)
                             :: map json_form post) in
          PyDict.get name data = Some text /\ PyDict.get name attrs' = Some text)
    /\ (forall pre key post,
          PyDict.get name attrs = Some (VDict (pre ++ (key, VDatetime d) :: post)) ->
          let text := VDict (map (fun kv => (fst kv, json_form (snd kv))) pre
                             ++ (key, VStr (DateTime.isoformat d))
                             :: map (fun kv => (fst kv, json_form (snd kv))) post) in
          PyDict.get name data = Some text /\ PyDict.get name attrs' = Some text).
Proof.
  intros Hreg Hwf Hcls.
  destruct (from_json_to_json cls t attrs Hreg Hwf Hcls) as [Hto Hfrom].
  destruct (well_formed_obj _ _ Hwf) as (_ & Hplain & Hnd & _).
  exists (map json_item attrs), (map reloaded_item attrs).
  split; [exact Hto |]. split; [exact Hfrom |].
  assert (Hback : forall v, PyDict.get name attrs = Some v ->
                            PyDict.get name (map reloaded_item attrs) = Some (reloaded v)).
  { intros v Hget.
    change (map reloaded_item attrs)
      with (map (fun kv => (fst kv, reloaded (snd kv))) attrs).
    rewrite get_map_values, Hget. reflexivity. }
  split.
  - intros pre post Hget text.
    assert (Hform : json_form (VList (pre ++ VDatetime d :: post)) = text).
    { unfold text.
      change (json_form (VList (pre ++ VDatetime d :: post)))
        with (VList (map json_form (pre ++ VDatetime d :: post))).
      rewrite map_app. reflexivity. }
    split.
    + exact (eq_trans (to_json_entry attrs name _ Hplain Hnd Hget) (f_equal Some Hform)).
    + exact (eq_trans (Hback _ Hget) (f_equal Some Hform)).
  - intros pre key post Hget text.
    assert (Hform : json_form (VDict (pre ++ (key, VDatetime d) :: post)) = text).
    { unfold text.
      change (json_form (VDict (pre ++ (key, VDatetime d) :: post)))
        with (VDict (map (fun kv => (fst kv, json_form (snd kv)))
                         (pre ++ (key, VDatetime d) :: post))).
      rewrite map_app. reflexivity. }
    split.
    + exact (eq_trans (to_json_entry attrs name _ Hplain Hnd Hget) (f_equal Some Hform)).
    + exact (eq_trans (Hback _ Hget) (f_equal Some Hform)).
Qed.

(* ===================================================================== *)
(** * What the engine sends *)
(* ===================================================================== *)

Lemma post_body_payload (payload : option (list (string * PyVal))) :
  post_body payload = VDict (match payload with Some p => p | None => [] end).
Proof. destruct payload as [[|x p]|]; reflexivity. Qed.

(** X25. With plan mode off, a create, a delete and an update of an editable
    attribute each send exactly one request, whether they succeed or raise:
    never a second call, never a retry.  It goes to an [https://] address:
    the create as a POST whose body is the payload, or the empty object
    when there is no payload; the delete without body; the update with the
    caller's verb and, as body, the caller's parameters with the new value
    under the wire name. *)
Theorem mutating_operations_send_one_request (cls : PyClass) (ado_client : AdoClient)
    (url resource_id update_action attribute_name wire_name : string)
    (payload : option (list (string * PyVal))) (attribute_value : PyVal)
    (params : list (string * PyVal)) (t : PyType) (attrs : list (string * PyVal))
    (w : World) :
  plan_mode ado_client = false ->
  PyDict.get attribute_name (get_internal_field_names t) = Some wire_name ->
  PyString.startswith (full_url ado_client url) "https://" = true
  /\ http_log (snd (_create cls ado_client url payload false w))
     = (http_log w
        ++ [mk_request "POST" (full_url ado_client url)
              (Some (VDict (match payload with Some p => p | None => [] end)))])%list
  /\ http_log (snd (_delete_by_id cls ado_client url resource_id w))
     = (http_log w ++ [mk_request "DELETE" (full_url ado_client url) None])%list
  /\ http_log (snd (snd (_update ado_client update_action url attribute_name
                           attribute_value params (VObj t attrs, w))))
     = (http_log w ++ [mk_request update_action (full_url ado_client url)
                         (Some (VDict (PyDict.set wire_name attribute_value params)))])%list.
Proof.
  intros Hplan Hwire.
  split; [apply full_url_https |].
  split.
  { rewrite <- (post_body_payload payload).
    exact (proj1 (create_run_cases cls ado_client url payload false w _ Hplan
                    (or_introl eq_refl) eq_refl)). }
  split; [exact (proj1 (delete_log cls ado_client url resource_id w)) |].
  exact (proj1 (update_log ado_client update_action url attribute_name attribute_value
                  params t attrs w wire_name Hwire Hplan)).
Qed.

(** X26. [Repo.get_by_id] asks for the repository at its own address under the
    organisation and the project of the client; the object in the answer is
    decoded by [Repo.from_request_payload], and a 404 is the not-found error
    that names [Repo]. *)
Theorem Repo_get_by_id_outcomes (ado_client : AdoClient) (repo_id : string) (w : World) :
  let req := mk_request "GET"
               ("https://dev.azure.com/" ++ ado_org ado_client ++ "/"
                ++ ado_project ado_client ++ "/_apis/git/repositories/" ++ repo_id
                ++ "?api-version=7.1") None in
  let request := answer ado_client w req in
  (status_code request = 404 ->
   Repo_get_by_id ado_client repo_id w
   = (Raise (ResourceNotFound "No Repo found with that identifier!"), logged w req))
  /\ (forall data, status_code request < 300 ->
        json_body request = Some (VDict data) ->
        PyDict.get "value" data = None ->
        Repo_get_by_id ado_client repo_id w
        = (Repo.from_request_payload (VDict data), logged w req)).
Proof.
  intros req request. unfold Repo_get_by_id, _get_by_url, Repo_path.
  rewrite full_url_path, bind_http. fold req request. split.
  - intros ->. reflexivity.
  - intros data Hlt Hbody Hget.
    assert (H404 : (status_code request =? 404) = false) by (apply Z.eqb_neq; lia).
    rewrite H404, (geb_300_false _ Hlt). unfold json. rewrite Hbody.
    rewrite (bind_lift_ok _ (VDict data)) by reflexivity.
    rewrite (bind_lift_ok _ false)
      by (unfold py_contains, PyDict.mem; rewrite Hget; reflexivity).
    change (from_request_payload Repo.class) with Repo.from_request_payload.
    unfold lift. destruct (Repo.from_request_payload (VDict data)); reflexivity.
Qed.

End StateManagedResource.

(* ===================================================================== *)
(** * The claims on sample data *)
(* ===================================================================== *)

(** The codec gives the project of the sample back as it was; a project
    that holds the repository of the tests comes back with the repository's
    [is_disabled] and its own [last_update_time] as text. *)
Lemma roundtrip_lossless_witness :
  registry_ok Sample.registry = true
  /\ well_formed Sample.project = true
  /\ (exists data, to_json Sample.registry Sample.repr_other Sample.project = Ok data
                   /\ from_json Sample.registry Project.class data = Ok Sample.project)
  /\ (exists data,
        to_json Sample.registry Sample.repr_other
          (Project.new (VStr "7") (VStr "platform") Sample.repo VNone) = Ok data
        /\ from_json Sample.registry Project.class data
           = Ok (Project.new (VStr "7") (VStr "platform")
                   (Repo.new (VStr "123") (VStr "test-repo") (VStr "master") (VStr "False"))
                   (VStr "None"))).
Proof.
  split; [reflexivity |]. split; [reflexivity |]. split.
  - destruct (proj1 (roundtrip_lossless Sample.registry Sample.repr_other Project.class
                       Project.type
                       [ ("project_id", VStr "7"); ("name", VStr "platform");
                         ("description", VStr "shared services");
                         ("last_update_time",
                          VDatetime (mk_datetime 2024 1 1 12 14 30 360000)) ]
                       eq_refl eq_refl eq_refl))
      as (data & Hto & _ & Hsame).
    exists data. split; [exact Hto | exact (Hsame eq_refl)].
  - destruct (proj1 (roundtrip_lossless Sample.registry Sample.repr_other Project.class
                       Project.type
                       [ ("project_id", VStr "7"); ("name", VStr "platform");
                         ("description", Sample.repo); ("last_update_time", VNone) ]
                       eq_refl eq_refl eq_refl))
      as (data & Hto & Hfrom & _).
    exists data. split; [exact Hto | exact Hfrom].
Defined.

(** C1 as stated fails on the repository of the tests: its [is_disabled]
    is [False] before and the string ["False"] after. *)
Lemma roundtrip_changes_boolean :
  registry_ok Sample.registry = true
  /\ well_formed Sample.repo = true
  /\ to_json Sample.registry Sample.repr_other Sample.repo
     = Ok (VDict [ ("repo_id", VStr "123"); ("name", VStr "test-repo");
                   ("default_branch", VStr "master"); ("is_disabled", VStr "False") ])
  /\ from_json Sample.registry Repo.class
       (VDict [ ("repo_id", VStr "123"); ("name", VStr "test-repo");
                ("default_branch", VStr "master"); ("is_disabled", VStr "False") ])
     = Ok (Repo.new (VStr "123") (VStr "test-repo") (VStr "master") (VStr "False"))
  /\ Repo.new (VStr "123") (VStr "test-repo") (VStr "master") (VStr "False") <> Sample.repo.
Proof.
  repeat split; try reflexivity. discriminate.
Qed.

(** The [is_disabled] of the sample repository is stored and read back as ["False"]. *)
Lemma scalars_come_back_as_strings_witness :
  stringified Sample.registry (VBool false) = true
  /\ recursively_convert_to_json Sample.registry Sample.repr_other "is_disabled" (VBool false)
     = Ok ("is_disabled", VStr "False")
  /\ exists data attrs',
       to_json Sample.registry Sample.repr_other Sample.repo = Ok data
       /\ from_json Sample.registry Repo.class data = Ok (VObj Repo.type attrs')
       /\ PyDict.get "is_disabled" attrs' = Some (VStr "False").
Proof.
  split; [reflexivity |].
  destruct (scalars_come_back_as_strings Sample.registry Sample.repr_other
              "is_disabled" (VBool false) eq_refl) as (Henc & _ & _ & _ & _ & Hdec).
  split; [exact Henc |].
  exact (Hdec Repo.class Repo.type
              [ ("repo_id", VStr "123"); ("name", VStr "test-repo");
                ("default_branch", VStr "master"); ("is_disabled", VBool false) ]
              eq_refl eq_refl eq_refl eq_refl).
Defined.

(** A 404 and a 500 answer to the fetch of a repository. *)
Lemma get_by_url_error_classes_witness :
  _get_by_url Repo.class (Sample.client false false 404 "" None) Sample.repo_url Sample.world
  = (Raise (ResourceNotFound "No Repo found with that identifier!"),
     logged Sample.world
       (mk_request "GET" ("https://dev.azure.com/org" ++ Sample.repo_url) None))
  /\ _get_by_url Repo.class (Sample.client false false 500 "boom" None) Sample.repo_url
       Sample.world
     = (Raise (ValueError "Error getting Repo by id: boom"),
        logged Sample.world
          (mk_request "GET" ("https://dev.azure.com/org" ++ Sample.repo_url) None)).
Proof.
  split.
  - apply (proj1 (get_by_url_error_classes Repo.class (Sample.client false false 404 "" None)
                    Sample.repo_url Sample.world)).
    reflexivity.
  - apply (proj2 (get_by_url_error_classes Repo.class
                    (Sample.client false false 500 "boom" None)
                    Sample.repo_url Sample.world)).
    + discriminate.
    + discriminate.
Defined.

(** A 200 answer with the body [{"value": []}]. *)
Lemma get_by_url_empty_value_witness :
  _get_by_url Repo.class
    (Sample.client false false 200 "" (Some (VDict [("value", VList [])])))
    Sample.repo_url Sample.world
  = (Raise IndexError,
     logged Sample.world
       (mk_request "GET" ("https://dev.azure.com/org" ++ Sample.repo_url) None)).
Proof.
  apply (get_by_url_empty_value Repo.class
           (Sample.client false false 200 "" (Some (VDict [("value", VList [])])))
           Sample.repo_url Sample.world); reflexivity.
Defined.

(** A create and an update of the sample repository under plan mode. *)
Lemma plan_mode_isolation_witness :
  plan_mode (Sample.client true false 500 "" None) = true
  /\ http_log (snd (_create Sample.registry Sample.repr_other Repo.class
                      (Sample.client true false 500 "" None) Sample.repo_url
                      (Some [("name", VStr "x")]) false Sample.world)) = []
  /\ state (snd (_create Sample.registry Sample.repr_other Repo.class
                   (Sample.client true false 500 "" None) Sample.repo_url
                   (Some [("name", VStr "x")]) false Sample.world)) = ∅
  /\ http_log (snd (snd (_update Sample.registry Sample.repr_other
                           (Sample.client true false 500 "" None) "patch" Sample.repo_url
                           "name" (VStr "renamed") [] (Sample.repo, Sample.world)))) = []
  /\ state (snd (snd (_update Sample.registry Sample.repr_other
                        (Sample.client true false 500 "" None) "patch" Sample.repo_url
                        "name" (VStr "renamed") [] (Sample.repo, Sample.world)))) = ∅.
Proof.
  split; [reflexivity |].
  destruct (plan_mode_isolation Sample.registry Sample.repr_other Repo.class
              (Sample.client true false 500 "" None) Sample.repo_url "patch" "name"
              (Some [("name", VStr "x")]) false (VStr "renamed") [] Repo.type
              [ ("repo_id", VStr "123"); ("name", VStr "test-repo");
                ("default_branch", VStr "master"); ("is_disabled", VBool false) ]
              Sample.world eq_refl)
    as [(_ & Hlog & Hstate) (Hlog' & Hstate' & _)].
  repeat split; assumption.
Defined.

(** [repo_id] is the identifier of a repository, not an editable field. *)
Lemma update_rejects_non_editable_witness :
  ~ In "repo_id" (map field_name (List.filter (fun f => editable f) (type_fields Repo.type)))
  /\ _update Sample.registry Sample.repr_other (Sample.client false false 200 "" None)
       "patch" Sample.repo_url "repo_id" (VStr "456") [] (Sample.repo, Sample.world)
     = (Raise (ValueError
                 ("The attribute `repo_id` is not editable!  Editable attributes are: "
                  ++ "['name', 'default_branch', 'is_disabled']")),
        (Sample.repo, Sample.world)).
Proof.
  assert (H : ~ In "repo_id"
                (map field_name (List.filter (fun f => editable f) (type_fields Repo.type)))).
  { simpl. intros [H|[H|[H|[]]]]; discriminate. }
  split; [exact H |].
  exact (update_rejects_non_editable Sample.registry Sample.repr_other
           (Sample.client false false 200 "" None) "patch" Sample.repo_url "repo_id"
           (VStr "456") [] Repo.type
           [ ("repo_id", VStr "123"); ("name", VStr "test-repo");
                ("default_branch", VStr "master"); ("is_disabled", VBool false) ]
           Sample.world H).
Defined.

(** A 204, a 404 and a 500 answer to the deletion of a repository. *)
Lemma delete_by_id_outcomes_witness :
  _delete_by_id Sample.repr_other Repo.class (Sample.client false false 204 "" None)
    Sample.repo_url "123" Sample.world
  = (Ok tt, removed Repo.class "123" Sample.world
              (mk_request "DELETE" ("https://dev.azure.com/org" ++ Sample.repo_url) None) [])
  /\ _delete_by_id Sample.repr_other Repo.class (Sample.client false false 404 "" None)
       Sample.repo_url "123" Sample.world
     = (Ok tt, removed Repo.class "123" Sample.world
                 (mk_request "DELETE" ("https://dev.azure.com/org" ++ Sample.repo_url) None)
                 [warning_404])
  /\ state (snd (_delete_by_id Sample.repr_other Repo.class
                   (Sample.client false false 500 "down" None)
                   Sample.repo_url "123" Sample.world)) = ∅.
Proof.
  split; [| split].
  - apply (proj1 (delete_by_id_outcomes Sample.repr_other Repo.class
                    (Sample.client false false 204 "" None) Sample.repo_url "123"
                    Sample.world)).
    reflexivity.
  - apply (proj1 (proj2 (delete_by_id_outcomes Sample.repr_other Repo.class
                           (Sample.client false false 404 "" None) Sample.repo_url "123"
                           Sample.world))).
    reflexivity.
  - apply (proj2 (proj2 (delete_by_id_outcomes Sample.repr_other Repo.class
                           (Sample.client false false 500 "down" None) Sample.repo_url
                           "123" Sample.world))); discriminate.
Defined.

(** C4 as stated fails for a client that suppresses warnings: the 404 answer
    is treated as a deletion, and nothing is printed. *)
Lemma delete_404_prints_nothing_when_suppressed :
  suppress_warnings (Sample.client false true 404 "" None) = true
  /\ status_code (answer (Sample.client false true 404 "" None) Sample.world
                    (mk_request "DELETE" (full_url (Sample.client false true 404 "" None)
                                            Sample.repo_url) None)) = 404
  /\ fst (_delete_by_id Sample.repr_other Repo.class (Sample.client false true 404 "" None)
            Sample.repo_url "123" Sample.world) = Ok tt
  /\ ~ In warning_404
          (stdout (snd (_delete_by_id Sample.repr_other Repo.class
                          (Sample.client false true 404 "" None)
                          Sample.repo_url "123" Sample.world))).
Proof.
  repeat split. intros H. exact H.
Qed.


(** A 403 answer to a create, an update and a delete. *)
Lemma mutating_calls_on_401_403_witness :
  fst (_create Sample.registry Sample.repr_other Repo.class
         (Sample.client false false 403 "denied" (Some (VDict []))) Sample.repo_url
         None false Sample.world)
  = Raise (InvalidPermissionsError "You do not have permission to create this Repo! denied")
  /\ (exists msg,
        fst (_update Sample.registry Sample.repr_other
               (Sample.client false false 403 "denied" (Some (VDict []))) "patch"
               Sample.repo_url "name" (VStr "renamed") [] (Sample.repo, Sample.world))
        = Raise (UpdateFailed msg))
  /\ (exists msg,
        fst (_delete_by_id Sample.repr_other Repo.class
               (Sample.client false false 403 "denied" (Some (VDict []))) Sample.repo_url
               "123" Sample.world)
        = Raise (DeletionFailed msg)).
Proof.
  destruct (mutating_calls_on_401_403 Sample.registry Sample.repr_other Repo.class
              (Sample.client false false 403 "denied" (Some (VDict [])))
              Sample.repo_url "patch" "name" "name" "123" None false
              (VStr "renamed") (VStr "123") [] [] Repo.type
              [ ("repo_id", VStr "123"); ("name", VStr "test-repo");
                ("default_branch", VStr "master"); ("is_disabled", VBool false) ]
              Sample.world eq_refl)
    as (Hcreate & Hupdate & Hdelete).
  split; [| split].
  - apply Hcreate. right. reflexivity.
  - eexists. apply Hupdate; [right; reflexivity | reflexivity | reflexivity].
  - eexists. apply Hdelete; [right; reflexivity | reflexivity].
Defined.

(** C7 as stated fails on update: a 403 answer raises the update-failed
    error, not the permission error. *)
Lemma update_403_is_not_permission_error :
  status_code (answer (Sample.client false false 403 "denied" None) Sample.world
                 (mk_request "patch"
                    (full_url (Sample.client false false 403 "denied" None) Sample.repo_url)
                    (Some (VDict [("name", VStr "renamed")])))) = 403
  /\ fst (_update Sample.registry Sample.repr_other
            (Sample.client false false 403 "denied" None) "patch" Sample.repo_url
            "name" (VStr "renamed") [] (Sample.repo, Sample.world))
     = Raise (UpdateFailed
                ("Failed to update Repo with id 123 and attribute name to renamed. "
                 ++ String "010" "Reason:" ++ String "010" "denied"))
  /\ ~ (exists msg,
          fst (_update Sample.registry Sample.repr_other
                 (Sample.client false false 403 "denied" None) "patch" Sample.repo_url
                 "name" (VStr "renamed") [] (Sample.repo, Sample.world))
          = Raise (InvalidPermissionsError msg)).
Proof.
  repeat split. intros [msg H]. discriminate H.
Qed.

(** A 500 answer to the update of the name of the sample repository. *)
Lemma update_failure_is_atomic_witness :
  plan_mode (Sample.client false false 500 "down" None) = false
  /\ fst (snd (_update Sample.registry Sample.repr_other
                 (Sample.client false false 500 "down" None) "patch" Sample.repo_url
                 "name" (VStr "renamed") [] (Sample.repo, Sample.world))) = Sample.repo
  /\ state (snd (snd (_update Sample.registry Sample.repr_other
                        (Sample.client false false 500 "down" None) "patch"
                        Sample.repo_url "name" (VStr "renamed") []
                        (Sample.repo, Sample.world)))) = ∅
  /\ exists msg,
       fst (_update Sample.registry Sample.repr_other
              (Sample.client false false 500 "down" None) "patch" Sample.repo_url
              "name" (VStr "renamed") [] (Sample.repo, Sample.world))
       = Raise (UpdateFailed msg).
Proof.
  split; [reflexivity |].
  destruct (update_failure_is_atomic Sample.registry Sample.repr_other
              (Sample.client false false 500 "down" None) "patch" Sample.repo_url
              "name" "name" (VStr "renamed") [] Repo.type
              [ ("repo_id", VStr "123"); ("name", VStr "test-repo");
                ("default_branch", VStr "master"); ("is_disabled", VBool false) ]
              Sample.world eq_refl eq_refl)
    as (_ & Hself & Hstate & Hfail); [discriminate |].
  split; [exact Hself |]. split; [exact Hstate |].
  eexists. apply (Hfail (VStr "123")). reflexivity.
Defined.

(** The assertion of [tests/test_repo.py] on its repository. *)
Lemma to_json_stable_on_test_repo :
  exists data reloaded_instance,
    to_json Sample.registry Sample.repr_other Sample.repo = Ok data
    /\ from_json Sample.registry Repo.class data = Ok reloaded_instance
    /\ to_json Sample.registry Sample.repr_other reloaded_instance = Ok data.
Proof.
  apply (to_json_stable Sample.registry Sample.repr_other Repo.class Repo.type);
    reflexivity.
Qed.

(** A deletion answered with a status other than 204 and 404 and a body that
    is not JSON stops in [request.json()]. *)
Lemma delete_500_without_json_body :
  _delete_by_id Sample.repr_other Repo.class
    (Sample.client false false 500 "Internal Server Error" None)
    Sample.repo_url "123" Sample.world
  = (Raise JSONDecodeError,
     logged Sample.world
       (mk_request "DELETE" ("https://dev.azure.com/org" ++ Sample.repo_url) None)).
Proof. reflexivity. Qed.

(* ===================================================================== *)
(** * The further properties on sample data *)
(* ===================================================================== *)

(** A stored repository that leaves two fields to the defaults of the class. *)
Lemma from_json_untagged_witness :
  from_json Sample.registry Repo.class
    (VDict [ ("repo_id", VStr "123"); ("name", VStr "test-repo") ])
  = Ok (Repo.new (VStr "123") (VStr "test-repo") (VStr "main") (VBool false)).
Proof.
  refine (eq_trans (proj2 (from_json_untagged Sample.registry Repo.class
                             [ ("repo_id", VStr "123"); ("name", VStr "test-repo") ] _ _))
                   eq_refl).
  - repeat constructor.
  - repeat constructor; simpl; intuition discriminate.
Defined.

(** A stored repository without its [repo_id]. *)
Lemma from_json_rejects_wrong_fields_witness :
  from_json Sample.registry Repo.class (VDict [ ("name", VStr "test-repo") ])
  = Raise TypeError.
Proof.
  apply (from_json_rejects_wrong_fields Sample.registry Repo.class
           [ ("name", VStr "test-repo") ]).
  - repeat constructor.
  - repeat constructor; simpl; intuition discriminate.
  - right. exists (mk_field "repo_id" true false None).
    split; [left; reflexivity |]. split; reflexivity.
Defined.


(** A key with two tags. *)
Lemma from_json_two_tags_witness :
  from_json Sample.registry Project.class
    (VDict [ ("project_id", VStr "7"); ("owner::Repo::main", VDict []) ])
  = Raise (ValueError "too many values to unpack (expected 2)").
Proof.
  apply (from_json_two_tags Sample.registry Project.class
           [ ("project_id", VStr "7") ] [] "owner" "Repo" "main" (VDict [])).
  - repeat constructor.
  - reflexivity.
  - reflexivity.
  - reflexivity.
  - discriminate.
Defined.

(** A number where the ISO text of a timestamp should be. *)
Lemma from_json_timestamp_needs_text_witness :
  from_json Sample.registry Project.class
    (VDict [ ("project_id", VStr "7"); ("last_update_time::datetime", VInt 5) ])
  = Raise TypeError.
Proof.
  apply (from_json_timestamp_needs_text Sample.registry Project.class
           [ ("project_id", VStr "7") ] [] "last_update_time" (VInt 5)).
  - repeat constructor.
  - reflexivity.
  - intros s. discriminate.
Defined.

(** A body that is the repository itself, and a body that lists it. *)
Lemma get_by_url_payload_witness :
  _get_by_url Repo.class
    (Sample.client false false 200 "" (Some Service.created)) Sample.repo_url Sample.world
  = (Ok (Repo.new (VStr "123") (VStr "test-repo") (VStr "main") (VBool false)),
     logged Sample.world
       (mk_request "GET" ("https://dev.azure.com/org" ++ Sample.repo_url) None))
  /\ _get_by_url Repo.class Service.client Sample.repo_url Sample.world
     = (Ok (Repo.new (VStr "7") (VStr "other") (VStr "develop") (VBool false)),
        logged Sample.world
          (mk_request "GET" ("https://dev.azure.com/org" ++ Sample.repo_url) None)).
Proof.
  split.
  - apply (proj1 (get_by_url_payload Repo.class
                    (Sample.client false false 200 "" (Some Service.created))
                    Sample.repo_url Sample.world
                    [ ("id", VStr "123"); ("name", VStr "test-repo") ]
                    ltac:(reflexivity) eq_refl)).
    reflexivity.
  - apply (proj2 (get_by_url_payload Repo.class Service.client Sample.repo_url Sample.world
                    [ ("count", VInt 2);
                      ("value", VList [ VDict [ ("id", VStr "7"); ("name", VStr "other");
                                                ("defaultBranch", VStr "refs/heads/develop") ];
                                        Service.created ]) ]
                    ltac:(reflexivity) eq_refl)
                 (VDict [ ("id", VStr "7"); ("name", VStr "other");
                          ("defaultBranch", VStr "refs/heads/develop") ])
                 [ Service.created ]).
    reflexivity.
Defined.

(** A 404 answer to the listing of the repositories, and a listing without
    ["value"]. *)
Lemma get_all_failures_witness :
  _get_all Repo.class (Sample.client false false 404 "gone" None) Sample.repo_url
    Sample.world
  = (Raise (ValueError "Error getting all Repo: gone"),
     logged Sample.world
       (mk_request "GET" ("https://dev.azure.com/org" ++ Sample.repo_url) None))
  /\ _get_all Repo.class (Sample.client false false 200 "" (Some Service.created))
       Sample.repo_url Sample.world
     = (Raise (KeyError "value"),
        logged Sample.world
          (mk_request "GET" ("https://dev.azure.com/org" ++ Sample.repo_url) None)).
Proof.
  split.
  - apply (proj1 (get_all_failures Repo.class (Sample.client false false 404 "gone" None)
                    Sample.repo_url Sample.world)).
    discriminate.
  - apply (proj2 (get_all_failures Repo.class
                    (Sample.client false false 200 "" (Some Service.created))
                    Sample.repo_url Sample.world)
                 [ ("id", VStr "123"); ("name", VStr "test-repo") ]);
      reflexivity.
Defined.

(** The listing of the stub service, and a listing whose second element is
    no object. *)
Lemma get_all_decodes_each_witness :
  _get_all Repo.class Service.client Sample.repo_url Sample.world
  = (Ok [ Repo.new (VStr "7") (VStr "other") (VStr "develop") (VBool false);
          Repo.new (VStr "123") (VStr "test-repo") (VStr "main") (VBool false) ],
     logged Sample.world
       (mk_request "GET" ("https://dev.azure.com/org" ++ Sample.repo_url) None))
  /\ _get_all Repo.class
       (Sample.client false false 200 ""
          (Some (VDict [ ("value", VList [ Service.created; VInt 5; Service.created ]) ])))
       Sample.repo_url Sample.world
     = (Raise TypeError,
        logged Sample.world
          (mk_request "GET" ("https://dev.azure.com/org" ++ Sample.repo_url) None)).
Proof.
  split.
  - apply (proj1 (get_all_decodes_each Repo.class Service.client Sample.repo_url
                    Sample.world
                    [ ("count", VInt 2);
                      ("value", VList [ VDict [ ("id", VStr "7"); ("name", VStr "other");
                                                ("defaultBranch", VStr "refs/heads/develop") ];
                                        Service.created ]) ]
                    [ VDict [ ("id", VStr "7"); ("name", VStr "other");
                              ("defaultBranch", VStr "refs/heads/develop") ];
                      Service.created ]
                    ltac:(reflexivity) eq_refl eq_refl)).
    reflexivity.
  - apply (proj2 (get_all_decodes_each Repo.class
                    (Sample.client false false 200 ""
                       (Some (VDict [ ("value", VList [ Service.created; VInt 5;
                                                        Service.created ]) ])))
                    Sample.repo_url Sample.world
                    [ ("value", VList [ Service.created; VInt 5; Service.created ]) ]
                    [ Service.created; VInt 5; Service.created ]
                    ltac:(reflexivity) eq_refl eq_refl)
                 [ Service.created ] (VInt 5) [ Service.created ] TypeError).
    + reflexivity.
    + repeat constructor. eexists. reflexivity.
    + reflexivity.
Defined.

(** The filter on the listing of the stub service: the second repository
    is the first with the name, and no repository is called [missing]. *)
Lemma get_by_abstract_filter_first_or_none_witness :
  _get_by_abstract_filter Repo_get_all Service.client (has_name "test-repo") Sample.world
  = (Ok (Repo.new (VStr "123") (VStr "test-repo") (VStr "main") (VBool false)),
     logged Sample.world
       (mk_request "GET"
          "https://dev.azure.com/org/project/_apis/git/repositories?api-version=7.1" None))
  /\ _get_by_abstract_filter Repo_get_all Service.client (has_name "missing") Sample.world
     = (Ok VNone,
        logged Sample.world
          (mk_request "GET"
             "https://dev.azure.com/org/project/_apis/git/repositories?api-version=7.1"
             None)).
Proof.
  split.
  - apply (proj2 (get_by_abstract_filter_first_or_none Repo_get_all Service.client
                    (has_name "test-repo") (fun _ => false) Sample.world
                    (logged Sample.world
                       (mk_request "GET"
                          "https://dev.azure.com/org/project/_apis/git/repositories?api-version=7.1"
                          None))
                    [ Repo.new (VStr "7") (VStr "other") (VStr "develop") (VBool false) ]
                    []
                    ltac:(repeat constructor) ltac:(repeat constructor))
                 (Repo.new (VStr "123") (VStr "test-repo") (VStr "main") (VBool false)));
      reflexivity.
  - apply (proj1 (get_by_abstract_filter_first_or_none Repo_get_all Service.client
                    (has_name "missing") (fun _ => false) Sample.world
                    (logged Sample.world
                       (mk_request "GET"
                          "https://dev.azure.com/org/project/_apis/git/repositories?api-version=7.1"
                          None))
                    [ Repo.new (VStr "7") (VStr "other") (VStr "develop") (VBool false);
                      Repo.new (VStr "123") (VStr "test-repo") (VStr "main") (VBool false) ]
                    []
                    ltac:(repeat constructor) ltac:(repeat constructor)));
      reflexivity.
Defined.

(** The first repository of the stub service, whose branch is given as a ref. *)
Lemma Repo_from_request_payload_cases_witness :
  Repo.from_request_payload
    (VDict [ ("id", VStr "7"); ("name", VStr "other");
             ("defaultBranch", VStr "refs/heads/develop") ])
  = Ok (Repo.new (VStr "7") (VStr "other") (VStr "develop") (VBool false))
  /\ Repo.from_request_payload (VDict [ ("name", VStr "other") ]) = Raise (KeyError "id").
Proof.
  split.
  - apply (proj1 (proj2 (proj2 (proj2 (Repo_from_request_payload_cases
                                         [ ("id", VStr "7"); ("name", VStr "other");
                                           ("defaultBranch", VStr "refs/heads/develop") ]))
                                (VStr "7") (VStr "other") eq_refl eq_refl))
                 "develop").
    reflexivity.
  - apply (proj1 (Repo_from_request_payload_cases [ ("name", VStr "other") ])).
    reflexivity.
Defined.

(** [Repo.get_by_name] on the stub service. *)
Lemma Repo_get_by_name_first_or_none_witness :
  Repo_get_by_name Service.client "test-repo" Sample.world
  = (Ok (Repo.new (VStr "123") (VStr "test-repo") (VStr "main") (VBool false)),
     logged Sample.world
       (mk_request "GET"
          "https://dev.azure.com/org/project/_apis/git/repositories?api-version=7.1" None))
  /\ Repo_get_by_name Service.client "missing" Sample.world
     = (Ok VNone,
        logged Sample.world
          (mk_request "GET"
             "https://dev.azure.com/org/project/_apis/git/repositories?api-version=7.1"
             None)).
Proof.
  split.
  - apply (proj2 (proj2 (Repo_get_by_name_first_or_none Service.client "test-repo"
                           Sample.world
                           [ ("count", VInt 2);
                             ("value", VList [ VDict [ ("id", VStr "7"); ("name", VStr "other");
                                                       ("defaultBranch",
                                                        VStr "refs/heads/develop") ];
                                               Service.created ]) ]
                           [ VDict [ ("id", VStr "7"); ("name", VStr "other");
                                     ("defaultBranch", VStr "refs/heads/develop") ];
                             Service.created ]
                           [ Repo.new (VStr "7") (VStr "other") (VStr "develop") (VBool false);
                             Repo.new (VStr "123") (VStr "test-repo") (VStr "main")
                                      (VBool false) ]
                           ltac:(reflexivity) eq_refl eq_refl eq_refl))
                 [ Repo.new (VStr "7") (VStr "other") (VStr "develop") (VBool false) ]
                 (Repo.new (VStr "123") (VStr "test-repo") (VStr "main") (VBool false))
                 []).
    + reflexivity.
    + repeat constructor.
    + reflexivity.
  - apply (proj1 (proj2 (Repo_get_by_name_first_or_none Service.client "missing"
                           Sample.world
                           [ ("count", VInt 2);
                             ("value", VList [ VDict [ ("id", VStr "7"); ("name", VStr "other");
                                                       ("defaultBranch",
                                                        VStr "refs/heads/develop") ];
                                               Service.created ]) ]
                           [ VDict [ ("id", VStr "7"); ("name", VStr "other");
                                     ("defaultBranch", VStr "refs/heads/develop") ];
                             Service.created ]
                           [ Repo.new (VStr "7") (VStr "other") (VStr "develop") (VBool false);
                             Repo.new (VStr "123") (VStr "test-repo") (VStr "main")
                                      (VBool false) ]
                           ltac:(reflexivity) eq_refl eq_refl eq_refl))).
    repeat constructor.
Defined.

(** A build repository, and a stored object without ["id"]. *)
Lemma BuildRepository_roundtrip_witness :
  (exists data,
     BuildRepository.to_json
       (BuildRepository.new (VStr "9") (VStr "build") (VStr "TfsGit") (VBool true)
                            (VBool false)) = Ok data
     /\ BuildRepository.from_json data
        = Ok (BuildRepository.new (VStr "9") (VStr "build") (VStr "TfsGit") (VBool true)
                                  (VBool false)))
  /\ BuildRepository.from_json (VDict [ ("name", VStr "build") ]) = Raise (KeyError "id").
Proof.
  split.
  - exact (proj1 (BuildRepository_roundtrip (VStr "9") (VStr "build") (VStr "TfsGit")
                    (VBool true) (VBool false))).
  - apply (proj2 (proj2 (BuildRepository_roundtrip (VStr "9") (VStr "build") (VStr "TfsGit")
                           (VBool true) (VBool false)))).
    reflexivity.
Defined.

(** A 409 and a 500 answer to the create of a repository. *)
Lemma create_conflict_and_other_errors_witness :
  _create Sample.registry Sample.repr_other Repo.class
    (Sample.client false false 409 "" None) Sample.repo_url None false Sample.world
  = (Raise (ResourceAlreadyExists "The Repo with that identifier already exist!"),
     logged Sample.world
       (mk_request "POST" ("https://dev.azure.com/org" ++ Sample.repo_url)
          (Some (VDict []))))
  /\ _create Sample.registry Sample.repr_other Repo.class
       (Sample.client false false 500 "boom" None) Sample.repo_url None false Sample.world
     = (Raise (ValueError "Error creating Repo: 500 - boom"),
        logged Sample.world
          (mk_request "POST" ("https://dev.azure.com/org" ++ Sample.repo_url)
             (Some (VDict [])))).
Proof.
  split.
  - apply (proj1 (create_conflict_and_other_errors Sample.registry Sample.repr_other
                    Repo.class (Sample.client false false 409 "" None) Sample.repo_url
                    None false Sample.world eq_refl)).
    reflexivity.
  - apply (proj2 (create_conflict_and_other_errors Sample.registry Sample.repr_other
                    Repo.class (Sample.client false false 500 "boom" None) Sample.repo_url
                    None false Sample.world eq_refl)); discriminate.
Defined.

(** A create whose answer is 200 without a JSON body. *)
Lemma create_failure_records_nothing_witness :
  fst (_create Sample.registry Sample.repr_other Repo.class
         (Sample.client false false 200 "<html>" None) Sample.repo_url None false
         Sample.world)
  = Raise JSONDecodeError
  /\ snd (_create Sample.registry Sample.repr_other Repo.class
            (Sample.client false false 200 "<html>" None) Sample.repo_url None false
            Sample.world)
     = mk_world [ mk_request "POST" ("https://dev.azure.com/org" ++ Sample.repo_url)
                    (Some (VDict [])) ] ∅ [] [].
Proof.
  split; [reflexivity |].
  apply (create_failure_records_nothing Sample.registry Sample.repr_other Repo.class
           (Sample.client false false 200 "<html>" None) Sample.repo_url None false
           Sample.world JSONDecodeError).
  - reflexivity.
  - left. reflexivity.
  - reflexivity.
Defined.

(** A create of a repository with refetch: [Repo] has no [_get_by_id]. *)
Lemma create_refetch_not_implemented_witness :
  _create Sample.registry Sample.repr_other Repo.class Service.client Sample.repo_url
    (Some [ ("name", VStr "test-repo") ]) true Sample.world
  = (Raise NotImplementedError,
     logged Sample.world
       (mk_request "POST" ("https://dev.azure.com/org" ++ Sample.repo_url)
          (Some (VDict [ ("name", VStr "test-repo") ])))).
Proof.
  apply (create_refetch_not_implemented Sample.registry Sample.repr_other Repo.class
           Service.client Sample.repo_url (Some [ ("name", VStr "test-repo") ])
           Sample.world Service.created
           (Repo.new (VStr "123") (VStr "test-repo") (VStr "main") (VBool false))
           (VStr "123")); reflexivity.
Defined.

(** The sample repository is renamed. *)
Lemma update_success_refreshes_state_witness :
  fst (_update Sample.registry Sample.repr_other Service.client "patch" Sample.repo_url
         "name" (VStr "renamed") [] (Sample.repo, Sample.world))
  = Ok tt
  /\ fst (snd (_update Sample.registry Sample.repr_other Service.client "patch"
                 Sample.repo_url "name" (VStr "renamed") [] (Sample.repo, Sample.world)))
     = Repo.new (VStr "123") (VStr "renamed") (VStr "master") (VBool false)
  /\ state (snd (snd (_update Sample.registry Sample.repr_other Service.client "patch"
                        Sample.repo_url "name" (VStr "renamed") []
                        (Sample.repo, Sample.world)))) !! ("Repo", "123")
     = Some (VDict [ ("repo_id", VStr "123"); ("name", VStr "renamed");
                     ("default_branch", VStr "master"); ("is_disabled", VStr "False") ]).
Proof.
  destruct (update_success_refreshes_state Sample.registry Sample.repr_other Service.client
              "patch" Sample.repo_url "name" (VStr "renamed") [] Repo.type
              [ ("repo_id", VStr "123"); ("name", VStr "test-repo");
                ("default_branch", VStr "master"); ("is_disabled", VBool false) ]
              Sample.world "name" "123"
              (VDict [ ("repo_id", VStr "123"); ("name", VStr "renamed");
                       ("default_branch", VStr "master"); ("is_disabled", VStr "False") ])
              eq_refl eq_refl eq_refl eq_refl eq_refl)
    as (Hok & Hself & _ & _ & _ & Hstate & _).
  split; [exact Hok |]. split; [exact Hself | exact Hstate].
Defined.

(** The default branch of the sample repository is changed. *)
Lemma Repo_update_sends_wire_name_witness :
  http_log (snd (snd (Repo_update Sample.registry Sample.repr_other Service.client
                        "default_branch" (VStr "develop") (Sample.repo, Sample.world))))
  = [ mk_request "patch"
        "https://dev.azure.com/org/project/_apis/git/repositories/123?api-version=7.1"
        (Some (VDict [ ("defaultBranch", VStr "develop") ])) ].
Proof.
  apply (Repo_update_sends_wire_name Sample.registry Sample.repr_other Service.client
           "default_branch" "defaultBranch" "123" (VStr "develop") (VStr "test-repo")
           (VStr "master") (VBool false) Sample.world).
  - reflexivity.
  - right. left. reflexivity.
Defined.

(** A repository is created on the stub service and deleted again. *)
Lemma create_then_delete_restores_store_witness :
  state (snd (_create Sample.registry Sample.repr_other Repo.class Service.client
                Sample.repo_url (Some [ ("name", VStr "test-repo") ]) false Sample.world))
    !! ("Repo", "123")
  = Some (VDict [ ("repo_id", VStr "123"); ("name", VStr "test-repo");
                  ("default_branch", VStr "main"); ("is_disabled", VStr "False") ])
  /\ state (snd (_delete_by_id Sample.repr_other Repo.class Service.client Sample.repo_url
                   "123"
                   (snd (_create Sample.registry Sample.repr_other Repo.class
                           Service.client Sample.repo_url
                           (Some [ ("name", VStr "test-repo") ]) false Sample.world))))
     = ∅.
Proof.
  destruct (create_then_delete_restores_store Sample.registry Sample.repr_other Repo.class
              Service.client Sample.repo_url Sample.repo_url
              (Some [ ("name", VStr "test-repo") ]) Sample.world Service.created
              (Repo.new (VStr "123") (VStr "test-repo") (VStr "main") (VBool false))
              (VDict [ ("repo_id", VStr "123"); ("name", VStr "test-repo");
                       ("default_branch", VStr "main"); ("is_disabled", VStr "False") ])
              "123" eq_refl ltac:(reflexivity) eq_refl eq_refl eq_refl eq_refl eq_refl
              eq_refl)
    as (Hentry & Hstate & _).
  split; [exact Hentry | exact Hstate].
Defined.

(** The stub service answers the second DELETE with 404. *)
Lemma delete_by_id_twice_witness :
  fst (_delete_by_id Sample.repr_other Repo.class Service.client Sample.repo_url "123"
         (snd (_delete_by_id Sample.repr_other Repo.class Service.client Sample.repo_url
                 "123" Sample.world)))
  = Ok tt
  /\ http_log (snd (_delete_by_id Sample.repr_other Repo.class Service.client
                      Sample.repo_url "123"
                      (snd (_delete_by_id Sample.repr_other Repo.class Service.client
                              Sample.repo_url "123" Sample.world))))
     = [ mk_request "DELETE" ("https://dev.azure.com/org" ++ Sample.repo_url) None;
         mk_request "DELETE" ("https://dev.azure.com/org" ++ Sample.repo_url) None ].
Proof.
  destruct (delete_by_id_twice Sample.repr_other Repo.class Service.client Sample.repo_url
              "123" Sample.world eq_refl eq_refl)
    as (_ & Hsecond & _ & _ & Hlog).
  split; [exact Hsecond | exact Hlog].
Defined.

(** The items [to_json] writes for the sample project. *)
Lemma to_json_writes_each_field_once_witness :
  exists data,
    to_json Sample.registry Sample.repr_other Sample.project = Ok (VDict data)
    /\ List.NoDup (PyDict.keys data)
    /\ length data = 4%nat.
Proof.
  destruct (to_json_writes_each_field_once Sample.registry Sample.repr_other Project.type
              [ ("project_id", VStr "7"); ("name", VStr "platform");
                ("description", VStr "shared services");
                ("last_update_time", VDatetime (mk_datetime 2024 1 1 12 14 30 360000)) ]
              eq_refl eq_refl)
    as (data & Hto & Hnd & Hfields).
  exists data. split; [exact Hto |]. split; [exact Hnd |].
  exact (eq_sym (Forall2_length _ _ _ Hfields)).
Defined.

(** The assertion of [tests/test_repo.py] on its repository. *)
Lemma to_json_roundtrip_is_stable_witness :
  exists data attrs',
    to_json Sample.registry Sample.repr_other Sample.repo = Ok data
    /\ from_json Sample.registry Repo.class data = Ok (VObj Repo.type attrs')
    /\ to_json Sample.registry Sample.repr_other (VObj Repo.type attrs') = Ok data.
Proof.
  destruct (to_json_roundtrip_is_stable Sample.registry Sample.repr_other Repo.class
              Repo.type
              [ ("repo_id", VStr "123"); ("name", VStr "test-repo");
                ("default_branch", VStr "master"); ("is_disabled", VBool false) ]
              eq_refl eq_refl eq_refl)
    as (data & attrs' & Hto & Hfrom & _ & _ & Hagain & _).
  exists data, attrs'. split; [exact Hto |]. split; [exact Hfrom | exact Hagain].
Defined.

(** A project whose description is a list that holds a timestamp. *)
Lemma timestamps_in_containers_stay_text_witness :
  exists data attrs',
    to_json Sample.registry Sample.repr_other
      (Project.new (VStr "7") (VStr "platform")
                   (VList [ VStr "since"; VDatetime (mk_datetime 2024 1 1 12 14 30 0) ])
                   VNone)
    = Ok (VDict data)
    /\ from_json Sample.registry Project.class (VDict data) = Ok (VObj Project.type attrs')
    /\ PyDict.get "description" attrs'
       = Some (VList [ VStr "since"; VStr "2024-01-01T12:14:30" ]).
Proof.
  destruct (timestamps_in_containers_stay_text Sample.registry Sample.repr_other
              Project.class Project.type
              [ ("project_id", VStr "7"); ("name", VStr "platform");
                ("description",
                 VList [ VStr "since"; VDatetime (mk_datetime 2024 1 1 12 14 30 0) ]);
                ("last_update_time", VNone) ]
              "description" (mk_datetime 2024 1 1 12 14 30 0) eq_refl eq_refl eq_refl)
    as (data & attrs' & Hto & Hfrom & Hlist & _).
  exists data, attrs'. split; [exact Hto |]. split; [exact Hfrom |].
  exact (proj2 (Hlist [ VStr "since" ] [] eq_refl)).
Defined.

(** The three calls on the stub service; the create carries its payload,
    and a create without payload an empty object. *)
Lemma mutating_operations_send_one_request_witness :
  http_log (snd (_create Sample.registry Sample.repr_other Repo.class Service.client
                   Sample.repo_url (Some [ ("name", VStr "test-repo") ]) false
                   Sample.world))
  = [ mk_request "POST" ("https://dev.azure.com/org" ++ Sample.repo_url)
        (Some (VDict [ ("name", VStr "test-repo") ])) ]
  /\ http_log (snd (_create Sample.registry Sample.repr_other Repo.class Service.client
                      Sample.repo_url None false Sample.world))
     = [ mk_request "POST" ("https://dev.azure.com/org" ++ Sample.repo_url)
           (Some (VDict [])) ]
  /\ http_log (snd (_delete_by_id Sample.repr_other Repo.class Service.client
                      Sample.repo_url "123" Sample.world))
     = [ mk_request "DELETE" ("https://dev.azure.com/org" ++ Sample.repo_url) None ]
  /\ http_log (snd (snd (_update Sample.registry Sample.repr_other Service.client "patch"
                           Sample.repo_url "is_disabled" (VBool true)
                           [ ("comment", VStr "archived") ]
                           (Sample.repo, Sample.world))))
     = [ mk_request "patch" ("https://dev.azure.com/org" ++ Sample.repo_url)
           (Some (VDict [ ("comment", VStr "archived"); ("isDisabled", VBool true) ])) ].
Proof.
  destruct (mutating_operations_send_one_request Sample.registry Sample.repr_other
              Repo.class Service.client Sample.repo_url "123" "patch" "is_disabled"
              "isDisabled" (Some [ ("name", VStr "test-repo") ]) (VBool true)
              [ ("comment", VStr "archived") ] Repo.type
              [ ("repo_id", VStr "123"); ("name", VStr "test-repo");
                ("default_branch", VStr "master"); ("is_disabled", VBool false) ]
              Sample.world eq_refl eq_refl)
    as (_ & Hcreate & Hdelete & Hupdate).
  destruct (mutating_operations_send_one_request Sample.registry Sample.repr_other
              Repo.class Service.client Sample.repo_url "123" "patch" "is_disabled"
              "isDisabled" None (VBool true) [] Repo.type
              [ ("repo_id", VStr "123"); ("name", VStr "test-repo");
                ("default_branch", VStr "master"); ("is_disabled", VBool false) ]
              Sample.world eq_refl eq_refl)
    as (_ & Hnone & _).
  split; [exact Hcreate |]. split; [exact Hnone |].
  split; [exact Hdelete | exact Hupdate].
Defined.

(** A 404 answer to [Repo.get_by_id], and the repository of the stub. *)
Lemma Repo_get_by_id_outcomes_witness :
  Repo_get_by_id (Sample.client false false 404 "" None) "123" Sample.world
  = (Raise (ResourceNotFound "No Repo found with that identifier!"),
     logged Sample.world
       (mk_request "GET"
          "https://dev.azure.com/org/project/_apis/git/repositories/123?api-version=7.1"
          None))
  /\ Repo_get_by_id (Sample.client false false 200 "" (Some Service.created)) "123"
       Sample.world
     = (Ok (Repo.new (VStr "123") (VStr "test-repo") (VStr "main") (VBool false)),
        logged Sample.world
          (mk_request "GET"
             "https://dev.azure.com/org/project/_apis/git/repositories/123?api-version=7.1"
             None)).
Proof.
  split.
  - apply (proj1 (Repo_get_by_id_outcomes (Sample.client false false 404 "" None) "123"
                    Sample.world)).
    reflexivity.
  - apply (proj2 (Repo_get_by_id_outcomes
                    (Sample.client false false 200 "" (Some Service.created)) "123"
                    Sample.world)
                 [ ("id", VStr "123"); ("name", VStr "test-repo") ]);
      reflexivity.
Defined.
